(** * Smart-Fridge-System: the inventory reconciliation and consumption
    pipeline of [src/inventory_manager.py], shallowly embedded.

    Modelling conventions.
    - Python [str] values are [String.string]; [str.lower] is modelled on
      ASCII letters.
    - Python floats are modelled as exact rationals [Q]; the binary
      rounding of [float(...)] is not modelled.
    - [datetime] values are [Z] microseconds since an arbitrary origin;
      [timedelta.total_seconds()] is the difference divided by 10^6 and
      [timedelta.days] its floor division by one day.
    - Python dicts (insertion ordered) are association lists; assigning an
      existing key keeps its position and replaces the value.
    - The iteration order of a Python [set] is unspecified; it is a section
      variable [set_iter], only required to permute its argument. *)

From Stdlib Require Import List String Ascii ZArith QArith Qabs Bool
  Permutation Sorted Lia Lqa.
Import ListNotations.

Open Scope Z_scope.

(* ------------------------------------------------------------------ *)
(** ** Strings *)

Definition lower_ascii (c : ascii) : ascii :=
  let n := nat_of_ascii c in
  if (65 <=? n)%nat && (n <=? 90)%nat then ascii_of_nat (n + 32) else c.

(** [str.lower()] *)
Fixpoint py_lower (s : string) : string :=
  match s with
  | EmptyString => EmptyString
  | String c r => String (lower_ascii c) (py_lower r)
  end.

(* ------------------------------------------------------------------ *)
(** ** Data model *)

(** An inventory item dict.  [quantity = None] means the key is absent. *)
Record item := mk_item {
  name : string;
  category : string;
  quantity : option string;
  notes : string;
  last_seen : Z
}.

(** [item.get('quantity', '1')] *)
Definition get_quantity (it : item) : string :=
  match quantity it with Some q => q | None => "1"%string end.

Definition key := (string * string)%type.

(** [(item['name'].lower(), item['category'].lower())] *)
Definition key_of (it : item) : key := (py_lower (name it), py_lower (category it)).

Definition key_eqb (k1 k2 : key) : bool :=
  String.eqb (fst k1) (fst k2) && String.eqb (snd k1) (snd k2).

Lemma key_eqb_spec k1 k2 : key_eqb k1 k2 = true <-> k1 = k2.
Proof.
  destruct k1 as [a b], k2 as [c d]; unfold key_eqb; simpl.
  rewrite andb_true_iff, !String.eqb_eq. split.
  - intros [-> ->]; reflexivity.
  - intros H; inversion H; auto.
Qed.

Lemma key_eqb_refl k : key_eqb k k = true.
Proof. apply key_eqb_spec; reflexivity. Qed.

(* ------------------------------------------------------------------ *)
(** ** Python dicts as association lists *)

Section Dict.
Context {K V : Type} (eqb : K -> K -> bool).

Fixpoint dict_get (k : K) (d : list (K * V)) : option V :=
  match d with
  | [] => None
  | (k', v) :: r => if eqb k k' then Some v else dict_get k r
  end.

(** [d[k] = v] *)
Fixpoint dict_set (k : K) (v : V) (d : list (K * V)) : list (K * V) :=
  match d with
  | [] => [(k, v)]
  | (k', v') :: r => if eqb k k' then (k', v) :: r else (k', v') :: dict_set k v r
  end.

Definition dict_mem (k : K) (d : list (K * V)) : bool :=
  match dict_get k d with Some _ => true | None => false end.
End Dict.

Definition key_mem (k : key) (ks : list key) : bool := existsb (key_eqb k) ks.

(** [{key_of(item): item for item in items}] *)
Definition build_dict (items : list item) : list (key * item) :=
  fold_left (fun d it => dict_set key_eqb (key_of it) it d) items [].

Definition opt_list {A} (o : option A) : list A :=
  match o with Some a => [a] | None => [] end.

(* ------------------------------------------------------------------ *)
(** ** [_extract_quantity] *)

Definition is_digit (c : ascii) : bool :=
  let n := nat_of_ascii c in (48 <=? n)%nat && (n <=? 57)%nat.

Fixpoint take_digits (l : list ascii) : list ascii * list ascii :=
  match l with
  | c :: r => if is_digit c then let (ds, rest) := take_digits r in (c :: ds, rest)
              else ([], l)
  | [] => ([], [])
  end.

(** Leftmost match of the regex [\d+\.?\d*] (group 1 of the source pattern): greedy digits, an optional
    dot, greedy digits.  Returns the integer digits and, when the dot was
    taken, the fractional digits. *)
Fixpoint regex_search (l : list ascii) : option (list ascii * option (list ascii)) :=
  match l with
  | [] => None
  | c :: r =>
      if is_digit c then
        let (ip, rest) := take_digits l in
        match rest with
        | "."%char :: rest' => Some (ip, Some (fst (take_digits rest')))
        | _ => Some (ip, None)
        end
      else regex_search r
  end.

Definition digit_val (c : ascii) : Z := Z.of_nat (nat_of_ascii c) - 48.

Definition digits_val (ds : list ascii) : Z :=
  fold_left (fun acc c => 10 * acc + digit_val c) ds 0.

(** [float(match.group(1))], exactly. *)
Definition parse_float (m : list ascii * option (list ascii)) : Q :=
  let (ip, fp) := m in
  match fp with
  | None => inject_Z (digits_val ip)
  | Some fs => inject_Z (digits_val ip) +
               inject_Z (digits_val fs) / inject_Z (10 ^ Z.of_nat (List.length fs))
  end.

(** [_extract_quantity(quantity_str)]; [None] is Python's [None].  The bare
    [except] never fires on strings: the regex search and [float] of a
    matched numeral do not raise. *)
Definition extract_quantity (q : option string) : Q :=
  match q with
  | None => 1
  | Some s =>
      if String.eqb s "" then 1
      else match regex_search (list_ascii_of_string s) with
           | Some m => parse_float m
           | None => 1
           end
  end.

(* ------------------------------------------------------------------ *)
(** ** [_compute_inventory_diff] *)

Record diff_result := mk_diff {
  added : list item;
  removed : list item;
  changed : list (item * Q);   (** the new item and its [quantity_diff] *)
  unchanged : list item
}.

Section Differ.
Variable set_iter : list key -> list key.
Hypothesis set_iter_perm : forall l, Permutation (set_iter l) l.

(** [set(a) - set(b)] and [set(a) & set(b)], iterated. *)
Definition set_minus (a b : list key) : list key :=
  set_iter (filter (fun k => negb (key_mem k b)) a).
Definition set_inter (a b : list key) : list key :=
  set_iter (filter (fun k => key_mem k b) a).

Definition classify_common (old_items new_items : list (key * item)) (k : key)
  : list (item * Q) * list item :=
  match dict_get key_eqb k old_items, dict_get key_eqb k new_items with
  | Some old_item, Some new_item =>
      let old_qty := extract_quantity (Some (get_quantity old_item)) in
      let new_qty := extract_quantity (Some (get_quantity new_item)) in
      if negb (Qeq_bool old_qty new_qty)
      then ([(new_item, (new_qty - old_qty)%Q)], [])
      else ([], [new_item])
  | _, _ => ([], [])
  end.

Definition compute_inventory_diff (old_inventory new_inventory : list item) : diff_result :=
  let old_items := build_dict old_inventory in
  let new_items := build_dict new_inventory in
  let old_keys := map fst old_items in
  let new_keys := map fst new_items in
  let common := map (classify_common old_items new_items) (set_inter old_keys new_keys) in
  {| added := flat_map (fun k => opt_list (dict_get key_eqb k new_items)) (set_minus new_keys old_keys);
     removed := flat_map (fun k => opt_list (dict_get key_eqb k old_items)) (set_minus old_keys new_keys);
     changed := flat_map fst common;
     unchanged := flat_map snd common |}.
End Differ.

(* ------------------------------------------------------------------ *)
(** ** Consumption patterns: [self.consumption_patterns] *)

Inductive action := Consumed | PartialConsumed.

(** The [quantity] of a history record: the raw [item.get('quantity', '1')]
    for a removal, [abs(quantity_diff)] for a reduction. *)
Inductive rec_qty := RawQty (s : string) | NumQty (q : Q).

Record hist_rec := mk_rec {
  h_timestamp : Z;
  h_action : action;
  h_quantity : rec_qty
}.

Record pattern := mk_pattern {
  last_consumed : Z;
  consumption_rate : Q;
  history : list hist_rec
}.

(** A dict keyed by [item['name'].lower()]. *)
Definition patterns := list (string * pattern).

Definition Qltb (a b : Q) : bool := negb (Qle_bool b a).

(** Python's [/] on floats: [ZeroDivisionError] is [None]. *)
Definition py_div (a b : Q) : option Q :=
  if Qeq_bool b 0 then None else Some (a / b)%Q.

Notation "x <- m ;; k" := (match m with Some x => k | None => None end)
  (at level 61, m at next level, right associativity).

(** The body shared by the tracking loops: create the entry if absent,
    append the record, set [last_consumed]. *)
Definition track_event (timestamp : Z) (item_name : string) (r : hist_rec)
    (P : patterns) : patterns :=
  let P1 := if dict_mem String.eqb item_name P then P
            else dict_set String.eqb item_name (mk_pattern timestamp 0 []) P in
  match dict_get String.eqb item_name P1 with
  | Some p => dict_set String.eqb item_name
                (mk_pattern timestamp (consumption_rate p) (history p ++ [r])) P1
  | None => P1
  end.

(** One iteration of [for item in diff['removed']]. *)
Definition track_removed (timestamp : Z) (P : patterns) (it : item) : patterns :=
  track_event timestamp (py_lower (name it))
    (mk_rec timestamp Consumed (RawQty (get_quantity it))) P.

(** One iteration of [for item in diff['changed']]. *)
Definition track_changed (timestamp : Z) (P : patterns) (c : item * Q) : patterns :=
  let (it, quantity_diff) := c in
  if Qltb quantity_diff 0 then
    track_event timestamp (py_lower (name it))
      (mk_rec timestamp PartialConsumed (NumQty (Qabs quantity_diff))) P
  else P.

(** [timedelta.total_seconds()] *)
Definition total_seconds (d : Z) : Q := inject_Z d / inject_Z 1000000.

(** [history[i]['timestamp'] - history[i-1]['timestamp']] for
    [i in range(1, len(history))]. *)
Fixpoint gaps (h : list hist_rec) : list Q :=
  match h with
  | r1 :: ((r2 :: _) as rest) =>
      total_seconds (h_timestamp r2 - h_timestamp r1) :: gaps rest
  | _ => []
  end.

Definition sumQ (l : list Q) : Q := fold_left Qplus l 0%Q.

(** The body of [for item_name, pattern in self.consumption_patterns.items()]. *)
Definition recompute_rate (p : pattern) : option pattern :=
  if (2 <=? List.length (history p))%nat then
    let time_diffs := filter (fun delta => Qltb 0 delta) (gaps (history p)) in
    match time_diffs with
    | [] => Some p
    | _ =>
        avg_s <- py_div (sumQ time_diffs) (inject_Z (Z.of_nat (List.length time_diffs))) ;;
        avg_hours_between <- py_div avg_s 3600 ;;
        if Qltb 0 avg_hours_between then
          rate <- py_div 24 avg_hours_between ;;
          Some (mk_pattern (last_consumed p) rate (history p))
        else Some p
    end
  else Some p.

Fixpoint recompute_all (P : patterns) : option patterns :=
  match P with
  | [] => Some []
  | (k, p) :: r => p' <- recompute_rate p ;; r' <- recompute_all r ;; Some ((k, p') :: r')
  end.

(** The two tracking loops of [_update_consumption_patterns]. *)
Definition append_events (P : patterns) (diff : diff_result) (timestamp : Z) : patterns :=
  fold_left (track_changed timestamp) (changed diff)
    (fold_left (track_removed timestamp) (removed diff) P).

(** [_update_consumption_patterns(diff)]; [timestamp] is its
    [datetime.now()].  [None] is an exception raised by the rate loop. *)
Definition update_consumption_patterns (P : patterns) (diff : diff_result)
    (timestamp : Z) : option patterns :=
  recompute_all (append_events P diff timestamp).

(** [self.consumption_patterns.get(name, {}).get('consumption_rate', 0)] *)
Definition get_rate (P : patterns) (item_name : string) : Q :=
  match dict_get String.eqb item_name P with
  | Some p => consumption_rate p
  | None => 0
  end.

(* ------------------------------------------------------------------ *)
(** ** [save_items]: its effect on the pattern table *)

Section SaveItems.
Variable set_iter : list key -> list key.

(** [logged_in]: [self.user_mgr.current_user] is set; [db_ok]: the database
    writes for the added and removed items return without raising (when
    they raise, the [except] clauses return before the last loop).
    [old_inventory] is [self.get_current_inventory()]; [t_save] is the
    [timestamp] of [save_items] and [t_update] the one taken inside
    [_update_consumption_patterns].  A failing rate loop keeps the
    appends (unreachable: see [recompute_all_total]). *)
Definition save_items_patterns (logged_in db_ok : bool) (P : patterns)
    (old_inventory new_items : list item) (t_save t_update : Z) : patterns :=
  match new_items with
  | [] => P
  | _ =>
      if negb logged_in then P else
      let diff := compute_inventory_diff set_iter old_inventory new_items in
      let P2 := append_events P diff t_update in
      match recompute_all P2 with
      | None => P2
      | Some P3 =>
          if db_ok then fold_left (track_changed t_save) (changed diff) P3 else P3
      end
  end.
End SaveItems.

(* ------------------------------------------------------------------ *)
(** ** [_get_smart_recommendations] *)

(** One document of the [consumed_items] aggregation: [_id.name],
    [_id.category], [count] and [last_consumed] (the [$max] timestamp). *)
Record group := mk_group {
  g_name : string;
  g_category : string;
  g_count : Z;
  g_last_consumed : option Z
}.

Inductive urgency := High | Medium | Low.

Record recommendation := mk_recommendation {
  r_name : string;
  r_category : string;
  r_reason : string;
  r_urgency : urgency;
  r_last_consumed : option Z;
  r_rate : Q
}.

(** One day in microseconds: [timedelta.days] is [delta // one_day]. *)
Definition one_day : Z := 86400 * 1000000.

Definition days_since (now : Z) (last : option Z) : Z :=
  match last with Some t => (now - t) / one_day | None => 0 end.

(** The sort key [(0/1/2 by urgency, -consumption_rate)]. *)
Definition urgency_rank (u : urgency) : Z :=
  match u with High => 0 | Medium => 1 | Low => 2 end.

Definition sort_key_lt (a b : recommendation) : bool :=
  (urgency_rank (r_urgency a) <? urgency_rank (r_urgency b)) ||
  ((urgency_rank (r_urgency a) =? urgency_rank (r_urgency b)) &&
   Qltb (- r_rate a) (- r_rate b)).

(** Python's [sorted] is stable: insertion after every element whose key is
    not greater. *)
Fixpoint insert_sorted (x : recommendation) (l : list recommendation) : list recommendation :=
  match l with
  | [] => [x]
  | y :: r => if sort_key_lt x y then x :: y :: r else y :: insert_sorted x r
  end.

Definition py_sorted (l : list recommendation) : list recommendation :=
  fold_left (fun acc x => insert_sorted x acc) l [].

Section Ranker.
(** [f"{consumption_rate:.1f}"]: float formatting is not modelled. *)
Variable fmt_1f : Q -> string.

(** The loop body for one aggregated [item]; [None] is [continue]. *)
Definition recommend_one (now : Z) (P : patterns)
    (inventory_items : list (key * item)) (g : group) : option recommendation :=
  let item_name := g_name g in
  let item_key := (py_lower item_name, py_lower (g_category g)) in
  let skip :=
    match dict_get key_eqb item_key inventory_items with
    | Some inv_item => Qltb (1 # 2) (extract_quantity (Some (get_quantity inv_item)))
    | None => false
    end in
  if skip then None else
  let consumption_rate := get_rate P (py_lower item_name) in
  let days_since_last := days_since now (g_last_consumed g) in
  let '(urg, reason) :=
    if Qltb (3 # 10) consumption_rate then
      (High, ("Frequently used (" ++ fmt_1f consumption_rate ++ "/day)")%string)
    else if days_since_last <? 3 then (Medium, "Recently consumed"%string)
    else (Low, "Occasionally used"%string) in
  Some (mk_recommendation item_name (g_category g) reason urg
          (g_last_consumed g) consumption_rate).

(** [_get_smart_recommendations(current_inventory, db, username)];
    [consumed_items] is the result of the aggregation and [now] the
    clock read by the loop. *)
Definition get_smart_recommendations (now : Z) (P : patterns)
    (current_inventory : list item) (consumed_items : list group)
    : list recommendation :=
  let inventory_items := build_dict current_inventory in
  py_sorted (flat_map (fun g => opt_list (recommend_one now P inventory_items g))
               consumed_items).
End Ranker.

(* ------------------------------------------------------------------ *)
(** ** Python string helpers used by the menus and the parser *)

(** [str.isspace()] on ASCII: tab, newline, vertical tab, form feed,
    carriage return, the separators 0x1c-0x1f and space. *)
Definition is_space (c : ascii) : bool :=
  let n := nat_of_ascii c in
  ((9 <=? n)%nat && (n <=? 13)%nat) || ((28 <=? n)%nat && (n <=? 32)%nat).

Fixpoint lstrip_chars (p : ascii -> bool) (l : list ascii) : list ascii :=
  match l with
  | c :: r => if p c then lstrip_chars p r else l
  | [] => []
  end.

Definition rstrip_chars (p : ascii -> bool) (l : list ascii) : list ascii :=
  rev (lstrip_chars p (rev l)).

(** [s.strip()] *)
Definition py_strip (s : string) : string :=
  string_of_list_ascii (rstrip_chars is_space (lstrip_chars is_space (list_ascii_of_string s))).

(** [s.rstrip(ch)] for a one-character argument. *)
Definition py_rstrip_char (ch : ascii) (s : string) : string :=
  string_of_list_ascii (rstrip_chars (Ascii.eqb ch) (list_ascii_of_string s)).

(** [s.split(sep)] for a one-character separator: every occurrence cuts,
    empty pieces are kept, and [""] gives [[""]]. *)
Fixpoint split_char_go (sep : ascii) (l : list ascii) (cur : list ascii) : list (list ascii) :=
  match l with
  | [] => [cur]
  | c :: r => if Ascii.eqb c sep then cur :: split_char_go sep r []
              else split_char_go sep r (cur ++ [c])
  end.

Definition py_split_char (sep : ascii) (s : string) : list string :=
  map string_of_list_ascii (split_char_go sep (list_ascii_of_string s) []).

(** The body of a base-10 [int(...)] literal after the sign: digits, with
    single underscores allowed between two digits. *)
Fixpoint int_digits (l : list ascii) (acc : Z) : option Z :=
  match l with
  | [] => Some acc
  | c :: r =>
      if is_digit c then int_digits r (10 * acc + digit_val c)
      else if Ascii.eqb c "_"%char then
        match r with
        | d :: r' => if is_digit d then int_digits r' (10 * acc + digit_val d) else None
        | [] => None
        end
      else None
  end.

Definition int_body (l : list ascii) : option Z :=
  match l with
  | c :: r => if is_digit c then int_digits r (digit_val c) else None
  | [] => None
  end.

(** [int(s)] on a [str]: surrounding whitespace, an optional sign, then the
    digits; [None] is the [ValueError]. *)
Definition py_int (s : string) : option Z :=
  match rstrip_chars is_space (lstrip_chars is_space (list_ascii_of_string s)) with
  | "+"%char :: r => int_body r
  | "-"%char :: r => option_map Z.opp (int_body r)
  | l => int_body l
  end.

(** [[int(x.strip()) for x in choice.split(',')]]; [None] is the
    [ValueError] raised by the first bad piece. *)
Fixpoint all_some {A} (l : list (option A)) : option (list A) :=
  match l with
  | [] => Some []
  | Some x :: r => match all_some r with Some xs => Some (x :: xs) | None => None end
  | None :: _ => None
  end.

Definition parse_numbers (choice : string) : option (list Z) :=
  all_some (map (fun x => py_int (py_strip x)) (py_split_char ","%char choice)).

(** [seq[i]] with Python's negative indices; [None] is the [IndexError]. *)
Definition py_index {A} (l : list A) (i : Z) : option A :=
  if (0 <=? i) then nth_error l (Z.to_nat i)
  else if (- Z.of_nat (List.length l) <=? i) then nth_error l (Z.to_nat (Z.of_nat (List.length l) + i))
  else None.

(** [str] ordering [<]: lexicographic on code points. *)
Definition str_lt (a b : string) : bool :=
  match String.compare a b with Lt => true | _ => false end.

(* ------------------------------------------------------------------ *)
(** ** Python's [sorted]: a stable sort *)

Section StableSort.
Context {A : Type} (lt : A -> A -> bool).

(** Insertion after every element that is not greater, so that equal keys
    keep their input order. *)
Fixpoint insert_by (x : A) (l : list A) : list A :=
  match l with
  | [] => [x]
  | y :: r => if lt x y then x :: y :: r else y :: insert_by x r
  end.

Definition sort_by (l : list A) : list A :=
  fold_left (fun acc x => insert_by x acc) l [].
End StableSort.

(* ------------------------------------------------------------------ *)
(** ** [get_current_inventory] *)

(** The sort key [(x.get('category', ''), x.get('name', ''))] compared as a
    tuple. *)
Definition inventory_key_lt (a b : item) : bool :=
  match String.compare (category a) (category b) with
  | Lt => true
  | Gt => false
  | Eq => str_lt (name a) (name b)
  end.

(** [get_current_inventory()]: [logged_in] is [self.user_mgr.current_user],
    [user] the user document ([None]: no document; a document without an
    [inventory] field has the empty list).  Every writer of the inventory
    ([save_items]) stores [last_seen], so the [get] default is not reached.
    The read of [datetime.now()] is [now]. *)
Definition get_current_inventory (logged_in : bool) (user : option (list item)) (now : Z)
    : list item :=
  if negb logged_in then [] else
  match user with
  | None => []
  | Some inventory =>
      let one_week_ago := now - 7 * one_day in
      let current_items := filter (fun it => one_week_ago <=? last_seen it) inventory in
      sort_by inventory_key_lt current_items
  end.

(* ------------------------------------------------------------------ *)
(** ** The grocery list: [self.current_grocery_list] *)

(** A grocery-list entry dict; the optional keys are [None] when absent.
    Common items carry [type = "common"], custom items [type = "custom"]
    with [quantity] and [notes], smart recommendations
    [type = "smart_recommendation"] with [urgency] and [reason]. *)
Record gitem := mk_gitem {
  gi_name : string;
  gi_category : string;
  gi_type : option string;
  gi_quantity : option string;
  gi_notes : option string;
  gi_urgency : option urgency;
  gi_reason : option string
}.

Record grocery_list := mk_glist {
  smart_recommendations : list recommendation;
  selected_items : list gitem;
  custom_items : list gitem
}.

Definition set_selected (L : grocery_list) (s : list gitem) : grocery_list :=
  mk_glist (smart_recommendations L) s (custom_items L).

Definition set_custom (L : grocery_list) (c : list gitem) : grocery_list :=
  mk_glist (smart_recommendations L) (selected_items L) c.

(** [item['name'].lower() == item_name.lower() and
     item['category'].lower() == category.lower()] *)
Definition gmatches (item_name category : string) (it : gitem) : bool :=
  String.eqb (py_lower (gi_name it)) (py_lower item_name) &&
  String.eqb (py_lower (gi_category it)) (py_lower category).

(** [_is_item_in_list(item_name, category)] *)
Definition is_item_in_list (L : grocery_list) (item_name category : string) : bool :=
  existsb (gmatches item_name category) (selected_items L ++ custom_items L).

(** [_remove_item_from_list(item_name, category)]: rebuilds
    [selected_items] only. *)
Definition remove_item_from_list (L : grocery_list) (item_name category : string)
    : grocery_list :=
  set_selected L (filter (fun it => negb (gmatches item_name category it)) (selected_items L)).

(** [{"name": item, "category": category, "type": "common"}] *)
Definition common_entry (item_name category : string) : gitem :=
  mk_gitem item_name category (Some "common"%string) None None None None.

Definition append_selected (L : grocery_list) (it : gitem) : grocery_list :=
  set_selected L (selected_items L ++ [it]).

(** [_add_all_items_from_category(items, category)] *)
Definition add_all_items_from_category (L : grocery_list) (items : list string)
    (category : string) : grocery_list :=
  fold_left (fun L it => if is_item_in_list L it category then L
                         else append_selected L (common_entry it category))
    items L.

(** [_remove_all_items_from_category(items, category)] *)
Definition remove_all_items_from_category (L : grocery_list) (items : list string)
    (category : string) : grocery_list :=
  fold_left (fun L it => remove_item_from_list L it category) items L.

(** One number of [_toggle_items_by_numbers]. *)
Definition toggle_one (items : list string) (category : string) (L : grocery_list) (num : Z)
    : grocery_list :=
  if (1 <=? num) && (num <=? Z.of_nat (List.length items)) then
    match nth_error items (Z.to_nat (num - 1)) with
    | Some item_name =>
        if is_item_in_list L item_name category
        then remove_item_from_list L item_name category
        else append_selected L (common_entry item_name category)
    | None => L
    end
  else L.

(** [_toggle_items_by_numbers(items, category, choice)]: a [ValueError]
    while parsing leaves the list as it was. *)
Definition toggle_items_by_numbers (L : grocery_list) (items : list string)
    (category : string) (choice : string) : grocery_list :=
  match parse_numbers choice with
  | None => L
  | Some numbers => fold_left (toggle_one items category) numbers L
  end.

(** [list.pop(i)] for [i >= 0]; [None] is the [IndexError]. *)
Definition py_pop {A} (l : list A) (i : nat) : option (A * list A) :=
  match nth_error l i with
  | Some x => Some (x, firstn i l ++ skipn (S i) l)
  | None => None
  end.

(** The removal loop of [_remove_items_from_list]: [total] is
    [len(all_items)], computed before the loop.  The result is the list,
    the removed names and whether an [IndexError] escaped (the pops done
    before it stay done). *)
Fixpoint remove_numbers (total : Z) (numbers : list Z) (L : grocery_list)
    (removed : list string) : grocery_list * list string * bool :=
  match numbers with
  | [] => (L, removed, false)
  | num :: rest =>
      if (1 <=? num) && (num <=? total) then
        let item_index := num - 1 in
        if item_index <? Z.of_nat (List.length (selected_items L)) then
          match py_pop (selected_items L) (Z.to_nat item_index) with
          | Some (x, sel') => remove_numbers total rest (set_selected L sel') (removed ++ [gi_name x])
          | None => (L, removed, true)
          end
        else
          let custom_index := item_index - Z.of_nat (List.length (selected_items L)) in
          match py_pop (custom_items L) (Z.to_nat custom_index) with
          | Some (x, cus') => remove_numbers total rest (set_custom L cus') (removed ++ [gi_name x])
          | None => (L, removed, true)
          end
      else remove_numbers total rest L removed
  end.

(** [numbers.sort(reverse=True)] *)
Definition sort_desc (numbers : list Z) : list Z := sort_by (fun a b => b <? a) numbers.

(** [_remove_items_from_list()] with [choice] the raw input line. *)
Definition remove_items_from_list (L : grocery_list) (choice : string)
    : grocery_list * list string * bool :=
  let all_items := selected_items L ++ custom_items L in
  match all_items with
  | [] => (L, [], false)
  | _ =>
      let choice := py_strip choice in
      if String.eqb choice "0" then (L, [], false) else
      match parse_numbers choice with
      | None => (L, [], false)
      | Some numbers =>
          remove_numbers (Z.of_nat (List.length all_items)) (sort_desc numbers) L []
      end
  end.

(** The entry appended by [_add_smart_recommendations]. *)
Definition smart_entry (rec : recommendation) : gitem :=
  mk_gitem (r_name rec) (r_category rec) (Some "smart_recommendation"%string) None None
    (Some (r_urgency rec)) (Some (r_reason rec)).

(** [_add_smart_recommendations()] with [choice] the raw input line. *)
Definition add_smart_recommendations (L : grocery_list) (choice : string) : grocery_list :=
  match smart_recommendations L with
  | [] => L
  | recs =>
      let choice := py_strip choice in
      if String.eqb choice "0" then L else
      match parse_numbers choice with
      | None => L
      | Some numbers =>
          fold_left (fun L num =>
              if (1 <=? num) && (num <=? Z.of_nat (List.length recs)) then
                match nth_error recs (Z.to_nat (num - 1)) with
                | Some rec => append_selected L (smart_entry rec)
                | None => L
                end
              else L) numbers L
      end
  end.

(** [categories[int(cat_input) - 1]], falling back on [default] when
    [int] raises [ValueError] or the index raises [IndexError]. *)
Definition pick_category (categories : list string) (cat_input default : string) : string :=
  match py_int cat_input with
  | Some n => match py_index categories (n - 1) with Some c => c | None => default end
  | None => default
  end.

Definition custom_categories : list string :=
  ["Dairy & Eggs"; "Grains & Cereals"; "Vegetables"; "Fruits";
   "Pantry Staples"; "Proteins"; "Beverages"; "Other"]%string.

(** [_add_custom_item()] with the four raw input lines. *)
Definition add_custom_item (L : grocery_list) (name_in cat_in quantity_in notes_in : string)
    : grocery_list :=
  let name := py_strip name_in in
  if String.eqb name "" then L else
  let cat_input := py_strip cat_in in
  let category := pick_category custom_categories cat_input
                    (if String.eqb cat_input "" then "Other"%string else cat_input) in
  set_custom L (custom_items L ++
    [mk_gitem name category (Some "custom"%string)
       (Some (py_strip quantity_in)) (Some (py_strip notes_in)) None None]).

(** The category choice of [add_item_manually]: the raw [cat_choice] is
    the fallback. *)
Definition manual_categories : list string :=
  ["Fruits"; "Vegetables"; "Dairy"; "Meat"; "Beverages"; "Condiments"; "Leftovers"]%string.

Definition manual_category (cat_choice : string) : string :=
  pick_category manual_categories cat_choice cat_choice.

(** The [type] test of [_load_saved_grocery_list] and
    [_edit_existing_grocery_list]: [item.get('type') == 'custom']. *)
Definition is_custom (it : gitem) : bool :=
  match gi_type it with Some t => String.eqb t "custom" | None => false end.

(** A document of the [grocery_lists] collection. *)
Record gdoc := mk_gdoc {
  gd_username : string;
  gd_name : string;
  gd_items : list gitem;
  gd_created_at : Z;
  gd_type : string;
  gd_total_items : Z
}.

(** [_save_grocery_list(db, username)]: [None] is the early [return False]
    on an empty list, [Some doc] the document passed to [insert_one] (the
    insert is taken to succeed).  [name_in] is the raw input line,
    [fmt_time] the [strftime('%Y-%m-%d %H:%M')] rendering, and both reads of
    the clock are [now]. *)
Definition save_grocery_list (fmt_time : Z -> string) (username : string) (now : Z)
    (name_in : string) (L : grocery_list) : option gdoc :=
  let all_items := selected_items L ++ custom_items L in
  match all_items with
  | [] => None
  | _ =>
      let list_name := py_strip name_in in
      let list_name := if String.eqb list_name "" then ("Grocery List " ++ fmt_time now)%string
                       else list_name in
      Some (mk_gdoc username list_name all_items now "enhanced_grocery_list"
              (Z.of_nat (List.length all_items)))
  end.

(** The loading step of [_load_saved_grocery_list] for the chosen
    document: both lists are cleared, then each item is appended to
    [custom_items] or [selected_items] by its type. *)
Definition load_saved_grocery_list (L : grocery_list) (doc : gdoc) : grocery_list :=
  fold_left (fun L it => if is_custom it then set_custom L (custom_items L ++ [it])
                         else append_selected L it)
    (gd_items doc) (set_custom (set_selected L []) []).

(** [{item['name'].lower() for item in items}], a Python set as a
    duplicate-free list. *)
Definition name_set (items : list gitem) : list string :=
  nodup string_dec (map (fun it => py_lower (gi_name it)) items).

Definition str_mem (x : string) (l : list string) : bool := existsb (String.eqb x) l.

(** [a - b] and [a & b] on such sets. *)
Definition str_set_minus (a b : list string) : list string := filter (fun x => negb (str_mem x b)) a.
Definition str_set_inter (a b : list string) : list string := filter (fun x => str_mem x b) a.

(** The five counts of the summary printed by [_compare_grocery_lists]:
    the two totals, the common items and the items unique to each list. *)
Definition compare_summary (items1 items2 : list gitem) : nat * nat * nat * nat * nat :=
  let s1 := name_set items1 in
  let s2 := name_set items2 in
  (List.length s1, List.length s2, List.length (str_set_inter s1 s2),
   List.length (str_set_minus s1 s2), List.length (str_set_minus s2 s1)).

(** The [categories] dict built by [_view_full_grocery_list],
    [_view_grocery_list_details] and [_export_grocery_list]:
    [if cat not in categories: categories[cat] = []] then
    [categories[cat].append(item)]. *)
Definition group_by_category (items : list gitem) : list (string * list gitem) :=
  fold_left (fun cats it =>
      let cat := gi_category it in
      let cats := if dict_mem String.eqb cat cats then cats
                  else dict_set String.eqb cat [] cats in
      let bucket := match dict_get String.eqb cat cats with Some l => l | None => [] end in
      dict_set String.eqb cat (bucket ++ [it]) cats)
    items [].

(* ------------------------------------------------------------------ *)
(** ** [VisionService.parse_inventory] (the input of [scan_fridge]'s
    [save_items] call) *)

(** A parsed item dict: [quantity] and [notes] are [None] when absent. *)
Record parsed_item := mk_parsed {
  p_category : string;
  p_name : string;
  p_quantity : option string;
  p_notes : option string;
  p_timestamp : Z
}.

Fixpoint prefixb (p l : list ascii) : bool :=
  match p, l with
  | [], _ => true
  | c :: p', d :: l' => Ascii.eqb c d && prefixb p' l'
  | _ :: _, [] => false
  end.

(** [sub in s] *)
Fixpoint contains_sub (p l : list ascii) : bool :=
  prefixb p l || match l with [] => false | _ :: r => contains_sub p r end.

(** [s.split(sep)] for a non-empty separator: left to right, the
    occurrences do not overlap; [fuel] bounds the scan. *)
Fixpoint split_sub_go (fuel : nat) (sep l cur : list ascii) : list (list ascii) :=
  match fuel with
  | O => [cur ++ l]
  | S f =>
      match l with
      | [] => [cur]
      | c :: r =>
          if prefixb sep l then cur :: split_sub_go f sep (skipn (List.length sep) l) []
          else split_sub_go f sep r (cur ++ [c])
      end
  end.

Definition py_split_sub (sep : string) (s : string) : list string :=
  let l := list_ascii_of_string s in
  map string_of_list_ascii (split_sub_go (S (List.length l)) (list_ascii_of_string sep) l []).

Definition has_char (c : ascii) (s : string) : bool :=
  existsb (Ascii.eqb c) (list_ascii_of_string s).

Definition starts_dash (s : string) : bool :=
  match s with String "-"%char _ => true | _ => false end.

(** [if ... and current_category]: [None] and [""] are falsy. *)
Definition truthy (cur : option string) : option string :=
  match cur with Some c => if String.eqb c "" then None else Some c | None => None end.

Section ParseInventory.
(** [self.normalize_ingredient_name]: its regex rewriting is not modelled. *)
Variable normalize_ingredient_name : string -> string.
(** The clock read for [item_info['timestamp']]. *)
Variable now : Z.

(** One loop iteration on a raw line: the new [current_category], the item
    appended (if any); [None] is the [ValueError] of the tuple unpacking of
    [item_text.split('(x')]. *)
Definition parse_line (cur : option string) (line : string)
    : option (option string * option parsed_item) :=
  let line := py_strip line in
  if String.eqb line "" then Some (cur, None)
  else if has_char ":"%char line && negb (starts_dash line) then
    Some (Some (py_rstrip_char ":"%char line), None)
  else match starts_dash line, truthy cur with
  | true, Some cat =>
      let item_text := py_strip (substring 1 (String.length line - 1) line) in
      if contains_sub (list_ascii_of_string "(x") (list_ascii_of_string item_text) then
        match py_split_sub "(x" item_text with
        | [item_name; quantity_str] =>
            Some (cur, Some (mk_parsed cat (normalize_ingredient_name (py_strip item_name))
                               (Some (py_rstrip_char ")"%char quantity_str)) None now))
        | _ => None
        end
      else if has_char "("%char item_text && has_char ")"%char item_text then
        match py_split_char "("%char item_text with
        | p0 :: p1 :: _ =>
            Some (cur, Some (mk_parsed cat (normalize_ingredient_name (py_strip p0))
                               None (Some (py_rstrip_char ")"%char p1)) now))
        | _ => Some (cur, None)
        end
      else Some (cur, Some (mk_parsed cat (normalize_ingredient_name item_text) None None now))
  | _, _ => Some (cur, None)
  end.

Fixpoint parse_lines (cur : option string) (lines : list string) : option (list parsed_item) :=
  match lines with
  | [] => Some []
  | line :: rest =>
      match parse_line cur line with
      | None => None
      | Some (cur', o) =>
          match parse_lines cur' rest with
          | Some items => Some (opt_list o ++ items)
          | None => None
          end
      end
  end.

(** [parse_inventory(items_text)] *)
Definition parse_inventory (items_text : string) : option (list parsed_item) :=
  parse_lines None (py_split_char "010"%char items_text).
End ParseInventory.

(* ------------------------------------------------------------------ *)
(** ** Observations used in the statements *)

(** The last item of [l] whose identity key is [k]. *)
Definition last_with (k : key) (l : list item) : option item :=
  fold_left (fun acc it => if key_eqb k (key_of it) then Some it else acc) l None.

(** How many times the key [k] occurs in a list of keys. *)
Fixpoint kcount (k : key) (ks : list key) : nat :=
  match ks with
  | [] => 0%nat
  | k' :: r => ((if key_eqb k k' then 1 else 0) + kcount k r)%nat
  end.

(** 1 when some item of [l] has identity key [k], else 0. *)
Definition bucket_has (k : key) (l : list item) : nat :=
  if key_mem k (map key_of l) then 1%nat else 0%nat.

(** The number of buckets of [d] in which the key [k] appears. *)
Definition buckets_containing (k : key) (d : diff_result) : nat :=
  (bucket_has k (added d) + bucket_has k (removed d) +
   bucket_has k (map fst (changed d)) + bucket_has k (unchanged d))%nat.

(** [x] is the last item of [l] carrying the identity key of [x]. *)
Definition is_last_in (x : item) (l : list item) : Prop :=
  exists pre post, l = pre ++ x :: post /\ forall y, In y post -> key_of y <> key_of x.

(** [l] contains no decimal digit. *)
Definition no_digit (l : list ascii) : bool := forallb (fun c => negb (is_digit c)) l.

(** [l] does not start with a decimal digit. *)
Definition starts_nondigit (l : list ascii) : bool :=
  match l with c :: _ => negb (is_digit c) | [] => true end.

(** The history and the rate of a possibly absent pattern entry. *)
Definition hist_of (o : option pattern) : list hist_rec :=
  match o with Some p => history p | None => [] end.
Definition rate_of (o : option pattern) : Q :=
  match o with Some p => consumption_rate p | None => 0%Q end.

(** The entry [o] after the records [es] are appended at time [ts]: created
    with rate 0 if absent, [last_consumed] set to [ts]. *)
Definition entry_after (o : option pattern) (es : list hist_rec) (ts : Z) : option pattern :=
  match es with
  | [] => o
  | _ => Some (mk_pattern ts (rate_of o) (hist_of o ++ es))
  end.

(** One [consumed] record per removed item whose lowercased name is [n]. *)
Definition consumed_events (n : string) (items : list item) (ts : Z) : list hist_rec :=
  map (fun it => mk_rec ts Consumed (RawQty (get_quantity it)))
      (filter (fun it => String.eqb (py_lower (name it)) n) items).

(** One [partial_consumed] record per changed item named [n] whose
    [quantity_diff] is negative. *)
Definition partial_events (n : string) (chs : list (item * Q)) (ts : Z) : list hist_rec :=
  map (fun c => mk_rec ts PartialConsumed (NumQty (Qabs (snd c))))
      (filter (fun c => String.eqb (py_lower (name (fst c))) n && Qltb (snd c) 0) chs).

Definition events_for (n : string) (d : diff_result) (ts : Z) : list hist_rec :=
  consumed_events n (removed d) ts ++ partial_events n (changed d) ts.

(** The pattern after the rate loop of [_update_consumption_patterns]. *)
Definition recomputed (p : pattern) : pattern :=
  match recompute_rate p with Some p' => p' | None => p end.

(** The rate-0 invariant: an entry with fewer than two records has rate 0. *)
Definition wf_patterns (P : patterns) : Prop :=
  forall n p, dict_get String.eqb n P = Some p ->
    (List.length (history p) < 2)%nat -> consumption_rate p = 0%Q.

(** The rate recomputation in the words of the spec: gaps in seconds between
    consecutive records, the non-positive ones dropped, the rate set to
    86400 / average gap; the previous rate when no gap is positive; 0 for
    fewer than two records. *)
Definition seconds_between (a b : hist_rec) : Q :=
  inject_Z (h_timestamp b - h_timestamp a) / inject_Z 1000000.

Definition successive_gaps (h : list hist_rec) : list Q :=
  map (fun ab => seconds_between (fst ab) (snd ab)) (combine h (tl h)).

Definition average (l : list Q) : Q := sumQ l / inject_Z (Z.of_nat (List.length l)).

Definition rate_from_history (h : list hist_rec) (previous : Q) : Q :=
  if (List.length h <? 2)%nat then 0%Q else
  match filter (fun g => Qltb 0 g) (successive_gaps h) with
  | [] => previous
  | gs => (86400 / average gs)%Q
  end.

(** The ranking order in the words of the spec: a lower urgency tier first
    (High, then Medium, then Low), and within a tier a higher rate first. *)
Definition rank_le (a b : recommendation) : Prop :=
  (urgency_rank (r_urgency a) < urgency_rank (r_urgency b))%Z \/
  (urgency_rank (r_urgency a) = urgency_rank (r_urgency b) /\ (r_rate b <= r_rate a)%Q).

(** The Ranker's suppression condition for a group: the last item of the
    inventory carrying the group's identity key has a normalized quantity
    above 0.5. *)
Definition suppressed (current_inventory : list item) (g : group) : Prop :=
  exists x, key_of x = (py_lower (g_name g), py_lower (g_category g)) /\
            is_last_in x current_inventory /\
            (1 # 2 < extract_quantity (Some (get_quantity x)))%Q.

(** The elements of [l] whose 1-based position, counted from [start], is
    not in [P]. *)
Fixpoint drop_pos {A} (l : list A) (start : Z) (P : list Z) : list A :=
  match l with
  | [] => []
  | x :: r => (if existsb (Z.eqb start) P then [] else [x]) ++ drop_pos r (start + 1) P
  end.

(** The elements of [l] whose 1-based position, counted from [start], is
    in [P], in order. *)
Fixpoint keep_pos {A} (l : list A) (start : Z) (P : list Z) : list A :=
  match l with
  | [] => []
  | x :: r => (if existsb (Z.eqb start) P then [x] else []) ++ keep_pos r (start + 1) P
  end.

(** The grocery-list entries are filed by type: [selected_items] holds no
    custom entry, [custom_items] only custom ones. *)
Definition well_typed (L : grocery_list) : Prop :=
  Forall (fun it => is_custom it = false) (selected_items L) /\
  Forall (fun it => is_custom it = true) (custom_items L).

(** The distinct elements of [l] in order of first appearance. *)
Definition unique_first (l : list string) : list string :=
  fold_left (fun acc x => if str_mem x acc then acc else acc ++ [x]) l [].

(** The order in which [get_current_inventory] lists items: category, then
    name. *)
Definition inventory_key_le (a b : item) : Prop := inventory_key_lt b a = false.

(** The numbers [_remove_items_from_list] acts on:
    [1 <= num <= len(all_items)], with [all_items = sel0 + cus0]. *)
Definition valid_num (sel0 cus0 : list gitem) (k : Z) : bool :=
  (1 <=? k) && (k <=? Z.of_nat (List.length (sel0 ++ cus0))).

(** The name of the entry listed as number [k] in [sel0 + cus0]. *)
Definition name_at (sel0 cus0 : list gitem) (k : Z) : string :=
  match nth_error (sel0 ++ cus0) (Z.to_nat (k - 1)) with Some it => gi_name it | None => ""%string end.

(** The entries of [items] whose category is [c], in order. *)
Definition cat_bucket (items : list gitem) (c : string) : list gitem :=
  filter (fun it => String.eqb (gi_category it) c) items.

(** The text a header line of [parse_inventory] sets as the current
    category: [line.strip().rstrip(':')]. *)
Definition header_of (line : string) : string := py_rstrip_char ":"%char (py_strip line).

(** The shape of an item built by [parse_inventory] at time [now]. *)
Definition good_item (now : Z) (p : parsed_item) : Prop :=
  p_category p <> ""%string /\ p_timestamp p = now /\ (p_quantity p = None \/ p_notes p = None).

(* ================================================================== *)
(** * Facts about the embedding *)

(** ** Association-list dicts *)

Section DictFacts.
Context {K V : Type} (eqb : K -> K -> bool).
Hypothesis eqb_spec : forall a b, eqb a b = true <-> a = b.

Lemma eqb_refl_gen a : eqb a a = true.
Proof. apply eqb_spec; reflexivity. Qed.

Lemma eqb_neq_gen a b : a <> b -> eqb a b = false.
Proof.
  intros H. destruct (eqb a b) eqn:E; [apply eqb_spec in E; contradiction | reflexivity].
Qed.

Lemma dict_get_set k k' v (d : list (K * V)) :
  dict_get eqb k (dict_set eqb k' v d) =
  if eqb k k' then Some v else dict_get eqb k d.
Proof.
  induction d as [|[k1 v1] r IH]; simpl.
  - destruct (eqb k k'); reflexivity.
  - destruct (eqb k' k1) eqn:E1.
    + apply eqb_spec in E1; subst k1. simpl. destruct (eqb k k'); reflexivity.
    + simpl. destruct (eqb k k1) eqn:E2; [|exact IH].
      apply eqb_spec in E2; subst k1.
      destruct (eqb k k') eqn:E3; [|reflexivity].
      apply eqb_spec in E3; subst k'. rewrite eqb_refl_gen in E1; discriminate.
Qed.

Lemma dict_get_in k (d : list (K * V)) :
  dict_get eqb k d <> None <-> In k (map fst d).
Proof.
  induction d as [|[k1 v1] r IH]; simpl.
  - split; [intros H; apply H; reflexivity | intros []].
  - destruct (eqb k k1) eqn:E.
    + apply eqb_spec in E; subst. split; [auto | discriminate].
    + rewrite IH. split; [auto|]. intros [H|H]; [|exact H].
      subst. rewrite eqb_refl_gen in E; discriminate.
Qed.

Lemma dict_set_in k v x (d : list (K * V)) :
  In x (map fst (dict_set eqb k v d)) <-> x = k \/ In x (map fst d).
Proof.
  induction d as [|[k1 v1] r IH]; simpl.
  - intuition (subst; auto).
  - destruct (eqb k k1) eqn:E; simpl.
    + apply eqb_spec in E; subst. intuition (subst; auto).
    + rewrite IH. intuition (subst; auto).
Qed.

Lemma dict_set_nodup k v (d : list (K * V)) :
  NoDup (map fst d) -> NoDup (map fst (dict_set eqb k v d)).
Proof.
  induction d as [|[k1 v1] r IH]; simpl; intros Hnd.
  - constructor; [intros []|constructor].
  - inversion Hnd as [|? ? Hnin Hnd']; subst.
    destruct (eqb k k1) eqn:E; simpl.
    + exact Hnd.
    + constructor; [|exact (IH Hnd')].
      rewrite dict_set_in. intros [H|H]; [|contradiction].
      subst. rewrite eqb_refl_gen in E; discriminate.
Qed.
End DictFacts.

(** ** The key→item mapping built by the dict comprehension *)

Lemma build_dict_gen_get k (l : list item) d0 :
  dict_get key_eqb k (fold_left (fun d it => dict_set key_eqb (key_of it) it d) l d0) =
  fold_left (fun acc it => if key_eqb k (key_of it) then Some it else acc) l
    (dict_get key_eqb k d0).
Proof.
  revert d0; induction l as [|it r IH]; intros d0; simpl; [reflexivity|].
  rewrite IH, (dict_get_set key_eqb key_eqb_spec). reflexivity.
Qed.

Lemma build_dict_get k l : dict_get key_eqb k (build_dict l) = last_with k l.
Proof. unfold build_dict, last_with. rewrite build_dict_gen_get. reflexivity. Qed.

Lemma last_with_key_gen k (l : list item) acc it :
  (forall x, acc = Some x -> key_of x = k) ->
  fold_left (fun acc it => if key_eqb k (key_of it) then Some it else acc) l acc = Some it ->
  key_of it = k.
Proof.
  revert acc; induction l as [|y r IH]; intros acc Hacc H; simpl in H.
  - exact (Hacc _ H).
  - refine (IH _ _ H). intros x Hx.
    destruct (key_eqb k (key_of y)) eqn:E.
    + inversion Hx; subst. symmetry; apply key_eqb_spec; exact E.
    + exact (Hacc _ Hx).
Qed.

Lemma last_with_key k l it : last_with k l = Some it -> key_of it = k.
Proof. apply last_with_key_gen. discriminate. Qed.

Lemma build_dict_gen_keys (l : list item) d0 x :
  In x (map fst (fold_left (fun d it => dict_set key_eqb (key_of it) it d) l d0)) <->
  In x (map fst d0) \/ In x (map key_of l).
Proof.
  revert d0; induction l as [|it r IH]; intros d0; simpl; [tauto|].
  rewrite IH, (dict_set_in key_eqb key_eqb_spec). split.
  - intros [[H|H]|H]; [right; left; congruence | left; exact H | right; right; exact H].
  - intros [H|[H|H]]; [left; right; exact H | left; left; congruence | right; exact H].
Qed.

Lemma build_dict_keys (l : list item) x :
  In x (map fst (build_dict l)) <-> In x (map key_of l).
Proof. unfold build_dict. rewrite build_dict_gen_keys. simpl. tauto. Qed.

Lemma build_dict_nodup (l : list item) : NoDup (map fst (build_dict l)).
Proof.
  unfold build_dict. assert (H : NoDup (map fst (@nil (key * item)))) by constructor.
  revert H. generalize (@nil (key * item)) as d0.
  induction l as [|it r IH]; intros d0 H; simpl; [exact H|].
  apply IH. apply (dict_set_nodup key_eqb key_eqb_spec). exact H.
Qed.

(** ** Counting keys *)

Lemma kcount_app k a b : kcount k (a ++ b) = (kcount k a + kcount k b)%nat.
Proof. induction a as [|x r IH]; simpl; [reflexivity|]. rewrite IH. lia. Qed.

Lemma kcount_perm k a b : Permutation a b -> kcount k a = kcount k b.
Proof. induction 1; simpl; lia. Qed.

Lemma key_mem_In k ks : key_mem k ks = true <-> In k ks.
Proof.
  unfold key_mem. rewrite existsb_exists. split.
  - intros [x [Hin He]]. apply key_eqb_spec in He. subst. exact Hin.
  - intros H. exists k. split; [exact H | apply key_eqb_refl].
Qed.

Lemma key_mem_kcount k ks : key_mem k ks = (0 <? kcount k ks)%nat.
Proof.
  induction ks as [|x r IH]; simpl; [reflexivity|].
  unfold key_mem in *; simpl. destruct (key_eqb k x); simpl; [reflexivity|exact IH].
Qed.

Lemma key_mem_filter k (p : key -> bool) ks :
  key_mem k (filter p ks) = key_mem k ks && p k.
Proof.
  induction ks as [|x r IH]; simpl; [reflexivity|].
  unfold key_mem in *. destruct (key_eqb k x) eqn:E.
  - apply key_eqb_spec in E; subst.
    destruct (p x) eqn:Hp; simpl; rewrite ?key_eqb_refl; simpl; [reflexivity|].
    rewrite IH; try rewrite Hp; simpl; rewrite ?andb_false_r; reflexivity.
  - destruct (p x); simpl; rewrite ?E; simpl; exact IH.
Qed.

Lemma kcount_nodup k ks : NoDup ks -> kcount k ks = if key_mem k ks then 1%nat else 0%nat.
Proof.
  induction 1 as [|x r Hnin Hnd IH]; simpl; [reflexivity|].
  unfold key_mem in *; simpl. destruct (key_eqb k x) eqn:E; simpl; [|exact IH].
  apply key_eqb_spec in E; subst.
  destruct (existsb (key_eqb x) r) eqn:Hm; [|rewrite IH; reflexivity].
  exfalso. apply Hnin, key_mem_In. exact Hm.
Qed.

Lemma key_mem_dict_keys k l :
  key_mem k (map fst (build_dict l)) = key_mem k (map key_of l).
Proof.
  apply eq_true_iff_eq. rewrite !key_mem_In. apply build_dict_keys.
Qed.

Lemma key_mem_app k a b : key_mem k (a ++ b) = key_mem k a || key_mem k b.
Proof. unfold key_mem. apply existsb_app. Qed.

(** Looking the keys of [build_dict l] up gives items carrying those keys. *)
Lemma lookup_keys_of (l : list item) ks :
  (forall k, In k ks -> In k (map key_of l)) ->
  map key_of (flat_map (fun k => opt_list (dict_get key_eqb k (build_dict l))) ks) = ks.
Proof.
  induction ks as [|k r IH]; intros Hin; simpl; [reflexivity|].
  assert (Hk : dict_get key_eqb k (build_dict l) <> None).
  { apply (dict_get_in key_eqb key_eqb_spec), build_dict_keys, Hin. left; reflexivity. }
  destruct (dict_get key_eqb k (build_dict l)) as [it|] eqn:E; [|contradiction].
  rewrite build_dict_get in E. simpl. rewrite (last_with_key _ _ _ E), IH; [reflexivity|].
  intros k' H. apply Hin. right; exact H.
Qed.

Section DifferFacts.
Variable set_iter : list key -> list key.
Hypothesis set_iter_perm : forall l, Permutation (set_iter l) l.

Lemma kcount_set_filter k (p : key -> bool) ks :
  NoDup ks ->
  kcount k (set_iter (filter p ks)) = if key_mem k ks && p k then 1%nat else 0%nat.
Proof.
  intros Hnd. rewrite (kcount_perm _ _ _ (set_iter_perm _)), kcount_nodup
    by (apply NoDup_filter; exact Hnd).
  rewrite key_mem_filter. reflexivity.
Qed.

Lemma common_counts k (oi ni : list (key * item)) (old new : list item) ks :
  oi = build_dict old -> ni = build_dict new ->
  (forall k', In k' ks -> In k' (map key_of old) /\ In k' (map key_of new)) ->
  (kcount k (map key_of (map fst (flat_map fst (map (classify_common oi ni) ks)))) +
   kcount k (map key_of (flat_map snd (map (classify_common oi ni) ks))))%nat =
  kcount k ks.
Proof.
  intros -> -> ; induction ks as [|k' r IH]; intros Hin; simpl; [reflexivity|].
  rewrite !map_app, !kcount_app.
  destruct (Hin k' (or_introl eq_refl)) as [Ho Hn].
  assert (Go : dict_get key_eqb k' (build_dict old) <> None)
    by (apply (dict_get_in key_eqb key_eqb_spec), build_dict_keys, Ho).
  assert (Gn : dict_get key_eqb k' (build_dict new) <> None)
    by (apply (dict_get_in key_eqb key_eqb_spec), build_dict_keys, Hn).
  unfold classify_common at 1 3.
  destruct (dict_get key_eqb k' (build_dict old)) as [o|]; [|contradiction].
  destruct (dict_get key_eqb k' (build_dict new)) as [n|] eqn:En; [|contradiction].
  rewrite build_dict_get in En. pose proof (last_with_key _ _ _ En) as Hkn.
  rewrite <- IH by (intros x Hx; apply Hin; right; exact Hx).
  destruct (negb _); simpl; rewrite Hkn; lia.
Qed.
End DifferFacts.

(** Keys iterated from a set built over the keys of [build_dict l] are keys of [l]. *)
Lemma set_iter_keys (set_iter : list key -> list key)
    (set_iter_perm : forall l, Permutation (set_iter l) l) (p : key -> bool) l k :
  In k (set_iter (filter p (map fst (build_dict l)))) -> In k (map key_of l).
Proof.
  intros H. apply (Permutation_in _ (set_iter_perm _)), filter_In in H.
  apply build_dict_keys, H.
Qed.

Lemma last_with_snoc k l a :
  last_with k (l ++ [a]) = if key_eqb k (key_of a) then Some a else last_with k l.
Proof. unfold last_with. rewrite fold_left_app. reflexivity. Qed.

Lemma last_with_is_last k l x :
  last_with k l = Some x <-> key_of x = k /\ is_last_in x l.
Proof.
  induction l as [|a l IH] using rev_ind.
  - split; [discriminate|]. intros [_ [pre [post [H _]]]].
    destruct pre; discriminate.
  - rewrite last_with_snoc. destruct (key_eqb k (key_of a)) eqn:E.
    + apply key_eqb_spec in E. split.
      * intros H; inversion H; subst. split; [reflexivity|].
        exists l, []. split; [reflexivity|intros y []].
      * intros [Hk [pre [post [Hl Hp]]]]. f_equal.
        destruct post as [|b post] using rev_ind.
        -- apply app_inj_tail in Hl. apply (proj2 Hl).
        -- exfalso. rewrite app_comm_cons, app_assoc in Hl. apply app_inj_tail in Hl.
           destruct Hl as [_ Hb]; subst b. apply (Hp a); [apply in_or_app; right; left; reflexivity|].
           congruence.
    + rewrite IH. split.
      * intros [Hk [pre [post [Hl Hp]]]]. split; [exact Hk|].
        exists pre, (post ++ [a]). split; [rewrite Hl, <- app_assoc; reflexivity|].
        intros y Hy. apply in_app_or in Hy as [Hy|[Hy|[]]]; [apply Hp, Hy|].
        subst y. intros Heq. rewrite Heq, Hk, key_eqb_refl in E. discriminate.
      * intros [Hk [pre [post [Hl Hp]]]]. split; [exact Hk|].
        destruct post as [|b post] using rev_ind.
        -- apply app_inj_tail in Hl. destruct Hl as [_ Hl]; subst a.
           rewrite Hk, key_eqb_refl in E. discriminate.
        -- rewrite app_comm_cons, app_assoc in Hl. apply app_inj_tail in Hl.
           destruct Hl as [Hl Hb]; subst b. exists pre, post. split; [exact Hl|].
           intros y Hy. apply Hp, in_or_app. left; exact Hy.
Qed.

Lemma build_dict_get_last k l x :
  dict_get key_eqb k (build_dict l) = Some x <-> key_of x = k /\ is_last_in x l.
Proof. rewrite build_dict_get. apply last_with_is_last. Qed.

Lemma in_lookups (l : list item) ks x :
  In x (flat_map (fun k => opt_list (dict_get key_eqb k (build_dict l))) ks) ->
  is_last_in x l.
Proof.
  intros H. apply in_flat_map in H as [k [_ H]].
  destruct (dict_get key_eqb k (build_dict l)) eqn:E; [|destruct H].
  destruct H as [H|[]]; subst. apply build_dict_get_last in E. apply E.
Qed.

Lemma take_digits_app ds rest :
  forallb is_digit ds = true -> starts_nondigit rest = true ->
  take_digits (ds ++ rest) = (ds, rest).
Proof.
  intros Hd Hr. induction ds as [|c ds IH]; simpl in *.
  - destruct rest as [|c r]; simpl in *; [reflexivity|].
    apply negb_true_iff in Hr. rewrite Hr. reflexivity.
  - apply andb_true_iff in Hd as [Hc Hd]. rewrite Hc, IH by exact Hd. reflexivity.
Qed.

Lemma regex_search_skip pre l :
  no_digit pre = true -> regex_search (pre ++ l) = regex_search l.
Proof.
  induction pre as [|c pre IH]; intros H; simpl in *; [reflexivity|].
  apply andb_true_iff in H as [Hc H]. apply negb_true_iff in Hc. rewrite Hc. apply IH, H.
Qed.

Lemma regex_search_none l : no_digit l = true -> regex_search l = None.
Proof.
  intros H. rewrite <- (app_nil_r l), regex_search_skip by exact H. reflexivity.
Qed.

Lemma string_of_list_ascii_nonempty pre c l :
  String.eqb (string_of_list_ascii (pre ++ c :: l)) "" = false.
Proof. destruct pre; reflexivity. Qed.

Lemma regex_search_digits c ds rest :
  is_digit c = true -> forallb is_digit ds = true -> starts_nondigit rest = true ->
  regex_search (c :: ds ++ rest) =
  match rest with
  | "."%char :: r => Some (c :: ds, Some (fst (take_digits r)))
  | _ => Some (c :: ds, None)
  end.
Proof.
  intros Hc Hd Hr.
  assert (E : forall l, regex_search (c :: l) =
    if is_digit c then
      let (ip, rest) := take_digits (c :: l) in
      match rest with
      | "."%char :: rest' => Some (ip, Some (fst (take_digits rest')))
      | _ => Some (ip, None)
      end
    else regex_search l) by reflexivity.
  rewrite E, Hc. change (c :: ds ++ rest) with ((c :: ds) ++ rest).
  rewrite take_digits_app
    by (first [exact Hr | change (is_digit c && forallb is_digit ds = true);
                          rewrite Hc; exact Hd]).
  reflexivity.
Qed.

(** ** The tracking loops *)

Lemma track_event_get n m ts r P :
  dict_get String.eqb n (track_event ts m r P) =
  if String.eqb n m
  then Some (mk_pattern ts (rate_of (dict_get String.eqb m P))
                          (hist_of (dict_get String.eqb m P) ++ [r]))
  else dict_get String.eqb n P.
Proof.
  unfold track_event, dict_mem.
  destruct (dict_get String.eqb m P) as [p|] eqn:E.
  - rewrite E, (dict_get_set String.eqb String.eqb_eq). reflexivity.
  - rewrite (dict_get_set String.eqb String.eqb_eq m m), String.eqb_refl.
    rewrite (dict_get_set String.eqb String.eqb_eq), (dict_get_set String.eqb String.eqb_eq).
    destruct (String.eqb n m) eqn:Enm; reflexivity.
Qed.

Lemma entry_after_app o es1 es2 ts :
  entry_after (entry_after o es1 ts) es2 ts = entry_after o (es1 ++ es2) ts.
Proof.
  destruct es1 as [|a es1]; [reflexivity|].
  destruct es2 as [|b es2]; simpl; [rewrite app_nil_r; reflexivity|].
  rewrite <- app_assoc. reflexivity.
Qed.

Lemma entry_after_one o r ts :
  entry_after o [r] ts = Some (mk_pattern ts (rate_of o) (hist_of o ++ [r])).
Proof. reflexivity. Qed.

Lemma fold_track_removed n ts l P :
  dict_get String.eqb n (fold_left (track_removed ts) l P) =
  entry_after (dict_get String.eqb n P) (consumed_events n l ts) ts.
Proof.
  revert P; induction l as [|it l IH]; intros P; simpl; [reflexivity|].
  rewrite IH. unfold track_removed. rewrite track_event_get.
  unfold consumed_events; simpl. rewrite (String.eqb_sym (py_lower (name it)) n).
  destruct (String.eqb n (py_lower (name it))) eqn:E; [|reflexivity].
  apply String.eqb_eq in E; subst n.
  rewrite <- entry_after_one, entry_after_app. reflexivity.
Qed.

Lemma fold_track_changed n ts l P :
  dict_get String.eqb n (fold_left (track_changed ts) l P) =
  entry_after (dict_get String.eqb n P) (partial_events n l ts) ts.
Proof.
  revert P; induction l as [|[it qd] l IH]; intros P; simpl; [reflexivity|].
  rewrite IH. unfold partial_events; simpl. rewrite (String.eqb_sym (py_lower (name it)) n).
  destruct (Qltb qd 0); rewrite ?andb_true_r, ?andb_false_r; [|reflexivity].
  rewrite track_event_get.
  destruct (String.eqb n (py_lower (name it))) eqn:E; [|reflexivity].
  apply String.eqb_eq in E; subst n.
  rewrite <- entry_after_one, entry_after_app. reflexivity.
Qed.

Lemma append_events_get n P d ts :
  dict_get String.eqb n (append_events P d ts) =
  entry_after (dict_get String.eqb n P) (events_for n d ts) ts.
Proof.
  unfold append_events, events_for.
  rewrite fold_track_changed, fold_track_removed, entry_after_app. reflexivity.
Qed.

(** ** The rate loop *)

Lemma Qltb_true a b : Qltb a b = true <-> (a < b)%Q.
Proof.
  unfold Qltb. rewrite negb_true_iff. split; intros H.
  - apply Qnot_le_lt. intros H'. apply Qle_bool_iff in H'. congruence.
  - destruct (Qle_bool b a) eqn:E; [|reflexivity].
    apply Qle_bool_iff in E. exfalso. exact (Qlt_not_le _ _ H E).
Qed.

Lemma py_div_nonzero a b : ~ (b == 0)%Q -> py_div a b = Some (a / b)%Q.
Proof.
  intros H. unfold py_div. destruct (Qeq_bool b 0) eqn:E; [|reflexivity].
  apply Qeq_bool_eq in E. contradiction.
Qed.

Lemma length_nonzero {A} (g : A) gs :
  ~ (inject_Z (Z.of_nat (List.length (g :: gs))) == 0)%Q.
Proof. unfold Qeq; simpl. lia. Qed.

Lemma fold_Qplus_pos l acc :
  (0 < acc)%Q -> (forall x, In x l -> 0 < x)%Q -> (0 < fold_left Qplus l acc)%Q.
Proof.
  revert acc; induction l as [|x l IH]; intros acc Ha Hl; simpl; [exact Ha|].
  apply IH; [|intros y Hy; apply Hl; right; exact Hy].
  assert (0 < x)%Q by (apply Hl; left; reflexivity). lra.
Qed.

Lemma average_pos g gs :
  (forall x, In x (g :: gs) -> 0 < x)%Q -> (0 < average (g :: gs))%Q.
Proof.
  intros H. unfold average, sumQ. apply Qlt_shift_div_l.
  - unfold Qlt; simpl. lia.
  - rewrite Qmult_0_l. simpl. apply fold_Qplus_pos; [|intros; apply H; right; assumption].
    assert (0 < g)%Q by (apply H; left; reflexivity). lra.
Qed.

Lemma recompute_rate_some p : recompute_rate p = Some (recomputed p).
Proof.
  unfold recomputed. destruct (recompute_rate p) eqn:E; [reflexivity|exfalso].
  unfold recompute_rate in E. destruct (2 <=? _)%nat; [|discriminate].
  destruct (filter _ _) as [|g gs] eqn:F; [discriminate|].
  rewrite py_div_nonzero in E by apply length_nonzero.
  rewrite py_div_nonzero in E by (unfold Qeq; simpl; lia).
  destruct (Qltb 0 _) eqn:L; [|discriminate].
  rewrite py_div_nonzero in E; [discriminate|].
  apply Qltb_true in L. intros H. rewrite H in L. exact (Qlt_irrefl 0 L).
Qed.

Lemma recompute_all_some P :
  recompute_all P = Some (map (fun kp => (fst kp, recomputed (snd kp))) P).
Proof.
  induction P as [|[k p] P IH]; simpl; [reflexivity|].
  rewrite recompute_rate_some, IH. reflexivity.
Qed.

Lemma dict_get_map_values {K V W} (eqb : K -> K -> bool) (f : V -> W) n P :
  dict_get eqb n (map (fun kp => (fst kp, f (snd kp))) P) = option_map f (dict_get eqb n P).
Proof.
  induction P as [|[k v] P IH]; simpl; [reflexivity|].
  destruct (eqb n k); [reflexivity|exact IH].
Qed.

Lemma recomputed_spec p :
  last_consumed (recomputed p) = last_consumed p /\
  history (recomputed p) = history p /\
  ((List.length (history p) < 2)%nat -> consumption_rate (recomputed p) = consumption_rate p) /\
  (filter (fun g => Qltb 0 g) (gaps (history p)) = [] ->
     consumption_rate (recomputed p) = consumption_rate p) /\
  (forall g gs, (2 <= List.length (history p))%nat ->
     filter (fun g => Qltb 0 g) (gaps (history p)) = g :: gs ->
     consumption_rate (recomputed p) == 86400 / average (g :: gs))%Q.
Proof.
  unfold recomputed, recompute_rate. destruct p as [lc r h]; cbn [history last_consumed consumption_rate].
  destruct (2 <=? List.length h)%nat eqn:L.
  2: { apply Nat.leb_gt in L. repeat split; intros; try reflexivity; lia. }
  apply Nat.leb_le in L.
  destruct (filter _ (gaps h)) as [|g gs] eqn:F.
  { repeat split; intros; try reflexivity; try lia; discriminate. }
  assert (Hpos : (forall x, In x (g :: gs) -> 0 < x)%Q).
  { intros x Hx. rewrite <- F in Hx. apply filter_In in Hx as [_ Hx].
    apply Qltb_true, Hx. }
  pose proof (average_pos g gs Hpos) as Havg. unfold average in Havg.
  rewrite py_div_nonzero by apply length_nonzero.
  rewrite py_div_nonzero by (unfold Qeq; simpl; lia).
  assert (Hh : (0 < sumQ (g :: gs) / inject_Z (Z.of_nat (List.length (g :: gs))) / 3600)%Q).
  { apply Qlt_shift_div_l; [unfold Qlt; simpl; lia|]. rewrite Qmult_0_l. exact Havg. }
  assert (Hq : Qltb 0 (sumQ (g :: gs) / inject_Z (Z.of_nat (List.length (g :: gs))) / 3600) = true)
    by (apply Qltb_true; exact Hh).
  rewrite Hq, py_div_nonzero by (intros E; rewrite E in Hh; exact (Qlt_irrefl 0 Hh)).
  cbn [last_consumed history consumption_rate].
  repeat split; intros; try lia; try discriminate.
  injection H0 as <- <-. unfold average.
  revert Havg. generalize (sumQ (g :: gs) / inject_Z (Z.of_nat (List.length (g :: gs))))%Q.
  intros x Hx. field. intros E. rewrite E in Hx. exact (Qlt_irrefl 0 Hx).
Qed.

Lemma gaps_successive h : gaps h = successive_gaps h.
Proof.
  induction h as [|a h IH]; [reflexivity|].
  destruct h as [|b h]; [reflexivity|].
  change (gaps (a :: b :: h)) with (total_seconds (h_timestamp b - h_timestamp a) :: gaps (b :: h)).
  rewrite IH. reflexivity.
Qed.

Lemma gaps_same_time h t :
  (forall r, In r h -> h_timestamp r = t) -> filter (fun g => Qltb 0 g) (gaps h) = [].
Proof.
  induction h as [|a h IH]; intros H; [reflexivity|].
  destruct h as [|b h]; [reflexivity|].
  change (gaps (a :: b :: h)) with (total_seconds (h_timestamp b - h_timestamp a) :: gaps (b :: h)).
  rewrite (H a), (H b) by (simpl; auto). rewrite Z.sub_diag. simpl.
  apply IH. intros r Hr. apply H. right; exact Hr.
Qed.

Lemma events_for_time n d ts r : In r (events_for n d ts) -> h_timestamp r = ts.
Proof.
  unfold events_for, consumed_events, partial_events. intros H.
  apply in_app_or in H as [H|H]; apply in_map_iff in H as [x [<- _]]; reflexivity.
Qed.

Lemma update_get P d ts n :
  update_consumption_patterns P d ts =
    Some (map (fun kp => (fst kp, recomputed (snd kp))) (append_events P d ts)) /\
  dict_get String.eqb n (map (fun kp => (fst kp, recomputed (snd kp))) (append_events P d ts)) =
    option_map recomputed (entry_after (dict_get String.eqb n P) (events_for n d ts) ts).
Proof.
  split; [apply recompute_all_some|].
  rewrite dict_get_map_values, append_events_get. reflexivity.
Qed.

Lemma entry_after_none o es ts : entry_after o es ts = None <-> o = None /\ es = [].
Proof. destruct es; simpl; [tauto|]. split; [discriminate|intros [_ H]; discriminate]. Qed.

Lemma entry_after_wf o es ts p2 :
  (forall p, o = Some p -> (List.length (history p) < 2)%nat -> consumption_rate p = 0%Q) ->
  entry_after o es ts = Some p2 ->
  (List.length (history p2) < 2)%nat -> consumption_rate p2 = 0%Q.
Proof.
  intros Hwf E Hlen. destruct es as [|e es]; simpl in E; [exact (Hwf _ E Hlen)|].
  injection E as <-. simpl in *. rewrite length_app in Hlen. simpl in Hlen.
  destruct o as [p|]; simpl in *; [|reflexivity].
  apply Hwf; [reflexivity|lia].
Qed.

Lemma wf_recomputed P :
  wf_patterns P -> wf_patterns (map (fun kp => (fst kp, recomputed (snd kp))) P).
Proof.
  intros Hwf n p' H Hlen. rewrite dict_get_map_values in H.
  destruct (dict_get String.eqb n P) as [p|] eqn:E; inversion H; subst.
  destruct (recomputed_spec p) as (_ & Hh & Hr & _). rewrite Hh in Hlen.
  rewrite (Hr Hlen). exact (Hwf _ _ E Hlen).
Qed.

Lemma wf_fold_track_changed ts l P :
  wf_patterns P -> wf_patterns (fold_left (track_changed ts) l P).
Proof.
  intros Hwf n p H. rewrite fold_track_changed in H.
  apply (entry_after_wf _ _ _ _ (Hwf n) H).
Qed.

Lemma wf_append_events P d ts : wf_patterns P -> wf_patterns (append_events P d ts).
Proof.
  intros Hwf n p H. rewrite append_events_get in H.
  apply (entry_after_wf _ _ _ _ (Hwf n) H).
Qed.

Lemma wf_empty : wf_patterns [].
Proof. intros n p H. discriminate. Qed.

Lemma hist_of_entry_after o es ts : hist_of (entry_after o es ts) = hist_of o ++ es.
Proof. destruct es; simpl; [rewrite app_nil_r|]; reflexivity. Qed.

Lemma rate_of_entry_after o es ts : rate_of (entry_after o es ts) = rate_of o.
Proof. destruct es; reflexivity. Qed.

Lemma hist_of_recomputed o : hist_of (option_map recomputed o) = hist_of o.
Proof. destruct o as [p|]; simpl; [apply recomputed_spec|reflexivity]. Qed.

Lemma Qltb_pos_false qd : (0 < qd)%Q -> Qltb qd 0 = false.
Proof.
  intros H. destruct (Qltb qd 0) eqn:E; [|reflexivity].
  apply Qltb_true in E. exfalso. apply (Qlt_irrefl 0). exact (Qlt_trans _ _ _ H E).
Qed.

(** ** The stable sort *)

Lemma sort_key_lt_iff a b :
  sort_key_lt a b = true <->
  (urgency_rank (r_urgency a) < urgency_rank (r_urgency b))%Z \/
  (urgency_rank (r_urgency a) = urgency_rank (r_urgency b) /\ (r_rate b < r_rate a)%Q).
Proof.
  unfold sort_key_lt. rewrite orb_true_iff, andb_true_iff, Z.ltb_lt, Z.eqb_eq, Qltb_true.
  split; intros [H|[H1 H2]]; auto; right; split; auto; lra.
Qed.

Lemma sort_key_lt_false a b :
  sort_key_lt b a = false <-> rank_le a b.
Proof.
  unfold rank_le. split.
  - intros H. destruct (Z.lt_trichotomy (urgency_rank (r_urgency a)) (urgency_rank (r_urgency b)))
      as [Hl|[He|Hg]]; [left; exact Hl| |].
    + right. split; [exact He|]. apply Qnot_lt_le. intros Hq.
      assert (sort_key_lt b a = true) by (apply sort_key_lt_iff; right; split; [auto|exact Hq]).
      congruence.
    + assert (sort_key_lt b a = true) by (apply sort_key_lt_iff; left; exact Hg). congruence.
  - intros Hle. destruct (sort_key_lt b a) eqn:E; [|reflexivity].
    apply sort_key_lt_iff in E. exfalso.
    destruct Hle as [H|[H1 H2]], E as [E|[E1 E2]]; try lia. lra.
Qed.

Lemma rank_le_trans_lt x y z : sort_key_lt x y = true -> rank_le y z -> rank_le x z.
Proof.
  intros H Hyz. apply sort_key_lt_iff in H. unfold rank_le in *.
  destruct H as [H|[H1 H2]], Hyz as [H'|[H1' H2']]; try (left; lia).
  right. split; [lia|]. lra.
Qed.

Lemma insert_sorted_perm x l : Permutation (insert_sorted x l) (x :: l).
Proof.
  induction l as [|y r IH]; simpl; [reflexivity|].
  destruct (sort_key_lt x y); [reflexivity|].
  rewrite IH. apply perm_swap.
Qed.

Lemma insert_sorted_sorted x l :
  StronglySorted rank_le l -> StronglySorted rank_le (insert_sorted x l).
Proof.
  induction l as [|y r IH]; intros Hs; simpl.
  - repeat constructor.
  - inversion Hs as [|? ? Hr Hall]; subst.
    destruct (sort_key_lt x y) eqn:E.
    + constructor; [exact Hs|]. constructor.
      * apply sort_key_lt_false. apply sort_key_lt_iff in E.
        destruct (sort_key_lt y x) eqn:E'; [|reflexivity]. apply sort_key_lt_iff in E'.
        destruct E as [E|[E1 E2]], E' as [E'|[E1' E2']]; try lia. lra.
      * eapply Forall_impl; [|exact Hall]. intros z Hz. exact (rank_le_trans_lt _ _ _ E Hz).
    + constructor; [exact (IH Hr)|].
      eapply Permutation_Forall; [symmetry; apply insert_sorted_perm|].
      constructor; [apply sort_key_lt_false; exact E|exact Hall].
Qed.

Lemma py_sorted_gen l acc :
  StronglySorted rank_le acc ->
  StronglySorted rank_le (fold_left (fun acc x => insert_sorted x acc) l acc) /\
  Permutation (fold_left (fun acc x => insert_sorted x acc) l acc) (l ++ acc).
Proof.
  revert acc; induction l as [|x l IH]; intros acc Hs; simpl; [split; [exact Hs|reflexivity]|].
  destruct (IH (insert_sorted x acc) (insert_sorted_sorted x acc Hs)) as [H1 H2].
  split; [exact H1|]. rewrite H2, insert_sorted_perm. symmetry. apply Permutation_middle.
Qed.

Lemma py_sorted_spec l : StronglySorted rank_le (py_sorted l) /\ Permutation (py_sorted l) l.
Proof.
  unfold py_sorted. destruct (py_sorted_gen l [] (SSorted_nil _)) as [H1 H2].
  rewrite app_nil_r in H2. split; assumption.
Qed.

(** ** The Ranker's loop body *)

Section RankerFacts.
Variable fmt_1f : Q -> string.

Lemma recommend_one_none now P inv g :
  recommend_one fmt_1f now P (build_dict inv) g = None <-> suppressed inv g.
Proof.
  unfold recommend_one, suppressed.
  destruct (dict_get key_eqb _ (build_dict inv)) as [x|] eqn:E.
  - apply build_dict_get_last in E as [Hk Hl].
    destruct (Qltb (1 # 2) _) eqn:Q1.
    + split; [intros _|reflexivity]. exists x. split; [exact Hk|]. split; [exact Hl|].
      apply Qltb_true, Q1.
    + split.
      * repeat match goal with |- context [if ?b then _ else _] => destruct b end;
          discriminate.
      * intros [y [Hky [Hly Hq]]]. exfalso.
        assert (Hy : dict_get key_eqb (py_lower (g_name g), py_lower (g_category g))
                       (build_dict inv) = Some y) by (apply build_dict_get_last; auto).
        assert (Hx : dict_get key_eqb (py_lower (g_name g), py_lower (g_category g))
                       (build_dict inv) = Some x) by (apply build_dict_get_last; auto).
        rewrite Hx in Hy. injection Hy as <-. apply Qltb_true in Hq. congruence.
  - split.
    + repeat match goal with |- context [if ?b then _ else _] => destruct b end;
        discriminate.
    + intros [y [Hky [Hly _]]].
      assert (Hy : dict_get key_eqb (py_lower (g_name g), py_lower (g_category g))
                     (build_dict inv) = Some y) by (apply build_dict_get_last; auto).
      congruence.
Qed.

Lemma recommend_one_some now P inv g r :
  recommend_one fmt_1f now P inv g = Some r ->
  r_name r = g_name g /\ r_category r = g_category g /\
  r_last_consumed r = g_last_consumed g /\
  r_rate r = get_rate P (py_lower (g_name g)) /\
  (r_urgency r = High <-> (3 # 10 < r_rate r)%Q) /\
  (r_urgency r = Medium <->
     ~ (3 # 10 < r_rate r)%Q /\ days_since now (g_last_consumed g) < 3) /\
  (r_urgency r = Low <->
     ~ (3 # 10 < r_rate r)%Q /\ 3 <= days_since now (g_last_consumed g)) /\
  r_reason r = match r_urgency r with
               | High => ("Frequently used (" ++ fmt_1f (r_rate r) ++ "/day)")%string
               | Medium => "Recently consumed"%string
               | Low => "Occasionally used"%string
               end.
Proof.
  unfold recommend_one. intros H. lazy zeta in H.
  destruct (dict_get key_eqb _ inv) as [x|];
    [destruct (Qltb (1 # 2) _); [discriminate|]|].
  all: destruct (Qltb (3 # 10) _) eqn:Hr.
  1,3: lazy beta iota zeta in H; injection H as <-; simpl; apply Qltb_true in Hr;
    repeat split; try discriminate; try tauto; intros [H _]; contradiction.
  all: assert (Hn : ~ (3 # 10 < get_rate P (py_lower (g_name g)))%Q)
      by (intros H'; apply Qltb_true in H'; congruence).
  all: destruct (days_since now (g_last_consumed g) <? 3) eqn:Hd;
      lazy beta iota zeta in H; injection H as <-; simpl;
      [apply Z.ltb_lt in Hd | apply Z.ltb_ge in Hd];
      repeat split; try discriminate; try tauto; try lia;
      intros [_ H]; lia.
Qed.

Lemma in_recommendations now P inv groups r :
  In r (get_smart_recommendations fmt_1f now P inv groups) <->
  exists g, In g groups /\ recommend_one fmt_1f now P (build_dict inv) g = Some r.
Proof.
  unfold get_smart_recommendations.
  split.
  - intros H. apply (Permutation_in _ (proj2 (py_sorted_spec _))), in_flat_map in H.
    destruct H as [g [Hg Hr]]. exists g. split; [exact Hg|].
    destruct (recommend_one _ _ _ _ g); simpl in Hr;
      [destruct Hr as [<-|[]]; reflexivity | contradiction].
  - intros [g [Hg Hr]]. apply (Permutation_in _ (Permutation_sym (proj2 (py_sorted_spec _)))).
    apply in_flat_map. exists g. split; [exact Hg|]. rewrite Hr. left; reflexivity.
Qed.
End RankerFacts.

(* ================================================================== *)
(** * The claims *)

(** ** Inventory Differ *)

Section DiffClaims.
Variable set_iter : list key -> list key.
Hypothesis set_iter_perm : forall l, Permutation (set_iter l) l.

(** C1: for all snapshots [old] and [new], every identity key occurring in
    [old ++ new] appears in exactly one of the buckets added, removed,
    changed, unchanged of [_compute_inventory_diff(old, new)], and a key
    occurring in neither snapshot appears in no bucket. *)
Theorem diff_buckets_partition (old new : list item) (k : key) :
  buckets_containing k (compute_inventory_diff set_iter old new) =
  if key_mem k (map key_of (old ++ new)) then 1%nat else 0%nat.
Proof.
  unfold buckets_containing, bucket_has, compute_inventory_diff; simpl.
  rewrite map_app, key_mem_app, !key_mem_kcount.
  unfold set_minus, set_inter.
  rewrite (lookup_keys_of new) by (apply (set_iter_keys set_iter set_iter_perm)).
  rewrite (lookup_keys_of old) by (apply (set_iter_keys set_iter set_iter_perm)).
  pose proof (common_counts k _ _ old new
                (set_iter (filter (fun k0 => key_mem k0 (map fst (build_dict new)))
                                  (map fst (build_dict old))))
                eq_refl eq_refl) as Hc.
  specialize (Hc (fun k' Hk' => conj
    (set_iter_keys set_iter set_iter_perm _ old k' Hk')
    (proj1 (build_dict_keys new k')
       (proj1 (key_mem_In _ _)
          (proj2 (proj1 (filter_In _ _ _)
             (Permutation_in _ (set_iter_perm _) Hk'))))))).
  rewrite kcount_set_filter in Hc by (exact set_iter_perm || apply build_dict_nodup).
  rewrite !kcount_set_filter by (exact set_iter_perm || apply build_dict_nodup).
  rewrite !key_mem_dict_keys in *.
  revert Hc.
  generalize (kcount k (map key_of (map fst (flat_map fst
    (map (classify_common (build_dict old) (build_dict new))
       (set_iter (filter (fun k0 => key_mem k0 (map fst (build_dict new)))
          (map fst (build_dict old))))))))) as c.
  generalize (kcount k (map key_of (flat_map snd
    (map (classify_common (build_dict old) (build_dict new))
       (set_iter (filter (fun k0 => key_mem k0 (map fst (build_dict new)))
          (map fst (build_dict old)))))))) as u.
  intros u c Hc. rewrite <- !key_mem_kcount.
  destruct (key_mem k (map key_of old)), (key_mem k (map key_of new)); simpl in *;
    destruct c as [|[|c]]; destruct u as [|[|u]]; simpl in *; lia.
Qed.

(** C10: when a snapshot holds several items with one identity key, the
    last of them wins: the key->item mapping of each snapshot returns the
    last item with that key, and every item placed in a bucket (for
    changed and unchanged items, together with the old item it was
    compared with) is the last item with its key in its snapshot. *)
Theorem diff_last_occurrence_wins (old new : list item) :
  let d := compute_inventory_diff set_iter old new in
  (forall k x, dict_get key_eqb k (build_dict old) = Some x <->
               key_of x = k /\ is_last_in x old) /\
  (forall k x, dict_get key_eqb k (build_dict new) = Some x <->
               key_of x = k /\ is_last_in x new) /\
  (forall x, In x (added d) -> is_last_in x new) /\
  (forall x, In x (removed d) -> is_last_in x old) /\
  (forall x qd, In (x, qd) (changed d) ->
     is_last_in x new /\
     exists o, key_of o = key_of x /\ is_last_in o old /\
       qd = (extract_quantity (Some (get_quantity x)) -
             extract_quantity (Some (get_quantity o)))%Q) /\
  (forall x, In x (unchanged d) ->
     is_last_in x new /\
     exists o, key_of o = key_of x /\ is_last_in o old /\
       extract_quantity (Some (get_quantity o)) == extract_quantity (Some (get_quantity x))).
Proof.
  simpl. split; [intros; apply build_dict_get_last|].
  split; [intros; apply build_dict_get_last|].
  split; [intros x H; exact (in_lookups _ _ _ H)|].
  split; [intros x H; exact (in_lookups _ _ _ H)|].
  split.
  - intros x qd H. apply in_flat_map in H as [[ch un] [Hin H]].
    apply in_map_iff in Hin as [k [Hc _]]. unfold classify_common in Hc.
    destruct (dict_get key_eqb k (build_dict old)) as [o|] eqn:Eo; [|inversion Hc; subst; destruct H].
    destruct (dict_get key_eqb k (build_dict new)) as [n|] eqn:En; [|inversion Hc; subst; destruct H].
    apply build_dict_get_last in Eo as [Ko Lo]. apply build_dict_get_last in En as [Kn Ln].
    destruct (negb _); inversion Hc; subst; simpl in H; [|destruct H].
    destruct H as [H|[]]. inversion H; subst.
    split; [exact Ln|]. exists o. split; [congruence|]. split; [exact Lo|reflexivity].
  - intros x H. apply in_flat_map in H as [[ch un] [Hin H]].
    apply in_map_iff in Hin as [k [Hc _]]. unfold classify_common in Hc.
    destruct (dict_get key_eqb k (build_dict old)) as [o|] eqn:Eo; [|inversion Hc; subst; destruct H].
    destruct (dict_get key_eqb k (build_dict new)) as [n|] eqn:En; [|inversion Hc; subst; destruct H].
    apply build_dict_get_last in Eo as [Ko Lo]. apply build_dict_get_last in En as [Kn Ln].
    destruct (negb (Qeq_bool _ _)) eqn:Eq; inversion Hc; subst; simpl in H; [destruct H|].
    destruct H as [H|[]]. subst.
    split; [exact Ln|]. exists o. split; [congruence|]. split; [exact Lo|].
    apply Qeq_bool_eq. apply negb_false_iff in Eq. exact Eq.
Qed.
End DiffClaims.

(** ** Quantity Normalizer *)

(** C9: [_extract_quantity] returns 1.0 for [None], for the empty string and
    for a string without a numeral; otherwise it returns the value of the
    first numeral (digits, optionally a dot and more digits); in particular
    "", None and "abc" give 1.0, "2 bottles" gives 2.0 and "0.5 kg" gives 0.5.
    (The model is total: no input raises.) *)
Theorem extract_quantity_contract :
  extract_quantity None == 1 /\
  extract_quantity (Some ""%string) == 1 /\
  (forall l, no_digit l = true -> extract_quantity (Some (string_of_list_ascii l)) == 1) /\
  (forall pre ds rest,
     no_digit pre = true -> ds <> [] -> forallb is_digit ds = true ->
     starts_nondigit rest = true ->
     (forall r, rest = "."%char :: r -> starts_nondigit r = true) ->
     extract_quantity (Some (string_of_list_ascii (pre ++ ds ++ rest)))
       == inject_Z (digits_val ds)) /\
  (forall pre ds fs rest,
     no_digit pre = true -> ds <> [] -> forallb is_digit ds = true ->
     forallb is_digit fs = true -> starts_nondigit rest = true ->
     extract_quantity (Some (string_of_list_ascii (pre ++ ds ++ "."%char :: fs ++ rest)))
       == inject_Z (digits_val ds) +
          inject_Z (digits_val fs) / inject_Z (10 ^ Z.of_nat (List.length fs))) /\
  extract_quantity (Some "abc"%string) == 1 /\
  extract_quantity (Some "2 bottles"%string) == 2 /\
  extract_quantity (Some "0.5 kg"%string) == 1 # 2.
Proof.
  split; [reflexivity|]. split; [reflexivity|].
  split.
  { intros l H. unfold extract_quantity. rewrite list_ascii_of_string_of_list_ascii.
    rewrite regex_search_none by exact H.
    destruct (String.eqb _ _); reflexivity. }
  split.
  { intros pre ds rest Hp Hne Hd Hr Hdot. unfold extract_quantity.
    destruct ds as [|c ds']; [contradiction|].
    change ((c :: ds') ++ ?t) with (c :: (ds' ++ t)).
    rewrite string_of_list_ascii_nonempty, list_ascii_of_string_of_list_ascii,
      regex_search_skip by exact Hp.
    simpl in Hd. apply andb_true_iff in Hd as [Hc Hd'].
    rewrite regex_search_digits by assumption.
    destruct rest as [|x r]; [reflexivity|].
    destruct (Ascii.eqb x "."%char) eqn:Ex.
    - apply Ascii.eqb_eq in Ex; subst x.
      rewrite <- (app_nil_l r), take_digits_app by (reflexivity || exact (Hdot r eq_refl)).
      simpl. unfold Qeq; simpl. lia.
    - apply Ascii.eqb_neq in Ex.
      destruct x as [[] [] [] [] [] [] [] []];
        solve [reflexivity | exfalso; apply Ex; reflexivity]. }
  split.
  { intros pre ds fs rest Hp Hne Hd Hf Hr. unfold extract_quantity.
    destruct ds as [|c ds']; [contradiction|].
    change ((c :: ds') ++ ?t) with (c :: (ds' ++ t)).
    rewrite string_of_list_ascii_nonempty, list_ascii_of_string_of_list_ascii,
      regex_search_skip by exact Hp.
    simpl in Hd. apply andb_true_iff in Hd as [Hc Hd'].
    rewrite regex_search_digits by (assumption || reflexivity).
    rewrite take_digits_app by assumption. reflexivity. }
  split; [reflexivity|]. split; reflexivity.
Qed.

(** ** Consumption Tracker *)

(** C2: [_update_consumption_patterns(diff)] (with [datetime.now()] = [now])
    appends to the history of each lowercased name [n] exactly the records
    [events_for n diff now]: one [{now, consumed, item.get('quantity','1')}]
    per removed item named [n], then one [{now, partial_consumed,
    abs(quantity_diff)}] per changed item named [n] with a negative
    [quantity_diff]; [last_consumed] becomes [now] when a record was appended;
    an entry is created only for such a name, and a created entry has rate 0. *)
Theorem update_appends_one_record_per_event (P : patterns) (d : diff_result) (now : Z) :
  exists P', update_consumption_patterns P d now = Some P' /\
  forall n,
    (dict_get String.eqb n P' = None <->
       dict_get String.eqb n P = None /\ events_for n d now = []) /\
    forall p', dict_get String.eqb n P' = Some p' ->
      history p' = hist_of (dict_get String.eqb n P) ++ events_for n d now /\
      (events_for n d now <> [] -> last_consumed p' = now) /\
      (events_for n d now = [] ->
         exists p, dict_get String.eqb n P = Some p /\ last_consumed p' = last_consumed p) /\
      (dict_get String.eqb n P = None -> consumption_rate p' = 0%Q).
Proof.
  eexists. split; [apply (update_get P d now "")|]. intros n.
  destruct (update_get P d now n) as [_ ->].
  split.
  { destruct (entry_after _ _ _) eqn:E; simpl.
    - split; [discriminate|]. intros H.
      pose proof (proj2 (entry_after_none _ _ now) H) as H'. congruence.
    - split; [intros _; apply (proj1 (entry_after_none _ _ _) E)|reflexivity]. }
  intros p' H.
  destruct (entry_after _ _ _) as [p2|] eqn:E; inversion H; subst; clear H.
  destruct (recomputed_spec p2) as (Hlc & Hh & _ & Hnone & _).
  rewrite Hlc, Hh.
  destruct (events_for n d now) as [|e es] eqn:Ees.
  - simpl in E. rewrite E, app_nil_r. repeat split; try (intros; congruence).
    intros _. exists p2. split; reflexivity.
  - simpl in E. injection E as <-. simpl.
    repeat split; try (intros; congruence).
    intros Hn. rewrite Hnone.
    + rewrite Hn. reflexivity.
    + cbn [history]. rewrite Hn. cbn [hist_of app]. apply (gaps_same_time _ now).
      intros r Hr. apply (events_for_time n d now). rewrite Ees. exact Hr.
Qed.

(** C3: after the appends, the rate loop recomputes the rate of every entry
    of the table (its keys are unchanged): the rate becomes
    [rate_from_history] of the entry's full history, i.e. 0 for fewer than
    two records, the previous rate when no gap between consecutive records
    is positive, and 86400 / (average positive gap in seconds) otherwise.
    The loop never divides by zero ([update_consumption_patterns] returns
    [Some]).  The rate-0 invariant [wf_patterns] holds for the empty table
    and is kept.  Records at t, t+86400s and t+172800s give rate 1. *)
Theorem update_recomputes_every_rate (P : patterns) (d : diff_result) (now : Z) :
  wf_patterns P ->
  exists P', update_consumption_patterns P d now = Some P' /\
    wf_patterns P' /\
    map fst P' = map fst (append_events P d now) /\
    (forall n p2, dict_get String.eqb n (append_events P d now) = Some p2 ->
       exists p', dict_get String.eqb n P' = Some p' /\
         history p' = history p2 /\ last_consumed p' = last_consumed p2 /\
         consumption_rate p' == rate_from_history (history p2) (consumption_rate p2)) /\
    (forall t a1 a2 a3 q1 q2 q3 lc r,
       exists p', recompute_rate (mk_pattern lc r
                    [mk_rec t a1 q1; mk_rec (t + one_day) a2 q2;
                     mk_rec (t + 2 * one_day) a3 q3]) = Some p' /\
                  consumption_rate p' == 1).
Proof.
  intros Hwf.
  exists (map (fun kp => (fst kp, recomputed (snd kp))) (append_events P d now)).
  split; [apply (update_get P d now "")|].
  split; [apply wf_recomputed, wf_append_events, Hwf|].
  split; [rewrite map_map; reflexivity|].
  split.
  - intros n p2 H. exists (recomputed p2).
    split; [rewrite dict_get_map_values, H; reflexivity|].
    destruct (recomputed_spec p2) as (Hlc & Hh & Hlt & Hnone & Hsome).
    split; [exact Hh|]. split; [exact Hlc|].
    unfold rate_from_history. rewrite <- gaps_successive.
    destruct (List.length (history p2) <? 2)%nat eqn:L.
    + apply Nat.ltb_lt in L. rewrite (Hlt L).
      rewrite (wf_append_events P d now Hwf n p2 H L). reflexivity.
    + apply Nat.ltb_ge in L.
      destruct (filter _ (gaps (history p2))) as [|g gs] eqn:F.
      * rewrite (Hnone eq_refl). reflexivity.
      * exact (Hsome g gs L eq_refl).
  - intros t a1 a2 a3 q1 q2 q3 lc r.
    eexists. split; [apply recompute_rate_some|].
    destruct (recomputed_spec (mk_pattern lc r
                [mk_rec t a1 q1; mk_rec (t + one_day) a2 q2;
                 mk_rec (t + 2 * one_day) a3 q3])) as (_ & _ & _ & _ & Hsome).
    assert (G : gaps [mk_rec t a1 q1; mk_rec (t + one_day) a2 q2;
                      mk_rec (t + 2 * one_day) a3 q3] =
                [total_seconds one_day; total_seconds one_day]).
    { cbn [gaps h_timestamp]. do 2 f_equal; [|f_equal]; f_equal; ring. }
    cbn [history] in Hsome. rewrite G in Hsome.
    rewrite (Hsome (total_seconds one_day) [total_seconds one_day]); [reflexivity|simpl; lia|].
    reflexivity.
Qed.

(** C4: a changed item with a positive [quantity_diff] (a restock) has no
    effect on [_update_consumption_patterns]: dropping it from the diff gives
    the same table (so it adds no record, does not touch [last_consumed] and
    does not affect any rate); and when no other item of the diff records an
    event for its name, that name's entry is neither created nor given new
    records nor a new [last_consumed]. *)
Theorem restock_leaves_pattern_unchanged (P : patterns) (d : diff_result) (now : Z)
    (it : item) (qd : Q) (ch1 ch2 : list (item * Q)) :
  changed d = ch1 ++ (it, qd) :: ch2 -> (0 < qd)%Q ->
  update_consumption_patterns P d now =
    update_consumption_patterns P (mk_diff (added d) (removed d) (ch1 ++ ch2) (unchanged d)) now /\
  (events_for (py_lower (name it)) d now = [] ->
   exists P', update_consumption_patterns P d now = Some P' /\
     (dict_get String.eqb (py_lower (name it)) P' = None <->
      dict_get String.eqb (py_lower (name it)) P = None) /\
     forall p p', dict_get String.eqb (py_lower (name it)) P = Some p ->
       dict_get String.eqb (py_lower (name it)) P' = Some p' ->
       history p' = history p /\ last_consumed p' = last_consumed p).
Proof.
  intros Hch Hpos. split.
  - unfold update_consumption_patterns, append_events. simpl. rewrite Hch.
    rewrite !fold_left_app. simpl. rewrite Qltb_pos_false by exact Hpos. reflexivity.
  - intros Hev. set (n := py_lower (name it)) in *.
    destruct (update_get P d now n) as [Hu Hg].
    eexists. split; [exact Hu|]. rewrite Hg, Hev. simpl.
    split.
    + destruct (dict_get String.eqb n P); simpl; split; congruence.
    + intros p p' Hp Hp'. rewrite Hp in Hp'. injection Hp' as <-.
      destruct (recomputed_spec p) as (Hlc & Hh & _). split; assumption.
Qed.

(** ** [save_items] *)

Section SaveClaims.
Variable set_iter : list key -> list key.

(** C5: in a [save_items] call that reaches its last loop (a user is logged
    in, [new_items] is not empty and the database writes return), every
    changed item with a negative [quantity_diff] contributes two
    [partial_consumed] records to its ingredient's history: one stamped
    [t_update] by [_update_consumption_patterns] and one stamped [t_save]
    by the loop of [save_items], appended after the rate loop: the final
    rate is the one [_update_consumption_patterns] computed from the
    history without the second records. *)
Theorem save_items_appends_reduction_twice (P : patterns) (old new : list item)
    (t_save t_update : Z) :
  new <> [] ->
  let d := compute_inventory_diff set_iter old new in
  exists P3, update_consumption_patterns P d t_update = Some P3 /\
  forall n,
    hist_of (dict_get String.eqb n P3) =
      hist_of (dict_get String.eqb n P) ++
      consumed_events n (removed d) t_update ++ partial_events n (changed d) t_update /\
    hist_of (dict_get String.eqb n (save_items_patterns set_iter true true P old new t_save t_update)) =
      hist_of (dict_get String.eqb n P) ++
      consumed_events n (removed d) t_update ++ partial_events n (changed d) t_update ++
      partial_events n (changed d) t_save /\
    rate_of (dict_get String.eqb n (save_items_patterns set_iter true true P old new t_save t_update)) =
      rate_of (dict_get String.eqb n P3).
Proof.
  intros Hne d. destruct new as [|x xs]; [contradiction|].
  eexists. split; [apply recompute_all_some|]. intros n.
  unfold save_items_patterns. fold d. simpl negb. cbv iota beta.
  rewrite recompute_all_some.
  rewrite fold_track_changed, hist_of_entry_after, rate_of_entry_after.
  rewrite dict_get_map_values, append_events_get, hist_of_recomputed, hist_of_entry_after.
  unfold events_for. rewrite !app_assoc. repeat split; reflexivity.
Qed.
End SaveClaims.

(** ** The Recommendation Ranker *)

Section RankerClaims.
Variable fmt_1f : Q -> string.

(** C6: the list returned by [_get_smart_recommendations] is ordered by
    urgency tier (High, then Medium, then Low) and, within a tier, by
    descending [consumption_rate]; it holds exactly the recommendations
    built for the groups. For the candidates A (rate 0.5, High), B (rate
    0.1, one day since last use, Medium) and C (rate 0.1, ten days, Low)
    the order is [A; B; C]. *)
Theorem ranker_sorted_by_tier_then_rate (now : Z) (P : patterns)
    (inv : list item) (groups : list group) :
  StronglySorted rank_le (get_smart_recommendations fmt_1f now P inv groups) /\
  Permutation (get_smart_recommendations fmt_1f now P inv groups)
    (flat_map (fun g => opt_list (recommend_one fmt_1f now P (build_dict inv) g)) groups) /\
  map (fun r => (r_name r, r_urgency r))
    (get_smart_recommendations fmt_1f (100 * one_day)
       [("a"%string, mk_pattern 0 (1 # 2) []);
        ("b"%string, mk_pattern 0 (1 # 10) []);
        ("c"%string, mk_pattern 0 (1 # 10) [])] []
       [mk_group "C" "X" 1 (Some (100 * one_day - 10 * one_day));
        mk_group "B" "X" 1 (Some (100 * one_day - one_day));
        mk_group "A" "X" 1 (Some (100 * one_day - one_day))]) =
    [("A"%string, High); ("B"%string, Medium); ("C"%string, Low)].
Proof.
  split; [apply py_sorted_spec|]. split; [apply py_sorted_spec|].
  reflexivity.
Qed.

(** C7 (amended): for a group of the consumption history, the Ranker emits
    a recommendation with the group's name and category exactly when the
    group is not suppressed, that is unless the LAST item of
    [current_inventory] with the group's identity key has a normalized
    quantity above 0.5. With a single item of quantity 0.6 nothing is
    emitted; with 0.4 a recommendation is emitted. *)
Theorem ranker_suppression_last_item (now : Z) (P : patterns)
    (inv : list item) (groups : list group) (g : group) :
  In g groups ->
  ((exists r, In r (get_smart_recommendations fmt_1f now P inv groups) /\
              r_name r = g_name g /\ r_category r = g_category g) <->
   ~ suppressed inv g) /\
  get_smart_recommendations fmt_1f 0 []
    [mk_item "milk" "dairy" (Some "0.6"%string) "" 0] [mk_group "Milk" "Dairy" 1 (Some 0)] = [] /\
  get_smart_recommendations fmt_1f 0 []
    [mk_item "milk" "dairy" (Some "0.4"%string) "" 0] [mk_group "Milk" "Dairy" 1 (Some 0)] <> [].
Proof.
  intros Hg. split; [|split; [reflexivity|discriminate]].
  split.
  - intros [r [Hr [Hn Hc]]] Hs.
    apply in_recommendations in Hr as [g' [_ Hr']].
    destruct (recommend_one_some _ _ _ _ _ _ Hr') as [Hn' [Hc' _]].
    assert (Hs' : suppressed inv g').
    { destruct Hs as [x [Hk Hx]]. exists x. rewrite <- Hn', <- Hc', Hn, Hc. auto. }
    apply (recommend_one_none fmt_1f now P) in Hs'. congruence.
  - intros Hs.
    destruct (recommend_one fmt_1f now P (build_dict inv) g) as [r|] eqn:E.
    + exists r. split; [apply in_recommendations; eauto|].
      destruct (recommend_one_some _ _ _ _ _ _ E) as [Hn [Hc _]]. auto.
    + apply (proj1 (recommend_one_none fmt_1f now P inv g)) in E. contradiction.
Qed.

(** C8: every recommendation comes from a group whose name, category and
    last-consumed time it carries; its rate is the ingredient's
    [consumption_rate] in the pattern table (0 when absent); its urgency
    is High exactly when that rate is above 0.3, Medium exactly when it is
    not and fewer than 3 whole days passed since the group's last
    consumption (0 days when there is none), Low otherwise; the reason
    string follows the urgency. *)
Theorem ranker_urgency_classification (now : Z) (P : patterns)
    (inv : list item) (groups : list group) (r : recommendation) :
  In r (get_smart_recommendations fmt_1f now P inv groups) ->
  exists g, In g groups /\
    r_name r = g_name g /\ r_category r = g_category g /\
    r_last_consumed r = g_last_consumed g /\
    r_rate r = get_rate P (py_lower (g_name g)) /\
    (r_urgency r = High <-> (3 # 10 < r_rate r)%Q) /\
    (r_urgency r = Medium <->
       ~ (3 # 10 < r_rate r)%Q /\ days_since now (g_last_consumed g) < 3) /\
    (r_urgency r = Low <->
       ~ (3 # 10 < r_rate r)%Q /\ 3 <= days_since now (g_last_consumed g)) /\
    r_reason r = match r_urgency r with
                 | High => ("Frequently used (" ++ fmt_1f (r_rate r) ++ "/day)")%string
                 | Medium => "Recently consumed"%string
                 | Low => "Occasionally used"%string
                 end.
Proof.
  intros Hr. apply in_recommendations in Hr as [g [Hg Hr]].
  exists g. split; [exact Hg|]. eapply recommend_one_some; eauto.
Qed.
End RankerClaims.

(** C7 (counterexample): the inventory holds two items with the key of
    the group Milk/Dairy; the first has quantity "2" (normalized 2, above
    0.5), the last "0.2". The dict comprehension of the Ranker keeps the
    last one, so a recommendation for Milk is emitted although an item
    with that key and quantity above 0.5 is present (the rate format plays
    no part here). *)
Lemma ranker_duplicate_key_counterexample :
  In (mk_item "milk" "dairy" (Some "2"%string) "" 0)
     [mk_item "milk" "dairy" (Some "2"%string) "" 0;
      mk_item "milk" "dairy" (Some "0.2"%string) "" 0] /\
  key_of (mk_item "milk" "dairy" (Some "2"%string) "" 0) =
    (py_lower "Milk", py_lower "Dairy") /\
  (1 # 2 < extract_quantity (Some "2"%string))%Q /\
  exists r, In r (get_smart_recommendations (fun _ => "0.0"%string) 0 []
                    [mk_item "milk" "dairy" (Some "2"%string) "" 0;
                     mk_item "milk" "dairy" (Some "0.2"%string) "" 0]
                    [mk_group "Milk" "Dairy" 1 (Some 0)]) /\
            r_name r = "Milk"%string /\ r_category r = "Dairy"%string.
Proof.
  split; [left; reflexivity|]. split; [reflexivity|].
  split; [vm_compute; reflexivity|].
  eexists. split; [left; reflexivity|]. split; reflexivity.
Qed.

(* ================================================================== *)
(** * Further properties of the grocery list, the inventory view and the
      parser *)

Lemma ascii_compare_trans_lt a b c :
  Ascii.compare a b = Lt -> Ascii.compare b c = Lt -> Ascii.compare a c = Lt.
Proof. unfold Ascii.compare. rewrite !N.compare_lt_iff. lia. Qed.

Lemma ascii_compare_refl a : Ascii.compare a a = Eq.
Proof. unfold Ascii.compare. apply N.compare_refl. Qed.

Lemma string_compare_refl a : String.compare a a = Eq.
Proof. induction a as [|x a IH]; simpl; [reflexivity|]. rewrite ascii_compare_refl. exact IH. Qed.

Lemma string_compare_trans_lt a b c :
  String.compare a b = Lt -> String.compare b c = Lt -> String.compare a c = Lt.
Proof.
  revert b c; induction a as [|x a IH]; intros [|y b] [|z c]; simpl; try discriminate; auto.
  destruct (Ascii.compare x y) eqn:E1; try discriminate;
  destruct (Ascii.compare y z) eqn:E2; try discriminate;
  repeat match goal with H : Ascii.compare _ _ = Eq |- _ => apply Ascii.compare_eq_iff in H; subst end.
  - rewrite ascii_compare_refl. apply IH.
  - rewrite E2. auto.
  - rewrite E1. auto.
  - rewrite (ascii_compare_trans_lt _ _ _ E1 E2). auto.
Qed.

Lemma inventory_key_lt_asym a b : inventory_key_lt a b = true -> inventory_key_lt b a = false.
Proof.
  unfold inventory_key_lt, str_lt. rewrite (String.compare_antisym (category b)).
  destruct (String.compare (category a) (category b)); simpl; try discriminate; auto.
  rewrite (String.compare_antisym (name b)).
  destruct (String.compare (name a) (name b)); simpl; congruence.
Qed.

(** A three-way view of the key order. *)
Lemma inventory_key_lt_false a b :
  inventory_key_lt b a = false <->
  (String.compare (category a) (category b) = Lt \/
   (category a = category b /\ String.compare (name a) (name b) <> Gt)).
Proof.
  unfold inventory_key_lt, str_lt. rewrite (String.compare_antisym (category a)).
  rewrite (String.compare_antisym (name a)).
  destruct (String.compare (category b) (category a)) eqn:E; simpl.
  - apply String.compare_eq_iff in E.
    destruct (String.compare (name b) (name a)); simpl;
      split; intros H; try discriminate; try reflexivity;
      try (right; split; [congruence|discriminate]);
      destruct H as [H|[_ H]]; try discriminate; congruence.
  - split; intros H; [discriminate|]. destruct H as [H|[H _]]; [discriminate|].
    rewrite H, string_compare_refl in E. discriminate.
  - split; intros _; [left; reflexivity|reflexivity].
Qed.

Lemma inventory_key_le_trans a b c :
  inventory_key_lt b a = false -> inventory_key_lt c b = false -> inventory_key_lt c a = false.
Proof.
  rewrite !inventory_key_lt_false. intros [H1|[H1 H2]] [H3|[H3 H4]].
  - left. eapply string_compare_trans_lt; eauto.
  - left. rewrite <- H3. exact H1.
  - left. rewrite H1. exact H3.
  - right. split; [congruence|].
    destruct (String.compare (name a) (name b)) eqn:E1; try congruence;
      destruct (String.compare (name b) (name c)) eqn:E2; try congruence.
    + apply String.compare_eq_iff in E1, E2. rewrite E1, E2, string_compare_refl. discriminate.
    + apply String.compare_eq_iff in E1. rewrite E1, E2. discriminate.
    + apply String.compare_eq_iff in E2. rewrite <- E2, E1. discriminate.
    + rewrite (string_compare_trans_lt _ _ _ E1 E2). discriminate.
Qed.

Section StableSortFacts.
Context {A : Type} (lt : A -> A -> bool).
Hypothesis lt_asym : forall a b, lt a b = true -> lt b a = false.
Hypothesis le_trans : forall a b c, lt b a = false -> lt c b = false -> lt c a = false.

Lemma insert_by_perm x l : Permutation (insert_by lt x l) (x :: l).
Proof.
  induction l as [|y r IH]; simpl; [reflexivity|].
  destruct (lt x y); [reflexivity|]. rewrite IH. apply perm_swap.
Qed.

Lemma insert_by_sorted x l :
  StronglySorted (fun a b => lt b a = false) l ->
  StronglySorted (fun a b => lt b a = false) (insert_by lt x l).
Proof.
  induction l as [|y r IH]; intros Hs; simpl.
  - repeat constructor.
  - inversion Hs as [|? ? Hr Hall]; subst.
    destruct (lt x y) eqn:E.
    + constructor; [exact Hs|]. constructor; [apply lt_asym, E|].
      eapply Forall_impl; [|exact Hall]. intros z Hz. exact (le_trans _ _ _ (lt_asym _ _ E) Hz).
    + constructor; [exact (IH Hr)|].
      eapply Permutation_Forall; [symmetry; apply insert_by_perm|].
      constructor; [exact E|exact Hall].
Qed.

Lemma sort_by_gen l acc :
  StronglySorted (fun a b => lt b a = false) acc ->
  StronglySorted (fun a b => lt b a = false) (fold_left (fun acc x => insert_by lt x acc) l acc) /\
  Permutation (fold_left (fun acc x => insert_by lt x acc) l acc) (l ++ acc).
Proof.
  revert acc; induction l as [|x l IH]; intros acc Hs; simpl; [split; [exact Hs|reflexivity]|].
  destruct (IH (insert_by lt x acc) (insert_by_sorted x acc Hs)) as [H1 H2].
  split; [exact H1|]. rewrite H2, insert_by_perm. symmetry. apply Permutation_middle.
Qed.

Lemma sort_by_spec l :
  StronglySorted (fun a b => lt b a = false) (sort_by lt l) /\ Permutation (sort_by lt l) l.
Proof.
  unfold sort_by. destruct (sort_by_gen l [] (SSorted_nil _)) as [H1 H2].
  rewrite app_nil_r in H2. split; assumption.
Qed.

Lemma lt_le_trans x y z : lt x y = true -> lt z y = false -> lt x z = true.
Proof.
  intros H1 H2. destruct (lt x z) eqn:E; [reflexivity|].
  rewrite (le_trans _ _ _ H2 E) in H1. discriminate.
Qed.

Variable eqk : A -> bool.
Hypothesis eqk_lt : forall x z, eqk x = true -> lt x z = true -> eqk z = false.

Lemma filter_eqk_nil x l :
  eqk x = true -> Forall (fun z => lt x z = true) l -> filter eqk l = [].
Proof.
  intros Hx Hl. induction Hl as [|z r Hz Hr IH]; [reflexivity|]. simpl.
  rewrite (eqk_lt _ _ Hx Hz). exact IH.
Qed.

Lemma insert_by_stable x l :
  StronglySorted (fun a b => lt b a = false) l ->
  filter eqk (insert_by lt x l) = if eqk x then filter eqk l ++ [x] else filter eqk l.
Proof.
  induction l as [|y r IH]; intros Hs; simpl.
  - destruct (eqk x); reflexivity.
  - inversion Hs as [|? ? Hr Hall]; subst.
    destruct (lt x y) eqn:E.
    + simpl. destruct (eqk x) eqn:Ex; [|reflexivity].
      rewrite (eqk_lt _ _ Ex E).
      rewrite (filter_eqk_nil x r Ex); [reflexivity|].
      eapply Forall_impl; [|exact Hall]. intros z Hz. exact (lt_le_trans _ _ _ E Hz).
    + simpl. rewrite (IH Hr). destruct (eqk y), (eqk x); reflexivity.
Qed.

Lemma sort_by_stable_gen l acc :
  StronglySorted (fun a b => lt b a = false) acc ->
  filter eqk (fold_left (fun acc x => insert_by lt x acc) l acc) = filter eqk acc ++ filter eqk l.
Proof.
  revert acc; induction l as [|x l IH]; intros acc Hs; simpl; [rewrite app_nil_r; reflexivity|].
  rewrite (IH _ (insert_by_sorted x acc Hs)), insert_by_stable by exact Hs.
  destruct (eqk x); [rewrite <- app_assoc; reflexivity|reflexivity].
Qed.

Lemma sort_by_stable l : filter eqk (sort_by lt l) = filter eqk l.
Proof. unfold sort_by. rewrite sort_by_stable_gen by constructor. reflexivity. Qed.
End StableSortFacts.

Lemma inventory_same_key_lt k x z :
  (String.eqb (category x) (category k) && String.eqb (name x) (name k)) = true ->
  inventory_key_lt x z = true ->
  (String.eqb (category z) (category k) && String.eqb (name z) (name k)) = false.
Proof.
  intros Hx Hl. apply andb_true_iff in Hx as [Hc Hn].
  apply String.eqb_eq in Hc, Hn.
  destruct (String.eqb (category z) (category k)) eqn:Ec; [|reflexivity].
  destruct (String.eqb (name z) (name k)) eqn:En; [|reflexivity].
  apply String.eqb_eq in Ec, En. exfalso.
  unfold inventory_key_lt, str_lt in Hl.
  rewrite Hc, <- Ec, string_compare_refl, Hn, <- En, string_compare_refl in Hl. discriminate.
Qed.

(** X1: [get_current_inventory] returns [] when no user is logged in;
    otherwise it returns the items of the user last seen in the past seven
    days, sorted by category then name, items with the same key keeping
    their stored order. *)
Theorem get_current_inventory_recent_sorted (logged_in : bool) (user : option (list item))
    (now : Z) :
  ((logged_in = false \/ user = None) -> get_current_inventory logged_in user now = []) /\
  (forall inventory, logged_in = true -> user = Some inventory ->
     let recent := filter (fun it => now - 7 * one_day <=? last_seen it) inventory in
     Permutation (get_current_inventory logged_in user now) recent /\
     StronglySorted inventory_key_le (get_current_inventory logged_in user now) /\
     forall k,
       filter (fun it => String.eqb (category it) (category k) && String.eqb (name it) (name k))
         (get_current_inventory logged_in user now) =
       filter (fun it => String.eqb (category it) (category k) && String.eqb (name it) (name k))
         recent).
Proof.
  split.
  - intros [H|H]; subst; unfold get_current_inventory; simpl; [reflexivity|].
    destruct logged_in; reflexivity.
  - intros inv -> -> recent. unfold get_current_inventory. simpl. fold recent.
    destruct (sort_by_spec inventory_key_lt inventory_key_lt_asym inventory_key_le_trans recent)
      as [H1 H2].
    split; [exact H2|]. split; [exact H1|].
    intros k. apply (sort_by_stable inventory_key_lt inventory_key_lt_asym inventory_key_le_trans).
    intros x z. apply inventory_same_key_lt.
Qed.

Lemma gmatches_common n c it :
  gmatches n c (common_entry it c) = String.eqb (py_lower it) (py_lower n).
Proof. unfold gmatches, common_entry. simpl. rewrite String.eqb_refl, andb_true_r. reflexivity. Qed.

Lemma gmatches_lower n c n' c' it :
  py_lower n' = py_lower n -> py_lower c' = py_lower c -> gmatches n' c' it = gmatches n c it.
Proof. intros Hn Hc. unfold gmatches. rewrite Hn, Hc. reflexivity. Qed.

Lemma existsb_ext' {A} (f g : A -> bool) l : (forall x, f x = g x) -> existsb f l = existsb g l.
Proof. intros H. induction l as [|x r IH]; simpl; [reflexivity|]. rewrite H, IH. reflexivity. Qed.

Lemma existsb_filter_negb {A} (f : A -> bool) l : existsb f (filter (fun x => negb (f x)) l) = false.
Proof. induction l as [|x r IH]; simpl; [reflexivity|]. destruct (f x) eqn:E; simpl; rewrite ?E; auto. Qed.

(** X2: [_remove_item_from_list] drops exactly the selected entries that
    match the name and category case-insensitively, leaves custom items
    and recommendations alone, and afterwards [_is_item_in_list] holds only
    through a custom item; both functions ignore letter case. *)
Theorem remove_item_from_list_spec (L : grocery_list) (n c : string) :
  custom_items (remove_item_from_list L n c) = custom_items L /\
  smart_recommendations (remove_item_from_list L n c) = smart_recommendations L /\
  (forall it, In it (selected_items (remove_item_from_list L n c)) <->
              In it (selected_items L) /\ gmatches n c it = false) /\
  is_item_in_list (remove_item_from_list L n c) n c = existsb (gmatches n c) (custom_items L) /\
  (forall n' c', py_lower n' = py_lower n -> py_lower c' = py_lower c ->
     is_item_in_list L n' c' = is_item_in_list L n c /\
     remove_item_from_list L n' c' = remove_item_from_list L n c).
Proof.
  split; [reflexivity|]. split; [reflexivity|]. split.
  - intros it. simpl. rewrite filter_In, negb_true_iff. reflexivity.
  - split.
    + unfold is_item_in_list. simpl. rewrite existsb_app, existsb_filter_negb. reflexivity.
    + intros n' c' Hn Hc. unfold is_item_in_list, remove_item_from_list. split.
      * apply existsb_ext'. intros it. apply gmatches_lower; assumption.
      * f_equal. apply filter_ext. intros it. rewrite (gmatches_lower n c n' c'); auto.
Qed.

Lemma is_item_in_list_append L e n c :
  is_item_in_list (append_selected L e) n c = is_item_in_list L n c || gmatches n c e.
Proof.
  unfold is_item_in_list, append_selected, set_selected. simpl.
  rewrite !existsb_app. simpl. rewrite orb_false_r.
  destruct (existsb _ (selected_items L)), (existsb _ (custom_items L)), (gmatches n c e); reflexivity.
Qed.

Lemma add_all_mono L items c n :
  is_item_in_list L n c = true -> is_item_in_list (add_all_items_from_category L items c) n c = true.
Proof.
  unfold add_all_items_from_category. revert L; induction items as [|it r IH]; intros L H; simpl; [exact H|].
  apply IH. destruct (is_item_in_list L it c); [exact H|].
  rewrite is_item_in_list_append, H. reflexivity.
Qed.

Lemma add_all_present L items c it :
  In it items -> is_item_in_list (add_all_items_from_category L items c) it c = true.
Proof.
  unfold add_all_items_from_category. revert L; induction items as [|x r IH]; intros L Hin; simpl;
    [destruct Hin|].
  destruct Hin as [->|Hin]; [|apply IH, Hin].
  apply add_all_mono.
  destruct (is_item_in_list L it c) eqn:E; [exact E|].
  rewrite is_item_in_list_append, gmatches_common, String.eqb_refl, orb_true_r. reflexivity.
Qed.

Lemma add_all_fixed L items c :
  (forall it, In it items -> is_item_in_list L it c = true) ->
  add_all_items_from_category L items c = L.
Proof.
  unfold add_all_items_from_category. induction items as [|x r IH]; intros H; simpl; [reflexivity|].
  rewrite (H x (or_introl eq_refl)). apply IH. intros it Hit. apply H. right. exact Hit.
Qed.

Lemma add_all_shape L items c :
  custom_items (add_all_items_from_category L items c) = custom_items L /\
  smart_recommendations (add_all_items_from_category L items c) = smart_recommendations L /\
  exists added,
    selected_items (add_all_items_from_category L items c) = selected_items L ++ added /\
    Forall (fun e => exists it, In it items /\ e = common_entry it c) added /\
    Forall (fun e => is_item_in_list L (gi_name e) c = false) added /\
    NoDup (map (fun e => py_lower (gi_name e)) added).
Proof.
  unfold add_all_items_from_category. revert L; induction items as [|x r IH]; intros L; simpl.
  - split; [reflexivity|]. split; [reflexivity|]. exists []. rewrite app_nil_r.
    repeat split; constructor.
  - destruct (is_item_in_list L x c) eqn:E.
    + destruct (IH L) as [H1 [H2 [added [H3 [H4 [H5 H6]]]]]].
      split; [exact H1|]. split; [exact H2|]. exists added. split; [exact H3|].
      split; [|split; assumption].
      eapply Forall_impl; [|exact H4]. intros e [it [Hin He]]. exists it. split; [right|]; assumption.
    + destruct (IH (append_selected L (common_entry x c))) as [H1 [H2 [added [H3 [H4 [H5 H6]]]]]].
      split; [exact H1|]. split; [exact H2|].
      exists (common_entry x c :: added). split.
      { rewrite H3. simpl. rewrite <- app_assoc. reflexivity. }
      split; [|split].
      * constructor; [exists x; split; [left|]; reflexivity|].
        eapply Forall_impl; [|exact H4]. intros e [it [Hin He]]. exists it. split; [right|]; assumption.
      * constructor; [exact E|].
        eapply Forall_impl; [|exact H5]. intros e He. cbv beta in He.
        rewrite is_item_in_list_append in He. apply orb_false_iff in He. apply He.
      * simpl. constructor; [|exact H6].
        intros Hin. apply in_map_iff in Hin as [e [He Hin]].
        rewrite Forall_forall in H5. specialize (H5 e Hin).
        rewrite is_item_in_list_append, gmatches_common in H5. apply orb_false_iff in H5 as [_ H5].
        rewrite He, String.eqb_refl in H5. discriminate.
Qed.

(** X3: [_add_all_items_from_category] only appends common entries of the
    category for names not already in the list (one per name up to case);
    afterwards every name is in the list, and a second call changes
    nothing. *)
Theorem add_all_items_from_category_spec (L : grocery_list) (items : list string) (c : string) :
  let L' := add_all_items_from_category L items c in
  custom_items L' = custom_items L /\
  smart_recommendations L' = smart_recommendations L /\
  (exists added,
     selected_items L' = selected_items L ++ added /\
     Forall (fun e => exists it, In it items /\ e = common_entry it c) added /\
     Forall (fun e => is_item_in_list L (gi_name e) c = false) added /\
     NoDup (map (fun e => py_lower (gi_name e)) added)) /\
  (forall it, In it items -> is_item_in_list L' it c = true) /\
  add_all_items_from_category L' items c = L'.
Proof.
  intros L'. destruct (add_all_shape L items c) as [H1 [H2 H3]].
  split; [exact H1|]. split; [exact H2|]. split; [exact H3|].
  assert (Hp : forall it, In it items -> is_item_in_list L' it c = true)
    by (intros it Hit; apply add_all_present, Hit).
  split; [exact Hp|]. apply add_all_fixed, Hp.
Qed.

Lemma filter_filter' {A} (f g : A -> bool) l : filter f (filter g l) = filter (fun x => g x && f x) l.
Proof. induction l as [|x r IH]; simpl; [reflexivity|]. destruct (g x); simpl; rewrite ?IH; reflexivity. Qed.

Lemma set_selected_twice L s1 s2 : set_selected (set_selected L s1) s2 = set_selected L s2.
Proof. reflexivity. Qed.

Lemma remove_all_filter L items c :
  remove_all_items_from_category L items c =
  set_selected L (filter (fun e => negb (existsb (fun it => gmatches it c e) items)) (selected_items L)).
Proof.
  unfold remove_all_items_from_category. revert L; induction items as [|x r IH]; intros L; simpl.
  - destruct L as [s sel cus]. unfold set_selected. simpl. f_equal.
    rewrite filter_true. reflexivity.
  - rewrite IH. unfold remove_item_from_list. rewrite set_selected_twice. simpl.
    rewrite filter_filter'. f_equal. apply filter_ext. intros e.
    destruct (gmatches x c e); reflexivity.
Qed.

(** X4: when none of the names is in the list, adding all items of a
    category and then removing all of them gives back the list. *)
Theorem remove_all_after_add_all (L : grocery_list) (items : list string) (c : string) :
  (forall it, In it items -> is_item_in_list L it c = false) ->
  remove_all_items_from_category (add_all_items_from_category L items c) items c = L.
Proof.
  intros Hnot. destruct (add_all_shape L items c) as [H1 [H2 [added [H3 [H4 _]]]]].
  rewrite remove_all_filter, H3, filter_app.
  assert (Hs : filter (fun e => negb (existsb (fun it => gmatches it c e) items)) (selected_items L)
               = selected_items L).
  { apply forallb_filter_id. apply forallb_forall. intros e He. apply negb_true_iff.
    destruct (existsb (fun it => gmatches it c e) items) eqn:E; [|reflexivity].
    apply existsb_exists in E as [it [Hit Hm]].
    specialize (Hnot it Hit). unfold is_item_in_list in Hnot.
    assert (existsb (gmatches it c) (selected_items L ++ custom_items L) = true)
      by (apply existsb_exists; exists e; split; [apply in_or_app; left|]; assumption).
    congruence. }
  assert (Ha : filter (fun e => negb (existsb (fun it => gmatches it c e) items)) added = []).
  { rewrite Forall_forall in H4.
    assert (Hf : forall e, In e added -> negb (existsb (fun it => gmatches it c e) items) = false).
    { intros e He. destruct (H4 e He) as [it [Hit ->]]. apply negb_false_iff.
      apply existsb_exists. exists it. split; [exact Hit|].
      rewrite gmatches_common, String.eqb_refl. reflexivity. }
    clear -Hf. induction added as [|e r IH]; [reflexivity|]. simpl.
    rewrite (Hf e (or_introl eq_refl)). apply IH. intros x Hx. apply Hf. right. exact Hx. }
  rewrite Hs, Ha, app_nil_r.
  unfold set_selected. rewrite H1, H2. destruct L; reflexivity.
Qed.

Lemma toggle_one_custom_smart items c L k :
  custom_items (toggle_one items c L k) = custom_items L /\
  smart_recommendations (toggle_one items c L k) = smart_recommendations L.
Proof.
  unfold toggle_one. destruct (_ && _); [|auto].
  destruct (nth_error _ _); [|auto]. destruct (is_item_in_list _ _ _); simpl; auto.
Qed.

Lemma filter_all_false {A} (f : A -> bool) l :
  existsb f l = false -> filter (fun x => negb (f x)) l = l.
Proof.
  intros H. induction l as [|x r IH]; simpl in *; [reflexivity|].
  apply orb_false_iff in H as [H1 H2]. rewrite H1. simpl. rewrite IH; auto.
Qed.

(** X5: [_toggle_items_by_numbers] only changes the selected items; a
    parse error changes nothing; one valid number flips the membership of
    an item with no custom match; the same number twice on an absent item
    changes nothing; numbers naming only custom-matched, unselected items
    change nothing. *)
Theorem toggle_items_by_numbers_spec (L : grocery_list) (items : list string) (c choice : string) :
  custom_items (toggle_items_by_numbers L items c choice) = custom_items L /\
  smart_recommendations (toggle_items_by_numbers L items c choice) = smart_recommendations L /\
  (parse_numbers choice = None -> toggle_items_by_numbers L items c choice = L) /\
  (forall k n, parse_numbers choice = Some [k] ->
     nth_error items (Z.to_nat (k - 1)) = Some n -> 1 <= k ->
     existsb (gmatches n c) (custom_items L) = false ->
     is_item_in_list (toggle_items_by_numbers L items c choice) n c = negb (is_item_in_list L n c)) /\
  (forall k n, parse_numbers choice = Some [k; k] ->
     nth_error items (Z.to_nat (k - 1)) = Some n -> 1 <= k ->
     is_item_in_list L n c = false ->
     toggle_items_by_numbers L items c choice = L) /\
  (forall ks, parse_numbers choice = Some ks ->
     (forall k n, In k ks -> nth_error items (Z.to_nat (k - 1)) = Some n ->
        existsb (gmatches n c) (custom_items L) = true /\
        existsb (gmatches n c) (selected_items L) = false) ->
     toggle_items_by_numbers L items c choice = L).
Proof.
  unfold toggle_items_by_numbers.
  assert (Hk : forall k n, nth_error items (Z.to_nat (k - 1)) = Some n -> 1 <= k ->
             (1 <=? k) && (k <=? Z.of_nat (List.length items)) = true).
  { intros k n Hn H1. assert (Hl : (Z.to_nat (k - 1) < List.length items)%nat)
      by (apply nth_error_Some; congruence).
    apply andb_true_iff; split; apply Z.leb_le; lia. }
  split; [|split; [|split; [|split; [|split]]]].
  - destruct (parse_numbers choice) as [ns|]; [|reflexivity].
    revert L; induction ns as [|k r IH]; intros L; simpl; [reflexivity|].
    rewrite IH. apply toggle_one_custom_smart.
  - destruct (parse_numbers choice) as [ns|]; [|reflexivity].
    revert L; induction ns as [|k r IH]; intros L; simpl; [reflexivity|].
    rewrite IH. apply toggle_one_custom_smart.
  - intros ->. reflexivity.
  - intros k n -> Hn H1 Hc. simpl. unfold toggle_one. rewrite (Hk k n Hn H1), Hn.
    destruct (is_item_in_list L n c) eqn:E; simpl.
    + unfold is_item_in_list, remove_item_from_list. simpl.
      rewrite existsb_app, existsb_filter_negb, Hc. reflexivity.
    + rewrite is_item_in_list_append, E, gmatches_common, String.eqb_refl. reflexivity.
  - intros k n -> Hn H1 Hin. simpl. unfold toggle_one. rewrite (Hk k n Hn H1), Hn, Hin.
    rewrite is_item_in_list_append, Hin, gmatches_common, String.eqb_refl. simpl.
    unfold remove_item_from_list, append_selected, set_selected. simpl.
    unfold is_item_in_list in Hin. rewrite existsb_app in Hin. apply orb_false_iff in Hin as [Hs _].
    rewrite filter_app, filter_all_false by exact Hs. simpl.
    rewrite gmatches_common, String.eqb_refl. simpl. rewrite app_nil_r. destruct L; reflexivity.
  - intros ks -> Hall. revert L Hall. induction ks as [|k r IH]; intros L Hall; simpl; [reflexivity|].
    assert (Ht : toggle_one items c L k = L).
    { unfold toggle_one. destruct (_ && _); [|reflexivity].
      destruct (nth_error items _) as [n|] eqn:Hn; [|reflexivity].
      destruct (Hall k n (or_introl eq_refl) Hn) as [Hc Hs].
      assert (Hi : is_item_in_list L n c = true)
        by (unfold is_item_in_list; rewrite existsb_app, Hc, orb_true_r; reflexivity).
      rewrite Hi. unfold remove_item_from_list, set_selected.
      rewrite filter_all_false by exact Hs. destruct L; reflexivity. }
    rewrite Ht. apply IH. intros k' n Hk' Hn. apply (Hall k' n); [right|]; assumption.
Qed.

Lemma existsb_Zeqb_false start Q :
  (forall q, In q Q -> q <> start) -> existsb (Z.eqb start) Q = false.
Proof.
  intros H. induction Q as [|q r IH]; simpl; [reflexivity|].
  rewrite IH by (intros; apply H; right; assumption).
  replace (start =? q) with false by (symmetry; apply Z.eqb_neq; intros ->; apply (H q); [left|]; reflexivity).
  reflexivity.
Qed.

Lemma existsb_Zeqb_In start Q : existsb (Z.eqb start) Q = true <-> In start Q.
Proof.
  rewrite existsb_exists. split.
  - intros [q [Hq E]]. apply Z.eqb_eq in E. subst. exact Hq.
  - intros H. exists start. split; [exact H|apply Z.eqb_refl].
Qed.

Lemma drop_pos_irrel {A} (l : list A) start Q p :
  p < start -> drop_pos l start (p :: Q) = drop_pos l start Q.
Proof.
  revert start; induction l as [|x r IH]; intros start H; simpl; [reflexivity|].
  replace (start =? p) with false by (symmetry; apply Z.eqb_neq; lia). simpl.
  rewrite IH by lia. reflexivity.
Qed.

Lemma drop_pos_beyond {A} (l : list A) start Q :
  (forall q, In q Q -> q < start \/ start + Z.of_nat (List.length l) <= q) -> drop_pos l start Q = l.
Proof.
  revert start; induction l as [|x r IH]; intros start H; simpl; [reflexivity|].
  rewrite existsb_Zeqb_false.
  - simpl. rewrite IH; [reflexivity|]. intros q Hq. specialize (H q Hq). simpl in H. lia.
  - intros q Hq. specialize (H q Hq). simpl in H. lia.
Qed.

Lemma drop_pos_ext {A} (l : list A) start P Q :
  (forall p, start <= p < start + Z.of_nat (List.length l) -> (In p P <-> In p Q)) ->
  drop_pos l start P = drop_pos l start Q.
Proof.
  revert start; induction l as [|x r IH]; intros start H; simpl; [reflexivity|].
  assert (E : existsb (Z.eqb start) P = existsb (Z.eqb start) Q).
  { destruct (existsb (Z.eqb start) P) eqn:E1, (existsb (Z.eqb start) Q) eqn:E2; auto.
    - apply existsb_Zeqb_In in E1. apply H in E1; [|simpl; lia].
      apply existsb_Zeqb_In in E1. congruence.
    - apply existsb_Zeqb_In in E2. apply H in E2; [|simpl; lia].
      apply existsb_Zeqb_In in E2. congruence. }
  rewrite E, (IH (start + 1)); [reflexivity|]. intros p Hp. apply H. simpl. lia.
Qed.

Lemma py_pop_cons {A} (x : A) m i :
  py_pop (x :: m) (S i) = match py_pop m i with Some (y, m') => Some (y, x :: m') | None => None end.
Proof. unfold py_pop. simpl. destruct (nth_error m i); reflexivity. Qed.

Lemma py_pop_some_lt {A} (l : list A) i y l' : py_pop l i = Some (y, l') -> (i < List.length l)%nat.
Proof.
  unfold py_pop. destruct (nth_error l i) eqn:E; [|discriminate]. intros _.
  apply nth_error_Some. congruence.
Qed.

Lemma drop_pos_pop {A} (l : list A) start Q i :
  (forall q, In q Q -> start + Z.of_nat i < q) -> (i < List.length l)%nat ->
  exists x, nth_error l i = Some x /\
    py_pop (drop_pos l start Q) i = Some (x, drop_pos l start (start + Z.of_nat i :: Q)).
Proof.
  revert start i; induction l as [|x r IH]; intros start i HQ Hi; simpl in Hi; [lia|].
  assert (E : existsb (Z.eqb start) Q = false)
    by (apply existsb_Zeqb_false; intros q Hq; specialize (HQ q Hq); lia).
  destruct i as [|i].
  - exists x. split; [reflexivity|]. simpl. rewrite E, Z.add_0_r, Z.eqb_refl. simpl.
    rewrite drop_pos_irrel by lia. reflexivity.
  - destruct (IH (start + 1) i) as [y [Hn Hp]].
    + intros q Hq. specialize (HQ q Hq). lia.
    + lia.
    + exists y. split; [exact Hn|]. cbn [drop_pos existsb]. rewrite E.
      replace (start =? start + Z.of_nat (S i)) with false by (symmetry; apply Z.eqb_neq; lia).
      cbn [orb app]. rewrite py_pop_cons, Hp. replace (start + 1 + Z.of_nat i) with (start + Z.of_nat (S i)) by lia. reflexivity.
Qed.

Lemma drop_pos_len_le {A} (l : list A) start Q : (List.length (drop_pos l start Q) <= List.length l)%nat.
Proof.
  revert start; induction l as [|x r IH]; intros start; simpl; [lia|].
  destruct (existsb _ _); simpl; specialize (IH (start + 1)); lia.
Qed.

Section RemoveNumbers.
Variables (sm : list recommendation) (sel0 cus0 : list gitem).

Lemma remove_numbers_desc ns Q removed :
  StronglySorted (fun a b => b < a) ns ->
  (forall q r, In q Q -> In r ns -> r < q) ->
  remove_numbers (Z.of_nat (List.length (sel0 ++ cus0))) ns
    (mk_glist sm (drop_pos sel0 1 Q) (drop_pos cus0 (Z.of_nat (List.length sel0) + 1) Q)) removed =
  (mk_glist sm (drop_pos sel0 1 (rev (filter (valid_num sel0 cus0) ns) ++ Q))
     (drop_pos cus0 (Z.of_nat (List.length sel0) + 1) (rev (filter (valid_num sel0 cus0) ns) ++ Q)),
   removed ++ map (name_at sel0 cus0) (filter (valid_num sel0 cus0) ns), false).
Proof.
  set (s := Z.of_nat (List.length sel0)).
  revert Q removed; induction ns as [|num rest IH]; intros Q removed Hs HQ.
  - simpl. rewrite app_nil_r. reflexivity.
  - inversion Hs as [|? ? Hr Hall]; subst. rewrite Forall_forall in Hall.
    assert (HQ' : forall q r, In q (num :: Q) -> In r rest -> r < q).
    { intros q r [<-|Hq] Hrr; [apply Hall; exact Hrr|apply HQ; [exact Hq|right; exact Hrr]]. }
    assert (Hnum : forall q, In q Q -> num < q) by (intros q Hq; apply HQ; [exact Hq|left; reflexivity]).
    cbn [remove_numbers filter].
    destruct (valid_num sel0 cus0 num) eqn:Ev; unfold valid_num in Ev; rewrite Ev.
    + apply andb_true_iff in Ev as [E1 E2]. apply Z.leb_le in E1, E2.
      rewrite length_app, Nat2Z.inj_add in E2. fold s in E2.
      cbn [selected_items custom_items].
      destruct (Z.le_gt_cases num s) as [Hle|Hgt].
      * destruct (drop_pos_pop sel0 1 Q (Z.to_nat (num - 1))) as [x [Hn Hp]].
        { intros q Hq. specialize (Hnum q Hq). lia. }
        { unfold s in Hle. lia. }
        pose proof (py_pop_some_lt _ _ _ _ Hp) as Hlt.
        replace (num - 1 <? Z.of_nat (List.length (drop_pos sel0 1 Q))) with true
          by (symmetry; apply Z.ltb_lt; lia).
        rewrite Hp. replace (1 + Z.of_nat (Z.to_nat (num - 1))) with num by lia.
        unfold set_selected. cbn [smart_recommendations custom_items].
        replace (drop_pos cus0 (s + 1) Q) with (drop_pos cus0 (s + 1) (num :: Q))
          by (apply drop_pos_irrel; lia).
        rewrite IH by assumption.
        cbn [rev map]. rewrite <- !app_assoc. simpl.
        assert (Hna : name_at sel0 cus0 num = gi_name x)
          by (unfold name_at; rewrite nth_error_app1 by lia; rewrite Hn; reflexivity).
        rewrite Hna. reflexivity.
      * assert (Hsel : forall Q', (forall q, In q Q' -> num <= q) -> drop_pos sel0 1 Q' = sel0).
        { intros Q' HQ'' . apply drop_pos_beyond. intros q Hq. specialize (HQ'' q Hq). unfold s in Hgt. lia. }
        assert (Hl : Z.of_nat (List.length (drop_pos sel0 1 Q)) = s).
        { rewrite Hsel; [reflexivity|]. intros q Hq. specialize (Hnum q Hq). lia. }
        rewrite Hl. replace (num - 1 <? s) with false by (symmetry; apply Z.ltb_ge; lia).
        destruct (drop_pos_pop cus0 (s + 1) Q (Z.to_nat (num - 1 - s))) as [x [Hn Hp]].
        { intros q Hq. specialize (Hnum q Hq). lia. }
        { lia. }
        rewrite Hp. replace (s + 1 + Z.of_nat (Z.to_nat (num - 1 - s))) with num by lia.
        unfold set_custom. cbn [smart_recommendations selected_items].
        replace (drop_pos sel0 1 Q) with (drop_pos sel0 1 (num :: Q))
          by (rewrite !Hsel; [reflexivity| |]; intros q Hq;
              [specialize (Hnum q Hq)|destruct Hq as [<-|Hq]; [|specialize (Hnum q Hq)]]; lia).
        rewrite IH by assumption.
        cbn [rev map]. rewrite <- !app_assoc. simpl.
        assert (Hna : name_at sel0 cus0 num = gi_name x).
        { unfold name_at. rewrite nth_error_app2 by (unfold s in Hgt; lia).
          replace (Z.to_nat (num - 1) - List.length sel0)%nat with (Z.to_nat (num - 1 - s)) by (unfold s; lia).
          rewrite Hn. reflexivity. }
        rewrite Hna. reflexivity.
    + apply IH; [exact Hr|]. intros q r Hq Hrr. apply HQ; [exact Hq|right; exact Hrr].
Qed.
End RemoveNumbers.

Lemma SSorted_app_single {A} (R : A -> A -> Prop) l a :
  StronglySorted R l -> (forall x, In x l -> R x a) -> StronglySorted R (l ++ [a]).
Proof.
  induction l as [|y r IH]; intros Hs Ha; simpl.
  - repeat constructor.
  - inversion Hs as [|? ? Hr Hall]; subst. constructor.
    + apply IH; [exact Hr|]. intros x Hx. apply Ha. right. exact Hx.
    + apply Forall_app. split; [exact Hall|]. constructor; [apply Ha; left; reflexivity|constructor].
Qed.

Lemma SSorted_rev_desc (l : list Z) :
  StronglySorted (fun a b => b < a) l -> StronglySorted Z.lt (rev l).
Proof.
  induction l as [|y r IH]; intros Hs; simpl; [constructor|].
  inversion Hs as [|? ? Hr Hall]; subst. apply SSorted_app_single; [apply IH, Hr|].
  intros x Hx. apply in_rev in Hx. rewrite Forall_forall in Hall. apply Hall, Hx.
Qed.

Lemma SSorted_filter {A} (R : A -> A -> Prop) f l :
  StronglySorted R l -> StronglySorted R (filter f l).
Proof.
  induction l as [|y r IH]; intros Hs; simpl; [constructor|].
  inversion Hs as [|? ? Hr Hall]; subst. destruct (f y); [|apply IH, Hr].
  constructor; [apply IH, Hr|]. rewrite Forall_forall in *. intros x Hx.
  apply filter_In in Hx. apply Hall, Hx.
Qed.

Lemma sort_desc_spec ns :
  NoDup ns -> StronglySorted (fun a b => b < a) (sort_desc ns) /\ Permutation (sort_desc ns) ns.
Proof.
  intros Hnd. destruct (sort_by_spec (fun a b => b <? a)) with (l := ns) as [Hs Hp].
  - intros a b H. apply Z.ltb_lt in H. apply Z.ltb_ge. lia.
  - intros a b c H1 H2. apply Z.ltb_ge in H1, H2. apply Z.ltb_ge. lia.
  - split; [|exact Hp]. unfold sort_desc.
    assert (Hnd' : NoDup (sort_by (fun a b => b <? a) ns)) by (eapply Permutation_NoDup; [symmetry; exact Hp|exact Hnd]).
    clear Hp Hnd. induction Hs as [|y r Hr IH Hall]; constructor.
    + apply IH. inversion Hnd'; assumption.
    + inversion Hnd' as [|? ? Hny]; subst. rewrite Forall_forall in *. intros x Hx.
      specialize (Hall x Hx). cbv beta in Hall. apply Z.ltb_ge in Hall.
      assert (x <> y) by (intros ->; contradiction). lia.
Qed.

Lemma keep_pos_enum {A} (l : list A) start P W :
  StronglySorted Z.lt W ->
  (forall p, In p W <-> (start <= p < start + Z.of_nat (List.length l) /\ In p P)) ->
  map (fun k => nth_error l (Z.to_nat (k - start))) W = map Some (keep_pos l start P).
Proof.
  revert start W; induction l as [|x r IH]; intros start W Hs HW; simpl.
  - destruct W as [|w W']; [reflexivity|]. exfalso. destruct (proj1 (HW w) (or_introl eq_refl)). simpl in *. lia.
  - assert (Hge : forall p, In p W -> start <= p) by (intros p Hp; apply HW in Hp; lia).
    assert (Hsh : forall W', (forall p, In p W' -> start < p) ->
              map (fun k => nth_error (x :: r) (Z.to_nat (k - start))) W' =
              map (fun k => nth_error r (Z.to_nat (k - (start + 1)))) W').
    { intros W' H. apply map_ext_in. intros k Hk. specialize (H k Hk).
      replace (Z.to_nat (k - start)) with (S (Z.to_nat (k - (start + 1)))) by lia. reflexivity. }
    destruct (existsb (Z.eqb start) P) eqn:E.
    + apply existsb_Zeqb_In in E.
      assert (Hin : In start W) by (apply HW; split; [simpl; lia|exact E]).
      destruct W as [|w W']; [destruct Hin|].
      inversion Hs as [|? ? Hr Hall]; subst. rewrite Forall_forall in Hall.
      assert (Hw : w = start).
      { destruct Hin as [->|Hin]; [reflexivity|]. specialize (Hall _ Hin). specialize (Hge w (or_introl eq_refl)). lia. }
      subst w. simpl. replace (start - start) with 0 by lia. simpl. f_equal.
      rewrite Hsh by (intros p Hp; apply Hall, Hp). apply IH; [exact Hr|].
      intros p. split.
      * intros Hp. pose proof (Hall p Hp). pose proof (proj1 (HW p) (or_intror Hp)) as Hp2.
        simpl in Hp2. split; [lia|tauto].
      * intros [Hr' HP]. destruct (proj2 (HW p)) as [->|Hp]; [simpl; split; [lia|exact HP]| |exact Hp]. lia.
    + simpl. rewrite Hsh.
      * apply IH; [exact Hs|]. intros p. rewrite HW. simpl. split.
        -- intros [Hr' HP]. split; [|exact HP]. assert (p <> start) by (intros ->; apply existsb_Zeqb_In in HP; congruence). lia.
        -- intros [Hr' HP]. split; [lia|exact HP].
      * intros p Hp. pose proof (Hge p Hp). assert (p <> start); [|lia].
        intros ->. apply HW in Hp as [_ Hp]. apply existsb_Zeqb_In in Hp. congruence.
Qed.

(** X6: with distinct numbers, [_remove_items_from_list] removes the
    entries at the valid positions of the combined listing, selected then
    custom, and reports their names from the last to the first. *)
Theorem remove_items_from_list_distinct (L : grocery_list) (choice : string) (ns : list Z) :
  py_strip choice <> "0"%string ->
  parse_numbers (py_strip choice) = Some ns -> NoDup ns ->
  remove_items_from_list L choice =
    (mk_glist (smart_recommendations L) (drop_pos (selected_items L) 1 ns)
       (drop_pos (custom_items L) (Z.of_nat (List.length (selected_items L)) + 1) ns),
     rev (map gi_name (keep_pos (selected_items L ++ custom_items L) 1 ns)), false).
Proof.
  intros H0 Hp Hnd. destruct L as [sm sel cus]. unfold remove_items_from_list. cbn [selected_items custom_items smart_recommendations].
  destruct (sel ++ cus) as [|e es] eqn:Eall.
  - apply app_eq_nil in Eall as [-> ->]. reflexivity.
  - rewrite <- Eall. clear e es Eall.
    replace (String.eqb (py_strip choice) "0") with false by (symmetry; apply String.eqb_neq; exact H0).
    rewrite Hp. destruct (sort_desc_spec ns Hnd) as [Hs Hperm].
    pose proof (remove_numbers_desc sm sel cus (sort_desc ns) [] [] Hs (fun q r Hq _ => match Hq with end)) as R.
    rewrite !(drop_pos_beyond _ _ []) in R by (intros q []). rewrite R. clear R.
    assert (Hmem : forall p, 1 <= p <= Z.of_nat (List.length (sel ++ cus)) ->
              (In p (rev (filter (valid_num sel cus) (sort_desc ns)) ++ []) <-> In p ns)).
    { intros p Hp'. rewrite app_nil_r, <- in_rev, filter_In. split.
      - intros [Hin _]. eapply Permutation_in; [exact Hperm|exact Hin].
      - intros Hin. split; [eapply Permutation_in; [symmetry; exact Hperm|exact Hin]|].
        unfold valid_num. apply andb_true_iff. split; apply Z.leb_le; lia. }
    rewrite length_app in Hmem.
    rewrite (drop_pos_ext sel 1 _ ns) by (intros p Hp'; apply Hmem; lia).
    rewrite (drop_pos_ext cus _ _ ns) by (intros p Hp'; apply Hmem; lia).
    f_equal. f_equal. rewrite app_nil_l.
      rewrite <- (rev_involutive (filter _ (sort_desc ns))), map_rev. f_equal.
      assert (E := keep_pos_enum (sel ++ cus) 1 ns (rev (filter (valid_num sel cus) (sort_desc ns)))).
      unfold name_at. rewrite <- (map_map (fun k => nth_error (sel ++ cus) (Z.to_nat (k - 1)))
                                   (fun o => match o with Some it => gi_name it | None => ""%string end)).
      rewrite E, map_map; [reflexivity| |].
      + apply SSorted_rev_desc, SSorted_filter, Hs.
      + intros p. rewrite <- in_rev, filter_In. split.
        * intros [Hin Hv]. unfold valid_num in Hv. apply andb_true_iff in Hv as [V1 V2].
          apply Z.leb_le in V1, V2. split; [lia|]. eapply Permutation_in; [exact Hperm|exact Hin].
        * intros [Hr' Hin]. split; [eapply Permutation_in; [symmetry; exact Hperm|exact Hin]|].
          unfold valid_num. apply andb_true_iff. split; apply Z.leb_le; lia.
Qed.

Lemma add_smart_fold (recs : list recommendation) ns L0 :
  exists R,
    fold_left (fun L num =>
        if (1 <=? num) && (num <=? Z.of_nat (List.length recs)) then
          match nth_error recs (Z.to_nat (num - 1)) with
          | Some rec => append_selected L (smart_entry rec)
          | None => L
          end
        else L) ns L0 = set_selected L0 (selected_items L0 ++ map smart_entry R) /\
    Forall2 (fun k rec => nth_error recs (Z.to_nat (k - 1)) = Some rec)
      (filter (fun k => (1 <=? k) && (k <=? Z.of_nat (List.length recs))) ns) R.
Proof.
  revert L0; induction ns as [|k r IH]; intros L0; simpl.
  - exists []. split; [|constructor]. rewrite app_nil_r. destruct L0; reflexivity.
  - destruct ((1 <=? k) && (k <=? Z.of_nat (List.length recs))) eqn:Ev.
    + apply andb_true_iff in Ev as [E1 E2]. apply Z.leb_le in E1, E2.
      destruct (nth_error recs (Z.to_nat (k - 1))) as [rec|] eqn:En.
      2:{ exfalso. apply nth_error_None in En. lia. }
      destruct (IH (append_selected L0 (smart_entry rec))) as [R [H1 H2]].
      exists (rec :: R). rewrite H1. split.
      * unfold append_selected, set_selected. simpl. rewrite <- app_assoc. reflexivity.
      * constructor; assumption.
    + destruct (IH L0) as [R [H1 H2]]. exists R. split; [exact H1|]. exact H2.
Qed.

(** X8: [_add_smart_recommendations] only appends to the selected items;
    with no recommendations, the choice [0] or a parse error it changes
    nothing; otherwise it appends, in the order typed, one entry per valid
    number, built from the recommendation at that position. *)
Theorem add_smart_recommendations_spec (L : grocery_list) (choice : string) :
  custom_items (add_smart_recommendations L choice) = custom_items L /\
  smart_recommendations (add_smart_recommendations L choice) = smart_recommendations L /\
  ((smart_recommendations L = [] \/ py_strip choice = "0"%string \/
    parse_numbers (py_strip choice) = None) -> add_smart_recommendations L choice = L) /\
  (forall ns, py_strip choice <> "0"%string -> parse_numbers (py_strip choice) = Some ns ->
     exists R,
       selected_items (add_smart_recommendations L choice) = selected_items L ++ map smart_entry R /\
       Forall2 (fun k rec => nth_error (smart_recommendations L) (Z.to_nat (k - 1)) = Some rec)
         (filter (fun k => (1 <=? k) && (k <=? Z.of_nat (List.length (smart_recommendations L)))) ns) R).
Proof.
  unfold add_smart_recommendations.
  destruct (smart_recommendations L) as [|r0 rs] eqn:Hs.
  - split; [reflexivity|]. split; [exact Hs|]. split; [reflexivity|].
    intros ns _ _. exists []. split; [rewrite app_nil_r; reflexivity|].
    replace (filter _ ns) with (@nil Z); [constructor|].
    induction ns as [|k r IH]; simpl; [reflexivity|].
    replace ((1 <=? k) && (k <=? 0)) with false by (symmetry; apply andb_false_iff;
      destruct (Z.le_gt_cases 1 k); [right; apply Z.leb_gt; lia|left; apply Z.leb_gt; lia]).
    exact IH.
  - rewrite <- Hs.
    destruct (String.eqb (py_strip choice) "0") eqn:E0.
    + apply String.eqb_eq in E0.
      split; [reflexivity|]. split; [reflexivity|]. split; [reflexivity|]. intros ns H0. contradiction.
    + apply String.eqb_neq in E0.
      destruct (parse_numbers (py_strip choice)) as [ns|] eqn:Hp.
      * destruct (add_smart_fold (smart_recommendations L) ns L) as [R [H1 H2]].
        rewrite Hs in H1, H2. rewrite Hs. rewrite H1. split; [reflexivity|]. split; [exact Hs|]. split.
        -- intros [H|[H|H]]; [discriminate|contradiction|discriminate].
        -- intros ns' _ [= <-]. exists R. split; [reflexivity|exact H2].
      * split; [reflexivity|]. split; [reflexivity|]. split; [reflexivity|]. intros ns _ H; discriminate.
Qed.

Lemma load_fold items L0 :
  fold_left (fun L it => if is_custom it then set_custom L (custom_items L ++ [it])
                         else append_selected L it) items L0 =
  mk_glist (smart_recommendations L0)
    (selected_items L0 ++ filter (fun it => negb (is_custom it)) items)
    (custom_items L0 ++ filter is_custom items).
Proof.
  revert L0; induction items as [|it r IH]; intros L0; simpl.
  - rewrite !app_nil_r. destruct L0; reflexivity.
  - destruct (is_custom it); simpl; rewrite IH; simpl; rewrite <- !app_assoc; reflexivity.
Qed.

Lemma load_saved_grocery_list_eq L doc :
  load_saved_grocery_list L doc =
  mk_glist (smart_recommendations L) (filter (fun it => negb (is_custom it)) (gd_items doc))
    (filter is_custom (gd_items doc)).
Proof. unfold load_saved_grocery_list. rewrite load_fold. reflexivity. Qed.

Lemma filter_Forall_id {A} (f : A -> bool) l : Forall (fun x => f x = true) l -> filter f l = l.
Proof. intros H. induction H as [|x r Hx Hr IH]; simpl; [reflexivity|]. rewrite Hx, IH. reflexivity. Qed.

Lemma filter_Forall_nil {A} (f : A -> bool) l : Forall (fun x => f x = false) l -> filter f l = [].
Proof. intros H. induction H as [|x r Hx Hr IH]; simpl; [reflexivity|]. rewrite Hx. exact IH. Qed.

(** X9: for a list whose entries are filed by type, [_save_grocery_list]
    refuses exactly the empty list, and the document it builds stores all
    entries with their count and the user name; loading it back restores
    both lists and keeps the current recommendations. *)
Theorem save_then_load_round_trip (fmt_time : Z -> string) (username : string) (now : Z)
    (name_in : string) (L L' : grocery_list) :
  well_typed L ->
  (save_grocery_list fmt_time username now name_in L = None <->
   selected_items L ++ custom_items L = []) /\
  forall doc, save_grocery_list fmt_time username now name_in L = Some doc ->
    gd_items doc = selected_items L ++ custom_items L /\
    gd_total_items doc = Z.of_nat (List.length (gd_items doc)) /\
    gd_username doc = username /\
    load_saved_grocery_list L' doc =
      mk_glist (smart_recommendations L') (selected_items L) (custom_items L).
Proof.
  intros [Hsel Hcus]. unfold save_grocery_list.
  destruct (selected_items L ++ custom_items L) as [|e es] eqn:Eall.
  - split; [split; reflexivity|]. intros doc [=].
  - split; [split; discriminate|]. intros doc [= <-]. cbn [gd_items gd_total_items gd_username].
    split; [reflexivity|]. split; [reflexivity|]. split; [reflexivity|].
    rewrite load_saved_grocery_list_eq. cbn [gd_items]. rewrite <- Eall, !filter_app.
    rewrite (filter_Forall_id _ (selected_items L)), (filter_Forall_nil _ (custom_items L)),
            (filter_Forall_nil _ (selected_items L)), (filter_Forall_id _ (custom_items L)).
    + rewrite app_nil_r, app_nil_l. reflexivity.
    + exact Hcus.
    + exact Hsel.
    + eapply Forall_impl; [|exact Hcus]. intros it H. cbv beta. rewrite H. reflexivity.
    + eapply Forall_impl; [|exact Hsel]. intros it H. cbv beta. rewrite H. reflexivity.
Qed.

Lemma Forall_firstn' {A} (P : A -> Prop) l i : Forall P l -> Forall P (firstn i l).
Proof.
  revert i; induction l as [|x r IH]; intros [|i] H; simpl; try constructor.
  - inversion H; assumption.
  - apply IH. inversion H; assumption.
Qed.

Lemma Forall_skipn' {A} (P : A -> Prop) l i : Forall P l -> Forall P (skipn i l).
Proof.
  revert i; induction l as [|x r IH]; intros [|i] H; simpl; try exact H.
  apply IH. inversion H; assumption.
Qed.

Lemma Forall_py_pop {A} (P : A -> Prop) l i x l' : Forall P l -> py_pop l i = Some (x, l') -> Forall P l'.
Proof.
  unfold py_pop. destruct (nth_error l i); [|discriminate]. intros H [= _ <-].
  apply Forall_app. split; [apply Forall_firstn'|apply (Forall_skipn' P l (S i))]; exact H.
Qed.

Lemma remove_numbers_well_typed total ns L removed :
  well_typed L -> well_typed (fst (fst (remove_numbers total ns L removed))).
Proof.
  revert L removed; induction ns as [|k r IH]; intros L removed [Hs Hc]; simpl; [split; assumption|].
  destruct (_ && _); [|apply IH; split; assumption].
  destruct (_ <? _).
  - destruct (py_pop (selected_items L) _) as [[x sel']|] eqn:Hp; [|split; assumption].
    apply IH. split; [exact (Forall_py_pop _ _ _ _ _ Hs Hp)|exact Hc].
  - destruct (py_pop (custom_items L) _) as [[x cus']|] eqn:Hp; [|split; assumption].
    apply IH. split; [exact Hs|exact (Forall_py_pop _ _ _ _ _ Hc Hp)].
Qed.

Lemma well_typed_append_selected L e :
  well_typed L -> is_custom e = false -> well_typed (append_selected L e).
Proof.
  intros [Hs Hc] He. split; [|exact Hc]. simpl. apply Forall_app. split; [exact Hs|].
  constructor; [exact He|constructor].
Qed.

Lemma well_typed_remove_item L n c : well_typed L -> well_typed (remove_item_from_list L n c).
Proof.
  intros [Hs Hc]. split; [|exact Hc]. simpl. rewrite Forall_forall in *.
  intros it Hit. apply filter_In in Hit. apply Hs, Hit.
Qed.

Lemma well_typed_toggle_one items c L k : well_typed L -> well_typed (toggle_one items c L k).
Proof.
  intros H. unfold toggle_one. destruct (_ && _); [|exact H].
  destruct (nth_error _ _); [|exact H]. destruct (is_item_in_list _ _ _).
  - apply well_typed_remove_item, H.
  - apply well_typed_append_selected; [exact H|reflexivity].
Qed.

(** X10: a loaded list has no custom entry among the selected items and
    only custom entries among the custom items, and every editing
    operation of the grocery-list menu keeps this filing. *)
Theorem grocery_list_well_typed_invariant (L : grocery_list) :
  (forall doc, well_typed (load_saved_grocery_list L doc)) /\
  (well_typed L ->
   (forall n c, well_typed (remove_item_from_list L n c)) /\
   (forall items c, well_typed (add_all_items_from_category L items c)) /\
   (forall items c, well_typed (remove_all_items_from_category L items c)) /\
   (forall items c choice, well_typed (toggle_items_by_numbers L items c choice)) /\
   (forall choice, well_typed (fst (fst (remove_items_from_list L choice)))) /\
   (forall choice, well_typed (add_smart_recommendations L choice)) /\
   (forall name_in cat_in quantity_in notes_in,
      well_typed (add_custom_item L name_in cat_in quantity_in notes_in))).
Proof.
  split.
  - intros doc. rewrite load_saved_grocery_list_eq. split; simpl; rewrite Forall_forall;
      intros it Hit; apply filter_In in Hit as [_ H]; [apply negb_true_iff|]; exact H.
  - intros H. split; [|split; [|split; [|split; [|split; [|split]]]]].
    + intros n c. apply well_typed_remove_item, H.
    + intros items c. unfold add_all_items_from_category. revert L H; induction items as [|x r IH];
        intros L H; simpl; [exact H|]. apply IH. destruct (is_item_in_list L x c); [exact H|].
      apply well_typed_append_selected; [exact H|reflexivity].
    + intros items c. unfold remove_all_items_from_category. revert L H; induction items as [|x r IH];
        intros L H; simpl; [exact H|]. apply IH, well_typed_remove_item, H.
    + intros items c choice. unfold toggle_items_by_numbers.
      destruct (parse_numbers choice) as [ns|]; [|exact H].
      revert L H; induction ns as [|k r IH]; intros L H; simpl; [exact H|].
      apply IH, well_typed_toggle_one, H.
    + intros choice. unfold remove_items_from_list.
      destruct (selected_items L ++ custom_items L); [exact H|].
      destruct (String.eqb _ _); [exact H|]. destruct (parse_numbers _); [|exact H].
      apply remove_numbers_well_typed, H.
    + intros choice. unfold add_smart_recommendations.
      destruct (smart_recommendations L) as [|r0 rs]; [exact H|].
      destruct (String.eqb _ _); [exact H|]. destruct (parse_numbers _) as [ns|]; [|exact H].
      revert L H; induction ns as [|k r IH]; intros L H; simpl; [exact H|]. apply IH.
      destruct (_ && _); [|exact H]. destruct (nth_error _ _); [|exact H].
      apply well_typed_append_selected; [exact H|reflexivity].
    + intros a b q n. unfold add_custom_item. destruct (String.eqb _ _); [exact H|].
      destruct H as [Hs Hc]. split; [exact Hs|]. simpl. apply Forall_app. split; [exact Hc|].
      constructor; [reflexivity|constructor].
Qed.

Lemma str_mem_In x l : str_mem x l = true <-> In x l.
Proof.
  unfold str_mem. rewrite existsb_exists. split.
  - intros [y [Hy E]]. apply String.eqb_eq in E. subst. exact Hy.
  - intros H. exists x. split; [exact H|apply String.eqb_refl].
Qed.

Lemma length_filter_split {A} (f : A -> bool) l :
  (List.length (filter f l) + List.length (filter (fun x => negb (f x)) l))%nat = List.length l.
Proof. induction l as [|x r IH]; simpl; [reflexivity|]. destruct (f x); simpl; lia. Qed.

Lemma str_set_inter_sym a b :
  NoDup a -> NoDup b -> List.length (str_set_inter a b) = List.length (str_set_inter b a).
Proof.
  intros Ha Hb. apply Permutation_length. unfold str_set_inter.
  apply NoDup_Permutation; try (apply NoDup_filter; assumption).
  intros x. rewrite !filter_In, !str_mem_In. tauto.
Qed.

(** X11: in [_compare_grocery_lists] each total is the number of common
    names plus the names only in that list, and swapping the two lists
    swaps the figures. *)
Theorem compare_summary_counts (items1 items2 : list gitem) :
  let '(total1, total2, common, only1, only2) := compare_summary items1 items2 in
  total1 = (common + only1)%nat /\ total2 = (common + only2)%nat /\
  compare_summary items2 items1 = (total2, total1, common, only2, only1).
Proof.
  unfold compare_summary.
  assert (N1 : NoDup (name_set items1)) by apply NoDup_nodup.
  assert (N2 : NoDup (name_set items2)) by apply NoDup_nodup.
  split; [|split].
  - unfold str_set_inter, str_set_minus. symmetry. apply length_filter_split.
  - rewrite (str_set_inter_sym _ _ N1 N2). unfold str_set_inter, str_set_minus. symmetry.
    apply length_filter_split.
  - rewrite (str_set_inter_sym _ _ N1 N2). reflexivity.
Qed.

Lemma unique_first_snoc l x :
  unique_first (l ++ [x]) = if str_mem x (unique_first l) then unique_first l else unique_first l ++ [x].
Proof. unfold unique_first. rewrite fold_left_app. reflexivity. Qed.

Lemma str_mem_app x a b : str_mem x (a ++ b) = str_mem x a || str_mem x b.
Proof. unfold str_mem. apply existsb_app. Qed.

Lemma str_mem_unique_first x l : str_mem x (unique_first l) = str_mem x l.
Proof.
  induction l as [|y l IH] using rev_ind; [reflexivity|].
  rewrite unique_first_snoc, str_mem_app. simpl. rewrite orb_false_r.
  destruct (str_mem y (unique_first l)) eqn:E.
  - rewrite IH. destruct (String.eqb x y) eqn:Exy; [|rewrite orb_false_r; reflexivity].
    apply String.eqb_eq in Exy. subst. rewrite <- IH, E. reflexivity.
  - rewrite str_mem_app, IH. simpl. rewrite orb_false_r. reflexivity.
Qed.

Lemma unique_first_nodup l : NoDup (unique_first l).
Proof.
  induction l as [|y l IH] using rev_ind; [constructor|].
  rewrite unique_first_snoc. destruct (str_mem y (unique_first l)) eqn:E; [exact IH|].
  apply NoDup_app; [exact IH|repeat constructor; intros []|].
  intros x Hx [<-|[]]. apply str_mem_In in Hx. congruence.
Qed.

Lemma dict_get_map_form {V} (f : string -> V) ks k :
  dict_get String.eqb k (map (fun c => (c, f c)) ks) = if str_mem k ks then Some (f k) else None.
Proof.
  induction ks as [|c r IH]; simpl; [reflexivity|]. unfold str_mem in *. simpl.
  destruct (String.eqb k c) eqn:E; simpl; [apply String.eqb_eq in E; subst; reflexivity|exact IH].
Qed.

Lemma dict_set_map_form {V} (f : string -> V) ks k v :
  NoDup ks -> In k ks ->
  dict_set String.eqb k v (map (fun c => (c, f c)) ks) =
  map (fun c => (c, if String.eqb c k then v else f c)) ks.
Proof.
  induction ks as [|c r IH]; intros Hnd Hin; [destruct Hin|]. inversion Hnd as [|? ? Hc Hr]; subst.
  simpl. destruct (String.eqb k c) eqn:E.
  - apply String.eqb_eq in E. subst. rewrite String.eqb_refl. f_equal. apply map_ext_in.
    intros c' Hc'. destruct (String.eqb c' c) eqn:E'; [apply String.eqb_eq in E'; subst; contradiction|reflexivity].
  - replace (String.eqb c k) with false by (symmetry; rewrite String.eqb_sym; exact E).
    f_equal. apply IH; [exact Hr|]. destruct Hin as [->|Hin]; [rewrite String.eqb_refl in E; discriminate|exact Hin].
Qed.

Lemma dict_set_absent {V} (d : list (string * V)) k v :
  dict_get String.eqb k d = None -> dict_set String.eqb k v d = d ++ [(k, v)].
Proof.
  induction d as [|[c w] r IH]; simpl; [reflexivity|].
  destruct (String.eqb k c); [discriminate|]. intros H. rewrite IH by exact H. reflexivity.
Qed.

Lemma dict_set_snoc {V} (d : list (string * V)) k v v' :
  dict_get String.eqb k d = None -> dict_set String.eqb k v (d ++ [(k, v')]) = d ++ [(k, v)].
Proof.
  induction d as [|[c w] r IH]; simpl; [rewrite String.eqb_refl; reflexivity|].
  destruct (String.eqb k c); [discriminate|]. intros H. rewrite IH by exact H. reflexivity.
Qed.

Lemma dict_get_snoc {V} (d : list (string * V)) k v :
  dict_get String.eqb k d = None -> dict_get String.eqb k (d ++ [(k, v)]) = Some v.
Proof.
  induction d as [|[c w] r IH]; simpl; [rewrite String.eqb_refl; reflexivity|].
  destruct (String.eqb k c); [discriminate|]. exact IH.
Qed.

Lemma filter_false_nil {A} (f : A -> bool) l : (forall x, In x l -> f x = false) -> filter f l = [].
Proof.
  induction l as [|x r IH]; intros H; simpl; [reflexivity|].
  rewrite (H x (or_introl eq_refl)). apply IH. intros y Hy. apply H. right. exact Hy.
Qed.

Lemma group_by_category_eq items :
  group_by_category items =
  map (fun c => (c, cat_bucket items c)) (unique_first (map gi_category items)).
Proof.
  unfold group_by_category.
  induction items as [|it items IH] using rev_ind; [reflexivity|].
  rewrite fold_left_app, IH. cbn [fold_left]. clear IH.
  rewrite map_app. cbn [map]. rewrite unique_first_snoc.
  unfold dict_mem. rewrite dict_get_map_form, !str_mem_unique_first.
  remember (gi_category it) as cat eqn:Hcat.
  destruct (str_mem cat (map gi_category items)) eqn:E.
  - rewrite dict_get_map_form, str_mem_unique_first, E.
    rewrite dict_set_map_form; [|apply unique_first_nodup|apply str_mem_In; rewrite str_mem_unique_first; exact E].
    apply map_ext_in. intros c Hc. f_equal. unfold cat_bucket. rewrite filter_app. simpl.
    destruct (String.eqb c cat) eqn:Ec.
    + apply String.eqb_eq in Ec. subst c. rewrite <- Hcat, String.eqb_refl. reflexivity.
    + rewrite <- Hcat. replace (String.eqb cat c) with false by (rewrite String.eqb_sym; symmetry; exact Ec).
      rewrite app_nil_r. reflexivity.
  - assert (Hg : dict_get String.eqb cat (map (fun c => (c, cat_bucket items c)) (unique_first (map gi_category items))) = None)
      by (rewrite dict_get_map_form, str_mem_unique_first, E; reflexivity).
    rewrite (dict_set_absent _ cat []) by exact Hg. rewrite dict_get_snoc by exact Hg.
    rewrite dict_set_snoc by exact Hg. rewrite map_app. simpl. f_equal.
    + apply map_ext_in. intros c Hc. f_equal. unfold cat_bucket. rewrite filter_app. simpl.
      rewrite <- Hcat. destruct (String.eqb cat c) eqn:Ec; [|rewrite app_nil_r; reflexivity].
      apply String.eqb_eq in Ec. subst c. apply str_mem_In in Hc.
      rewrite str_mem_unique_first in Hc. congruence.
    + unfold cat_bucket. rewrite filter_app. simpl. rewrite <- Hcat, String.eqb_refl.
      replace (filter _ items) with (@nil gitem); [reflexivity|].
      symmetry. apply filter_false_nil. intros x Hx. destruct (String.eqb (gi_category x) cat) eqn:Ex; [|reflexivity].
      apply String.eqb_eq in Ex. exfalso. assert (Hm : str_mem cat (map gi_category items) = true)
        by (apply str_mem_In, in_map_iff; exists x; split; assumption).
      congruence.
Qed.

Lemma filter_partition_perm {A} (f : A -> bool) l :
  Permutation (filter f l ++ filter (fun x => negb (f x)) l) l.
Proof.
  induction l as [|x r IH]; simpl; [constructor|].
  destruct (f x); simpl.
  - constructor. exact IH.
  - rewrite <- Permutation_middle. constructor. exact IH.
Qed.

Lemma concat_buckets_perm ks l :
  NoDup ks -> (forall it, In it l -> In (gi_category it) ks) ->
  Permutation (List.concat (map (cat_bucket l) ks)) l.
Proof.
  revert l; induction ks as [|k ks IH]; intros l Hnd Hcov; simpl.
  - destruct l as [|it r]; [constructor|]. destruct (Hcov it (or_introl eq_refl)).
  - inversion Hnd as [|? ? Hk Hks]; subst.
    set (l' := filter (fun it => negb (String.eqb (gi_category it) k)) l).
    assert (Heq : map (cat_bucket l) ks = map (cat_bucket l') ks).
    { apply map_ext_in. intros c Hc. unfold cat_bucket, l'. rewrite filter_filter'. apply filter_ext.
      intros it. destruct (String.eqb (gi_category it) c) eqn:E; [|rewrite andb_false_r; reflexivity].
      apply String.eqb_eq in E. subst c. replace (String.eqb (gi_category it) k) with false; [reflexivity|].
      symmetry. apply String.eqb_neq. intros E. rewrite E in Hc. contradiction. }
    rewrite Heq. rewrite (IH l' Hks).
    + apply filter_partition_perm.
    + intros it Hit. unfold l' in Hit. apply filter_In in Hit as [Hit Hne].
      destruct (Hcov it Hit) as [E|E]; [|exact E]. rewrite E, String.eqb_refl in Hne. discriminate.
Qed.

(** X12: the category grouping used by the grocery-list views and the
    export lists each category once, in order of first appearance, with
    its items in order, and the groups together hold exactly the items. *)
Theorem group_by_category_spec (items : list gitem) :
  group_by_category items =
    map (fun c => (c, cat_bucket items c)) (unique_first (map gi_category items)) /\
  NoDup (map fst (group_by_category items)) /\
  Permutation (List.concat (map snd (group_by_category items))) items.
Proof.
  rewrite group_by_category_eq. split; [reflexivity|]. rewrite !map_map. cbn [fst snd].
  split; [rewrite map_id; apply unique_first_nodup|].
  apply (concat_buckets_perm (unique_first (map gi_category items)) items); [apply unique_first_nodup|].
  intros it Hit. apply str_mem_In. rewrite str_mem_unique_first. apply str_mem_In, in_map, Hit.
Qed.

Lemma lstrip_chars_in p l x : In x (lstrip_chars p l) -> In x l.
Proof. induction l as [|c r IH]; simpl; [tauto|]. destruct (p c); [intros H; right; auto|tauto]. Qed.

Lemma py_strip_in s x : In x (list_ascii_of_string (py_strip s)) -> In x (list_ascii_of_string s).
Proof.
  unfold py_strip, rstrip_chars. rewrite list_ascii_of_string_of_list_ascii.
  intros H. apply in_rev in H. apply lstrip_chars_in in H. apply in_rev in H. apply lstrip_chars_in in H. exact H.
Qed.

Lemma split_char_go_in sep l cur piece x :
  In piece (split_char_go sep l cur) -> In x piece -> In x cur \/ In x l.
Proof.
  revert cur; induction l as [|c r IH]; intros cur; simpl.
  - intros [<-|[]] H. left. exact H.
  - destruct (Ascii.eqb c sep).
    + intros [<-|Hp] Hx; [left; exact Hx|]. destruct (IH [] Hp Hx) as [[]|H]. right; right; exact H.
    + intros Hp Hx. destruct (IH _ Hp Hx) as [H|H]; [|right; right; exact H].
      apply in_app_or in H as [H|[<-|[]]]; [left; exact H|right; left; reflexivity].
Qed.

Lemma has_char_false c s : has_char c s = false <-> ~ In c (list_ascii_of_string s).
Proof.
  unfold has_char. split.
  - intros H Hin. assert (existsb (Ascii.eqb c) (list_ascii_of_string s) = true)
      by (apply existsb_exists; exists c; split; [exact Hin|apply Ascii.eqb_refl]). congruence.
  - intros H. destruct (existsb _ _) eqn:E; [|reflexivity]. apply existsb_exists in E as [d [Hd E]].
    apply Ascii.eqb_eq in E. subst. contradiction.
Qed.

Section ParseFacts.
Variable norm : string -> string.
Variable now : Z.

Lemma truthy_some cur c : truthy cur = Some c -> cur = Some c /\ c <> ""%string.
Proof.
  destruct cur as [c'|]; simpl; [|discriminate].
  destruct (String.eqb c' "") eqn:E; [discriminate|]. intros [= <-]. split; [reflexivity|].
  apply String.eqb_neq, E.
Qed.

Lemma parse_line_some cur line cur' o :
  parse_line norm now cur line = Some (cur', o) ->
  (cur' = cur \/ cur' = Some (header_of line)) /\
  forall p, o = Some p -> truthy cur = Some (p_category p) /\ good_item now p.
Proof.
  unfold parse_line, header_of.
  destruct (String.eqb (py_strip line) "").
  { intros [= <- <-]. split; [left; reflexivity|discriminate]. }
  destruct (has_char ":" (py_strip line) && negb (starts_dash (py_strip line))).
  { intros [= <- <-]. split; [right; reflexivity|discriminate]. }
  destruct (starts_dash (py_strip line)); [|intros [= <- <-]; split; [left; reflexivity|discriminate]].
  destruct (truthy cur) as [cat|] eqn:Ht; [|intros [= <- <-]; split; [left; reflexivity|discriminate]].
  destruct (truthy_some _ _ Ht) as [_ Hne].
  assert (G : forall p, p_category p = cat -> p_timestamp p = now ->
                (p_quantity p = None \/ p_notes p = None) ->
                Some cat = Some (p_category p) /\ good_item now p)
    by (intros p H1 H2 H3; rewrite H1; split; [reflexivity|split; [congruence|split; assumption]]).
  destruct (contains_sub _ _).
  - destruct (py_split_sub _ _) as [|a [|b [|d r]]]; try discriminate.
    intros [= <- <-]. split; [left; reflexivity|]. intros p [= <-]. apply G; simpl; auto.
  - destruct (_ && _).
    + destruct (py_split_char _ _) as [|a [|b r]]; intros [= <- <-]; (split; [left; reflexivity|]);
        try discriminate. intros p [= <-]. apply G; simpl; auto.
    + intros [= <- <-]. split; [left; reflexivity|]. intros p [= <-]. apply G; simpl; auto.
Qed.

Lemma parse_lines_some cur lines items :
  parse_lines norm now cur lines = Some items ->
  Forall (fun p => good_item now p /\ In (p_category p) (opt_list (truthy cur) ++ map header_of lines)) items /\
  (List.length items <= List.length lines)%nat.
Proof.
  revert cur items; induction lines as [|line rest IH]; intros cur items; simpl.
  - intros [= <-]. split; [constructor|simpl; lia].
  - destruct (parse_line norm now cur line) as [[cur' o]|] eqn:Hl; [|discriminate].
    destruct (parse_lines norm now cur' rest) as [items'|] eqn:Hr; [|discriminate].
    intros [= <-]. destruct (parse_line_some _ _ _ _ Hl) as [Hc Ho].
    destruct (IH _ _ Hr) as [Hf Hlen]. split.
    + apply Forall_app. split.
      * destruct o as [p|]; simpl; [|constructor]. destruct (Ho p eq_refl) as [Ht Hg].
        constructor; [|constructor]. split; [exact Hg|]. rewrite Ht. left. reflexivity.
      * eapply Forall_impl; [|exact Hf]. intros p [Hg Hin]. split; [exact Hg|].
        apply in_app_or in Hin as [Hin|Hin]; [|apply in_or_app; right; right; exact Hin].
        destruct Hc as [-> | ->]; [apply in_or_app; left; exact Hin|].
        simpl in Hin. destruct (String.eqb (header_of line) "") eqn:E; [destruct Hin|].
        destruct Hin as [<-|[]]. apply in_or_app. right. left. reflexivity.
    + destruct o; simpl; lia.
Qed.

Lemma parse_line_none cur line :
  parse_line norm now cur line = None ->
  let t := py_strip (substring 1 (String.length (py_strip line) - 1) (py_strip line)) in
  starts_dash (py_strip line) = true /\
  contains_sub (list_ascii_of_string "(x") (list_ascii_of_string t) = true /\
  List.length (py_split_sub "(x" t) <> 2%nat.
Proof.
  unfold parse_line. cbv zeta.
  destruct (String.eqb (py_strip line) ""); [discriminate|].
  destruct (_ && _); [discriminate|].
  destruct (starts_dash (py_strip line)) eqn:Hd; [|discriminate].
  destruct (truthy cur); [|discriminate].
  destruct (contains_sub _ _) eqn:Hc.
  - destruct (py_split_sub _ _) as [|a [|b [|d r]]]; try discriminate; intros _;
      (split; [reflexivity|split; [reflexivity|simpl; lia]]).
  - destruct (_ && _); [destruct (py_split_char _ _) as [|a [|b r]]|]; discriminate.
Qed.

Lemma parse_lines_none cur lines :
  parse_lines norm now cur lines = None -> exists cur' line, In line lines /\ parse_line norm now cur' line = None.
Proof.
  revert cur; induction lines as [|line rest IH]; intros cur; simpl; [discriminate|].
  destruct (parse_line norm now cur line) as [[cur' o]|] eqn:Hl.
  - destruct (parse_lines norm now cur' rest) eqn:Hr; [discriminate|]. intros _.
    destruct (IH _ Hr) as [c [l [Hin H]]]. exists c, l. split; [right; exact Hin|exact H].
  - intros _. exists cur, line. split; [left; reflexivity|exact Hl].
Qed.

Lemma parse_lines_no_header lines :
  (forall line, In line lines -> has_char ":" line = false) -> parse_lines norm now None lines = Some [].
Proof.
  induction lines as [|line rest IH]; intros H; simpl; [reflexivity|].
  assert (Hs : has_char ":" (py_strip line) = false).
  { apply has_char_false. intros Hin. apply py_strip_in in Hin.
    apply (has_char_false ":" line); [apply H; left; reflexivity|exact Hin]. }
  unfold parse_line. rewrite Hs. cbn [andb].
  destruct (String.eqb (py_strip line) ""); cbn [truthy];
    (destruct (starts_dash (py_strip line)) || idtac); rewrite IH by (intros l Hl; apply H; right; exact Hl);
    reflexivity.
Qed.
End ParseFacts.

(** X13: each item [parse_inventory] returns has a nonempty category taken
    from a header line, the current time, and not both a quantity and
    notes, with at most one item per line; a text without a colon gives
    no item; it fails only on a dash line with [(x] that does not split in
    two. *)
Theorem parse_inventory_spec (normalize_ingredient_name : string -> string) (now : Z) (items_text : string) :
  (forall items, parse_inventory normalize_ingredient_name now items_text = Some items ->
     (List.length items <= List.length (py_split_char "010"%char items_text))%nat /\
     Forall (fun p => p_category p <> ""%string /\
                      In (p_category p) (map header_of (py_split_char "010"%char items_text)) /\
                      p_timestamp p = now /\ (p_quantity p = None \/ p_notes p = None)) items) /\
  (has_char ":"%char items_text = false -> parse_inventory normalize_ingredient_name now items_text = Some []) /\
  (parse_inventory normalize_ingredient_name now items_text = None ->
     exists line, In line (py_split_char "010"%char items_text) /\
       let t := py_strip (substring 1 (String.length (py_strip line) - 1) (py_strip line)) in
       starts_dash (py_strip line) = true /\
       contains_sub (list_ascii_of_string "(x") (list_ascii_of_string t) = true /\
       List.length (py_split_sub "(x" t) <> 2%nat).
Proof.
  unfold parse_inventory. split; [|split].
  - intros items H. destruct (parse_lines_some normalize_ingredient_name now _ _ _ H) as [Hf Hl].
    split; [exact Hl|]. eapply Forall_impl; [|exact Hf]. intros p [[H1 [H2 H3]] H4].
    split; [exact H1|]. split; [exact H4|]. split; assumption.
  - intros Hc. apply parse_lines_no_header. intros line Hin.
    apply has_char_false. intros Hx. unfold py_split_char in Hin. apply in_map_iff in Hin as [piece [<- Hp]].
    rewrite list_ascii_of_string_of_list_ascii in Hx.
    destruct (split_char_go_in _ _ _ _ _ Hp Hx) as [[]|Hx'].
    apply (has_char_false ":" items_text); assumption.
  - intros H. destruct (parse_lines_none normalize_ingredient_name now _ _ H) as [cur [line [Hin Hl]]].
    exists line. split; [exact Hin|]. exact (parse_line_none _ _ _ _ Hl).
Qed.

Lemma pick_category_int (cats : list string) (s d : string) (k : Z) :
  py_int s = Some k ->
  pick_category cats s d =
    if (1 - Z.of_nat (List.length cats) <=? k) && (k <=? Z.of_nat (List.length cats)) then
      match nth_error cats (Z.to_nat ((k - 1) mod Z.of_nat (List.length cats))) with
      | Some c => c | None => d end
    else d.
Proof.
  intros Hk. unfold pick_category, py_index. rewrite Hk.
  set (m := Z.of_nat (List.length cats)).
  destruct (0 <=? k - 1) eqn:E0.
  - apply Z.leb_le in E0. destruct (k <=? m) eqn:E1.
    + apply Z.leb_le in E1. replace (1 - m <=? k) with true by (symmetry; apply Z.leb_le; lia).
      simpl. rewrite Z.mod_small by lia. reflexivity.
    + apply Z.leb_gt in E1. rewrite andb_false_r.
      replace (nth_error cats (Z.to_nat (k - 1))) with (@None string); [reflexivity|].
      symmetry. apply nth_error_None. unfold m in E1. lia.
  - apply Z.leb_gt in E0. replace (k <=? m) with true by (symmetry; apply Z.leb_le; lia).
    rewrite andb_true_r. destruct (- m <=? k - 1) eqn:E1.
    + apply Z.leb_le in E1. replace (1 - m <=? k) with true by (symmetry; apply Z.leb_le; lia).
      replace ((k - 1) mod m) with (m + (k - 1)); [reflexivity|].
      rewrite <- (Z.mod_small (m + (k - 1)) m) by lia.
      rewrite Z.add_comm, <- Zplus_mod_idemp_r, Z_mod_same_full, Z.add_0_r. reflexivity.
    + apply Z.leb_gt in E1. replace (1 - m <=? k) with false by (symmetry; apply Z.leb_gt; lia).
      reflexivity.
Qed.

Lemma py_int_empty : py_int ""%string = None.
Proof. reflexivity. Qed.

(** X14: [_add_custom_item] ignores an empty name; otherwise it appends
    one custom item with the stripped name, quantity and notes, its
    category being [Other] for an empty input, the numbered category for a
    number Python's indexing accepts, and the typed text otherwise. *)
Theorem add_custom_item_spec (L : grocery_list) (name_in cat_in quantity_in notes_in : string) :
  (py_strip name_in = ""%string -> add_custom_item L name_in cat_in quantity_in notes_in = L) /\
  (py_strip name_in <> ""%string ->
   let L' := add_custom_item L name_in cat_in quantity_in notes_in in
   selected_items L' = selected_items L /\ smart_recommendations L' = smart_recommendations L /\
   exists it, custom_items L' = custom_items L ++ [it] /\
     gi_name it = py_strip name_in /\ is_custom it = true /\
     gi_quantity it = Some (py_strip quantity_in) /\ gi_notes it = Some (py_strip notes_in) /\
     (py_strip cat_in = ""%string -> gi_category it = "Other"%string) /\
     (forall k, py_int (py_strip cat_in) = Some k -> -7 <= k <= 8 ->
        Some (gi_category it) = nth_error custom_categories (Z.to_nat ((k - 1) mod 8))) /\
     (forall k, py_int (py_strip cat_in) = Some k -> (k < -7 \/ 8 < k) ->
        gi_category it = py_strip cat_in) /\
     (py_int (py_strip cat_in) = None -> py_strip cat_in <> ""%string ->
        gi_category it = py_strip cat_in)).
Proof.
  unfold add_custom_item. split.
  - intros H. rewrite H. reflexivity.
  - intros H. cbv zeta. replace (String.eqb (py_strip name_in) "") with false by (symmetry; apply String.eqb_neq, H).
    split; [reflexivity|]. split; [reflexivity|].
    eexists. split; [reflexivity|]. cbn [gi_name gi_category gi_quantity gi_notes].
    split; [reflexivity|]. split; [reflexivity|]. split; [reflexivity|]. split; [reflexivity|].
    split; [|split; [|split]].
    + intros E. rewrite E. reflexivity.
    + intros k Hk Hr. rewrite (pick_category_int _ _ _ k Hk). cbn [List.length custom_categories].
      replace ((1 - Z.of_nat 8 <=? k) && (k <=? Z.of_nat 8)) with true
        by (symmetry; apply andb_true_iff; split; apply Z.leb_le; lia).
      assert (Hm : (Z.to_nat ((k - 1) mod 8) < 8)%nat) by (pose proof (Z.mod_pos_bound (k - 1) 8); lia).
      destruct (nth_error custom_categories (Z.to_nat ((k - 1) mod Z.of_nat 8))) eqn:En.
      * symmetry; exact En.
      * apply nth_error_None in En. simpl in En. lia.
    + intros k Hk Hr. rewrite (pick_category_int _ _ _ k Hk). cbn [List.length custom_categories].
      replace ((1 - Z.of_nat 8 <=? k) && (k <=? Z.of_nat 8)) with false
        by (symmetry; apply andb_false_iff; destruct Hr; [left|right]; apply Z.leb_gt; lia).
      destruct (String.eqb (py_strip cat_in) "") eqn:E; [|reflexivity].
      apply String.eqb_eq in E. rewrite E, py_int_empty in Hk. discriminate.
    + intros Hn Hne. unfold pick_category. rewrite Hn.
      replace (String.eqb (py_strip cat_in) "") with false by (symmetry; apply String.eqb_neq, Hne).
      reflexivity.
Qed.

(** X15: the category prompt of [add_item_manually] maps a number Python's
    indexing accepts to that category and keeps any other input as
    typed. *)
Theorem manual_category_spec (cat_choice : string) :
  (forall k, py_int cat_choice = Some k -> -6 <= k <= 7 ->
     Some (manual_category cat_choice) = nth_error manual_categories (Z.to_nat ((k - 1) mod 7))) /\
  (forall k, py_int cat_choice = Some k -> (k < -6 \/ 7 < k) -> manual_category cat_choice = cat_choice) /\
  (py_int cat_choice = None -> manual_category cat_choice = cat_choice).
Proof.
  unfold manual_category. split; [|split].
  - intros k Hk Hr. rewrite (pick_category_int _ _ _ k Hk). cbn [List.length manual_categories].
    replace ((1 - Z.of_nat 7 <=? k) && (k <=? Z.of_nat 7)) with true
      by (symmetry; apply andb_true_iff; split; apply Z.leb_le; lia).
    assert (Hm : (Z.to_nat ((k - 1) mod 7) < 7)%nat) by (pose proof (Z.mod_pos_bound (k - 1) 7); lia).
    destruct (nth_error manual_categories (Z.to_nat ((k - 1) mod Z.of_nat 7))) eqn:En.
    + symmetry; exact En.
    + apply nth_error_None in En. simpl in En. lia.
  - intros k Hk Hr. rewrite (pick_category_int _ _ _ k Hk). cbn [List.length manual_categories].
    replace ((1 - Z.of_nat 7 <=? k) && (k <=? Z.of_nat 7)) with false
      by (symmetry; apply andb_false_iff; destruct Hr; [left|right]; apply Z.leb_gt; lia).
    reflexivity.
  - intros Hn. unfold pick_category. rewrite Hn. reflexivity.
Qed.

Lemma remove_numbers_app total ns1 ns2 L r :
  remove_numbers total (ns1 ++ ns2) L r =
  match remove_numbers total ns1 L r with
  | (L', r', true) => (L', r', true)
  | (L', r', false) => remove_numbers total ns2 L' r'
  end.
Proof.
  revert L r; induction ns1 as [|k ns1 IH]; intros L r; simpl; [reflexivity|].
  destruct (_ && _); [|apply IH].
  destruct (_ <? _).
  - destruct (py_pop _ _) as [[x l']|]; [apply IH|reflexivity].
  - destruct (py_pop _ _) as [[x l']|]; [apply IH|reflexivity].
Qed.

Lemma drop_pos_single_len {A} (l : list A) start p :
  start <= p < start + Z.of_nat (List.length l) ->
  List.length (drop_pos l start [p]) = (List.length l - 1)%nat.
Proof.
  revert start; induction l as [|x r IH]; intros start H; simpl in H |- *; [lia|].
  destruct (start =? p) eqn:E; simpl.
  - apply Z.eqb_eq in E. subst. rewrite drop_pos_beyond; [lia|]. intros q [<-|[]]. lia.
  - apply Z.eqb_neq in E. rewrite IH by lia. destruct r; simpl in *; lia.
Qed.

Lemma drop_pos_pop_next {A} (l : list A) start i :
  (S i < List.length l)%nat ->
  exists x, nth_error l (S i) = Some x /\
    py_pop (drop_pos l start [start + Z.of_nat i]) i =
    Some (x, drop_pos l start [start + Z.of_nat i; start + Z.of_nat i + 1]).
Proof.
  revert start i; induction l as [|a r IH]; intros start i Hi; simpl in Hi; [lia|].
  destruct i as [|i].
  - destruct r as [|b r]; simpl in Hi; [lia|]. exists b. split; [reflexivity|].
    rewrite Z.add_0_r. cbn [drop_pos existsb]. rewrite Z.eqb_refl.
    replace (start + 1 =? start) with false by (symmetry; apply Z.eqb_neq; lia).
    replace (start + 1 =? start + 1) with true by (symmetry; apply Z.eqb_eq; lia). simpl.
    rewrite !drop_pos_beyond; [reflexivity| |]; intros q Hq; simpl in Hq; lia.
  - destruct (IH (start + 1) i) as [x [Hn Hp]]; [lia|]. exists x. split; [exact Hn|].
    cbn [drop_pos existsb].
    replace (start =? start + Z.of_nat (S i)) with false by (symmetry; apply Z.eqb_neq; lia).
    replace (start =? start + Z.of_nat (S i) + 1) with false by (symmetry; apply Z.eqb_neq; lia).
    cbn [orb app]. replace (start + Z.of_nat (S i)) with (start + 1 + Z.of_nat i) by lia.
    rewrite py_pop_cons, Hp. reflexivity.
Qed.

Lemma sort_desc_twice k : sort_desc [k; k] = [k; k].
Proof. unfold sort_desc, sort_by. simpl. rewrite Z.ltb_irrefl. reflexivity. Qed.

Lemma map_Some_inj {A} (l1 l2 : list A) : map Some l1 = map Some l2 -> l1 = l2.
Proof.
  revert l2; induction l1 as [|x r IH]; intros [|y r2]; simpl; try discriminate; [reflexivity|].
  intros [= -> H]. f_equal. apply IH, H.
Qed.

Lemma keep_pos_two {A} (l : list A) k x y :
  1 <= k -> nth_error l (Z.to_nat (k - 1)) = Some x -> nth_error l (Z.to_nat k) = Some y ->
  keep_pos l 1 [k; k + 1] = [x; y].
Proof.
  intros Hk Hx Hy. apply map_Some_inj. rewrite <- (keep_pos_enum l 1 [k; k + 1] [k; k + 1]).
  - simpl. rewrite Hx. replace (k + 1 - 1) with k by lia. rewrite Hy. reflexivity.
  - repeat constructor; lia.
  - intros p. split.
    + intros Hp. split; [|exact Hp]. assert (Z.to_nat k < List.length l)%nat
        by (apply nth_error_Some; congruence). destruct Hp as [<-|[<-|[]]]; lia.
    + intros [_ Hp]. exact Hp.
Qed.

Lemma keep_pos_one {A} (l : list A) k x :
  1 <= k -> nth_error l (Z.to_nat (k - 1)) = Some x -> keep_pos l 1 [k] = [x].
Proof.
  intros Hk Hx. apply map_Some_inj. rewrite <- (keep_pos_enum l 1 [k] [k]).
  - simpl. rewrite Hx. reflexivity.
  - repeat constructor.
  - intros p. split.
    + intros Hp. split; [|exact Hp]. assert (Z.to_nat (k - 1) < List.length l)%nat
        by (apply nth_error_Some; congruence). destruct Hp as [<-|[]]; lia.
    + intros [_ Hp]. exact Hp.
Qed.

Lemma rn_step_next sm sel cus k r :
  1 <= k < Z.of_nat (List.length (sel ++ cus)) ->
  remove_numbers (Z.of_nat (List.length (sel ++ cus))) [k]
    (mk_glist sm (drop_pos sel 1 [k]) (drop_pos cus (Z.of_nat (List.length sel) + 1) [k])) r =
  (mk_glist sm (drop_pos sel 1 [k; k + 1]) (drop_pos cus (Z.of_nat (List.length sel) + 1) [k; k + 1]),
   r ++ [name_at sel cus (k + 1)], false).
Proof.
  rewrite length_app. intros Hk.
  cbn [remove_numbers selected_items custom_items].
  replace ((1 <=? k) && (k <=? Z.of_nat (List.length sel + List.length cus))) with true
    by (symmetry; apply andb_true_iff; split; apply Z.leb_le; lia).
  unfold name_at. replace (k + 1 - 1) with k by lia.
  destruct (Z_lt_ge_dec k (Z.of_nat (List.length sel))) as [Hlt|Hge]; [|destruct (Z.eq_dec k (Z.of_nat (List.length sel))) as [Heq|Hne]].
  - rewrite (drop_pos_single_len sel 1 k) by lia.
    replace (k - 1 <? Z.of_nat (List.length sel - 1)) with true by (symmetry; apply Z.ltb_lt; lia).
    destruct (drop_pos_pop_next sel 1 (Z.to_nat (k - 1))) as [x [Hn Hp]]; [lia|].
    replace (1 + Z.of_nat (Z.to_nat (k - 1))) with k in Hp by lia.
    rewrite Hp. cbn [remove_numbers]. unfold set_selected. simpl.
    rewrite !(drop_pos_irrel cus) by lia.
    rewrite nth_error_app1 by lia. replace (Z.to_nat k) with (S (Z.to_nat (k - 1))) by lia.
    rewrite Hn. reflexivity.
  - subst k. set (s := Z.of_nat (List.length sel)). rewrite (drop_pos_single_len sel 1 s) by lia.
    replace (s - 1 <? Z.of_nat (List.length sel - 1)) with false by (symmetry; apply Z.ltb_ge; lia).
    replace (s - 1 - Z.of_nat (List.length sel - 1)) with 0 by lia.
    rewrite (drop_pos_irrel cus) by lia.
    destruct (drop_pos_pop cus (s + 1) [] 0) as [x [Hn Hp]]; [intros q []|lia|].
    simpl Z.to_nat. rewrite Hp. cbn [remove_numbers]. unfold set_custom. simpl.
    rewrite Z.add_0_r, (drop_pos_irrel cus (s + 1) [s + 1] s) by lia.
    rewrite (drop_pos_ext sel 1 [s] [s; s + 1]) by (intros p Hp0; simpl; intuition lia).
    rewrite nth_error_app2 by lia. replace (Z.to_nat s - List.length sel)%nat with 0%nat by lia.
    rewrite Hn. reflexivity.
  - remember (Z.of_nat (List.length sel)) as s eqn:Hs. assert (Hgt : s < k) by lia.
    rewrite (drop_pos_beyond sel 1 [k]) by (intros q [<-|[]]; lia).
    replace (k - 1 <? Z.of_nat (List.length sel)) with false by (symmetry; apply Z.ltb_ge; lia).
    destruct (drop_pos_pop_next cus (s + 1) (Z.to_nat (k - 1 - s))) as [x [Hn Hp]]; [lia|].
    replace (s + 1 + Z.of_nat (Z.to_nat (k - 1 - s))) with k in Hp by lia.
    rewrite <- Hs, Hp. cbn [remove_numbers]. unfold set_custom. simpl.
    rewrite (drop_pos_beyond sel 1 [k; k + 1]) by (intros q Hq; simpl in Hq; lia).
    rewrite nth_error_app2 by lia. replace (Z.to_nat k - List.length sel)%nat with (S (Z.to_nat (k - 1 - s))) by lia.
    rewrite Hn. reflexivity.
Qed.

Lemma rn_step_end sm sel cus k r :
  k = Z.of_nat (List.length (sel ++ cus)) -> 1 <= k ->
  remove_numbers k [k]
    (mk_glist sm (drop_pos sel 1 [k]) (drop_pos cus (Z.of_nat (List.length sel) + 1) [k])) r =
  (mk_glist sm (drop_pos sel 1 [k]) (drop_pos cus (Z.of_nat (List.length sel) + 1) [k]), r, true).
Proof.
  rewrite length_app. intros Hk H1.
  assert (Hab : (List.length (drop_pos sel 1 [k]) +
                 List.length (drop_pos cus (Z.of_nat (List.length sel) + 1) [k]) + 1 =
                 List.length sel + List.length cus)%nat).
  { destruct (Nat.eq_dec (List.length cus) 0) as [H0|H0].
    - apply length_zero_iff_nil in H0. subst cus. simpl in *.
      rewrite (drop_pos_single_len sel 1 k) by lia. lia.
    - rewrite (drop_pos_single_len cus _ k) by lia.
      rewrite (drop_pos_beyond sel 1 [k]) by (intros q [<-|[]]; lia). lia. }
  cbn [remove_numbers selected_items custom_items].
  replace ((1 <=? k) && (k <=? k)) with true by (symmetry; apply andb_true_iff; split; apply Z.leb_le; lia).
  replace (k - 1 <? Z.of_nat (List.length (drop_pos sel 1 [k]))) with false
    by (symmetry; apply Z.ltb_ge; lia).
  replace (Z.to_nat (k - 1 - Z.of_nat (List.length (drop_pos sel 1 [k]))))
    with (List.length (drop_pos cus (Z.of_nat (List.length sel) + 1) [k])) by lia.
  unfold py_pop. rewrite (proj2 (nth_error_None _ _)) by lia. reflexivity.
Qed.

Lemma drop_pos_nil_id {A} (l : list A) start : drop_pos l start [] = l.
Proof. apply drop_pos_beyond. intros q []. Qed.

Lemma remove_numbers_first sm sel cus k :
  1 <= k <= Z.of_nat (List.length (sel ++ cus)) ->
  remove_numbers (Z.of_nat (List.length (sel ++ cus))) [k] (mk_glist sm sel cus) [] =
  (mk_glist sm (drop_pos sel 1 [k]) (drop_pos cus (Z.of_nat (List.length sel) + 1) [k]),
   [name_at sel cus k], false).
Proof.
  intros Hk.
  pose proof (remove_numbers_desc sm sel cus [k] [] []) as H.
  rewrite !drop_pos_nil_id in H. rewrite H.
  - unfold valid_num. simpl.
    replace ((1 <=? k) && (k <=? Z.of_nat (List.length (sel ++ cus)))) with true
      by (symmetry; apply andb_true_iff; split; apply Z.leb_le; lia).
    reflexivity.
  - repeat constructor.
  - intros q r [].
Qed.

(** X7: with the same number [k] typed twice, [_remove_items_from_list]
    removes entry [k] and then the entry that moved into its place, entry
    [k + 1]; when [k] is the last entry the second pop raises [IndexError]
    after the first removal; an out-of-range [k] changes nothing. *)
Theorem remove_items_from_list_repeated (L : grocery_list) (choice : string) (k : Z) :
  parse_numbers (py_strip choice) = Some [k; k] ->
  let sel := selected_items L in
  let cus := custom_items L in
  let s := Z.of_nat (List.length sel) in
  let total := Z.of_nat (List.length (sel ++ cus)) in
  (1 <= k < total ->
     remove_items_from_list L choice =
       (mk_glist (smart_recommendations L) (drop_pos sel 1 [k; k + 1]) (drop_pos cus (s + 1) [k; k + 1]),
        map gi_name (keep_pos (sel ++ cus) 1 [k; k + 1]), false)) /\
  (1 <= k /\ k = total ->
     remove_items_from_list L choice =
       (mk_glist (smart_recommendations L) (drop_pos sel 1 [k]) (drop_pos cus (s + 1) [k]),
        map gi_name (keep_pos (sel ++ cus) 1 [k]), true)) /\
  (k < 1 \/ total < k -> remove_items_from_list L choice = (L, [], false)).
Proof.
  destruct L as [sm sel cus]. intros Hp. cbv zeta. cbn [selected_items custom_items smart_recommendations].
  assert (Hr : sel ++ cus <> [] -> remove_items_from_list (mk_glist sm sel cus) choice =
            remove_numbers (Z.of_nat (List.length (sel ++ cus))) ([k] ++ [k]) (mk_glist sm sel cus) []).
  { intros Hne. unfold remove_items_from_list. cbn [selected_items custom_items].
    destruct (String.eqb_spec (py_strip choice) "0") as [E0|E0].
    - rewrite E0 in Hp. vm_compute in Hp. discriminate.
    - destruct (sel ++ cus) as [|g l] eqn:E; [congruence|].
      cbv beta iota zeta. rewrite Hp, sort_desc_twice. reflexivity. }
  split; [|split].
  - intros Hk. rewrite Hr by (intros E; rewrite E in Hk; simpl in Hk; lia).
    rewrite remove_numbers_app, remove_numbers_first by lia.
    rewrite rn_step_next by lia.
    destruct (nth_error (sel ++ cus) (Z.to_nat (k - 1))) as [x|] eqn:Ex;
      [|apply nth_error_None in Ex; lia].
    destruct (nth_error (sel ++ cus) (Z.to_nat k)) as [y|] eqn:Ey;
      [|apply nth_error_None in Ey; lia].
    rewrite (keep_pos_two _ k x y) by (assumption || lia). unfold name_at.
    replace (k + 1 - 1) with k by lia. rewrite Ex, Ey. reflexivity.
  - intros [H1 Hk]. rewrite Hr by (intros E; rewrite E in Hk; simpl in Hk; lia).
    rewrite remove_numbers_app, remove_numbers_first by lia.
    rewrite <- Hk at 1. rewrite rn_step_end by assumption.
    destruct (nth_error (sel ++ cus) (Z.to_nat (k - 1))) as [x|] eqn:Ex;
      [|apply nth_error_None in Ex; lia].
    rewrite (keep_pos_one _ k x) by assumption. unfold name_at. rewrite Ex. reflexivity.
  - intros Hk. destruct (sel ++ cus) as [|g l] eqn:E.
    + unfold remove_items_from_list. cbn [selected_items custom_items]. rewrite E. reflexivity.
    + rewrite Hr by congruence. cbn [app remove_numbers].
      replace ((1 <=? k) && (k <=? Z.of_nat (List.length (g :: l)))) with false
        by (symmetry; apply andb_false_iff;
            destruct Hk; [left; apply Z.leb_gt | right; apply Z.leb_gt]; lia).
      reflexivity.
Qed.


(** ** Witnesses: the claims' hypotheses are satisfiable *)

Module Witnesses.

Definition milk (q : string) : item := mk_item "milk" "dairy" (Some q) "" 0.

Lemma diff_buckets_partition_witness :
  (forall l : list key, Permutation (id l) l) /\
  buckets_containing ("milk"%string, "dairy"%string)
    (compute_inventory_diff id [milk "2"] [milk "1"]) = 1%nat.
Proof.
  split; [intros l; apply Permutation_refl|].
  rewrite (diff_buckets_partition id (fun l => Permutation_refl l)). reflexivity.
Defined.

Lemma update_recomputes_every_rate_witness :
  wf_patterns [] /\
  exists P', update_consumption_patterns [] (mk_diff [] [milk "1"] [] []) 0 = Some P' /\
             wf_patterns P'.
Proof.
  assert (Hwf : wf_patterns []) by (intros n p H; discriminate).
  split; [exact Hwf|].
  destruct (update_recomputes_every_rate [] (mk_diff [] [milk "1"] [] []) 0 Hwf)
    as [P' [H1 [H2 _]]].
  exists P'. split; assumption.
Defined.

Lemma restock_leaves_pattern_unchanged_witness :
  let d := mk_diff [] [] [(milk "3", 2%Q)] [] in
  changed d = [] ++ (milk "3", 2%Q) :: [] /\ (0 < 2)%Q /\
  update_consumption_patterns [("milk"%string, mk_pattern 0 0 [])] d 0 =
    update_consumption_patterns [("milk"%string, mk_pattern 0 0 [])] (mk_diff [] [] [] []) 0 /\
  events_for (py_lower (name (milk "3"))) d 0 = [].
Proof.
  cbv zeta.
  assert (Hch : changed (mk_diff [] [] [(milk "3", 2%Q)] []) = [] ++ (milk "3", 2%Q) :: [])
    by reflexivity.
  assert (Hpos : (0 < 2)%Q) by (vm_compute; reflexivity).
  split; [exact Hch|]. split; [exact Hpos|]. split.
  - exact (proj1 (restock_leaves_pattern_unchanged
                    [("milk"%string, mk_pattern 0 0 [])] _ 0 _ _ [] [] Hch Hpos)).
  - vm_compute. reflexivity.
Defined.

Lemma save_items_appends_reduction_twice_witness :
  [milk "1"] <> [] /\
  exists P3, update_consumption_patterns []
               (compute_inventory_diff id [milk "2"] [milk "1"]) 5 = Some P3.
Proof.
  assert (Hne : [milk "1"] <> []) by discriminate.
  split; [exact Hne|].
  destruct (save_items_appends_reduction_twice id [] [milk "2"] [milk "1"] 7 5 Hne)
    as [P3 [H _]].
  exists P3. exact H.
Defined.

Definition fmt0 (_ : Q) : string := "0.0".
Definition milk_group : group := mk_group "Milk" "Dairy" 1 (Some 0).

Lemma ranker_suppression_last_item_witness :
  In milk_group [milk_group] /\
  ((exists r, In r (get_smart_recommendations fmt0 0 [] [milk "0.4"] [milk_group]) /\
              r_name r = g_name milk_group /\ r_category r = g_category milk_group) <->
   ~ suppressed [milk "0.4"] milk_group).
Proof.
  assert (Hin : In milk_group [milk_group]) by (left; reflexivity).
  split; [exact Hin|].
  exact (proj1 (ranker_suppression_last_item fmt0 0 [] [milk "0.4"] [milk_group] milk_group Hin)).
Defined.

Lemma ranker_urgency_classification_witness :
  let r := mk_recommendation "Milk" "Dairy" "Recently consumed" Medium (Some 0) 0 in
  In r (get_smart_recommendations fmt0 0 [] [] [milk_group]) /\
  exists g, In g [milk_group] /\ r_rate r = get_rate [] (py_lower (g_name g)) /\
            days_since 0 (g_last_consumed g) < 3.
Proof.
  cbv zeta.
  assert (Hin : In (mk_recommendation "Milk" "Dairy" "Recently consumed" Medium (Some 0) 0)
                  (get_smart_recommendations fmt0 0 [] [] [milk_group]))
    by (vm_compute; left; reflexivity).
  split; [exact Hin|].
  destruct (ranker_urgency_classification fmt0 0 [] [] [milk_group] _ Hin)
    as [g [Hg [_ [_ [_ [Hr [_ [HM _]]]]]]]].
  exists g. split; [exact Hg|]. split; [exact Hr|].
  apply (proj1 HM). reflexivity.
Defined.

End Witnesses.

(** ** Witnesses: the hypotheses of the further properties are satisfiable *)

Module ExtraWitnesses.

(** Three common entries and one custom entry. *)
Definition sample_list : grocery_list :=
  mk_glist []
    [common_entry "Milk" "Dairy"; common_entry "Eggs" "Dairy"; common_entry "Bread" "Bakery"]
    [mk_gitem "Soap" "Other" (Some "custom"%string) (Some "1"%string) (Some ""%string) None None].

Lemma remove_all_after_add_all_witness :
  (forall it, In it ["Cheese"; "Yogurt"]%string -> is_item_in_list sample_list it "Dairy" = false) /\
  remove_all_items_from_category
    (add_all_items_from_category sample_list ["Cheese"; "Yogurt"]%string "Dairy")
    ["Cheese"; "Yogurt"]%string "Dairy" = sample_list.
Proof.
  assert (H : forall it, In it ["Cheese"; "Yogurt"]%string ->
                is_item_in_list sample_list it "Dairy" = false)
    by (intros it [<- | [<- | []]]; vm_compute; reflexivity).
  split; [exact H|].
  exact (remove_all_after_add_all sample_list _ _ H).
Defined.

Lemma remove_items_from_list_distinct_witness :
  (py_strip " 3, 1 " <> "0"%string /\
   parse_numbers (py_strip " 3, 1 ") = Some [3; 1] /\ NoDup [3; 1]) /\
  remove_items_from_list sample_list " 3, 1 " =
    (mk_glist (smart_recommendations sample_list) (drop_pos (selected_items sample_list) 1 [3; 1])
       (drop_pos (custom_items sample_list)
          (Z.of_nat (List.length (selected_items sample_list)) + 1) [3; 1]),
     rev (map gi_name (keep_pos (selected_items sample_list ++ custom_items sample_list) 1 [3; 1])),
     false).
Proof.
  assert (H1 : py_strip " 3, 1 " <> "0"%string) by (vm_compute; discriminate).
  assert (H2 : parse_numbers (py_strip " 3, 1 ") = Some [3; 1]) by (vm_compute; reflexivity).
  assert (H3 : NoDup [3; 1]) by (repeat constructor; simpl; lia).
  split; [split; [exact H1 | split; [exact H2 | exact H3]]|].
  exact (remove_items_from_list_distinct sample_list " 3, 1 " [3; 1] H1 H2 H3).
Defined.

Lemma remove_items_from_list_repeated_witness :
  parse_numbers (py_strip "2,2") = Some [2; 2] /\
  remove_items_from_list sample_list "2,2" =
    (mk_glist (smart_recommendations sample_list)
       (drop_pos (selected_items sample_list) 1 [2; 2 + 1])
       (drop_pos (custom_items sample_list)
          (Z.of_nat (List.length (selected_items sample_list)) + 1) [2; 2 + 1]),
     map gi_name (keep_pos (selected_items sample_list ++ custom_items sample_list) 1 [2; 2 + 1]),
     false).
Proof.
  assert (H : parse_numbers (py_strip "2,2") = Some [2; 2]) by (vm_compute; reflexivity).
  split; [exact H|].
  apply (proj1 (remove_items_from_list_repeated sample_list "2,2" 2 H)).
  cbn. lia.
Defined.

Lemma save_then_load_round_trip_witness :
  well_typed sample_list /\
  (save_grocery_list (fun _ => "2026-01-01 10:00"%string) "alice" 0 "Weekly" sample_list = None <->
   selected_items sample_list ++ custom_items sample_list = []).
Proof.
  assert (H : well_typed sample_list) by (split; repeat constructor).
  split; [exact H|].
  exact (proj1 (save_then_load_round_trip (fun _ => "2026-01-01 10:00"%string) "alice" 0 "Weekly"
                  sample_list sample_list H)).
Defined.

End ExtraWitnesses.
